(** * Surface-Minder: snapshot ingestion and baseline-delta engine

    A shallow embedding of [parser/tenant_parser.py], of
    [set_baseline_combined] from [create_baseline.py] and of
    [_format_report] from [main.py], followed by the properties of the
    ingestion, baseline and delta operations.

    Conventions of the embedding.
    - Python [str] is [string] (a sequence of bytes, UTF-8 for text outside
      ASCII; byte-wise lexicographic order is then code-point order, which is
      how Python orders [str]); Python [int] is [Z]; a value that may be
      [None] is an [option].  [Py.is_text] tells the byte strings that are
      the UTF-8 form of a [str]; [int] and [strip] see the characters, not
      the bytes.
    - A Python [dict] is an association list in insertion order without
      repeated keys; assigning to a present key keeps its position.
    - A SQLite table is the list of its rows in rowid order; a [SELECT]
      without [ORDER BY] returns rows in that order.
    - The only storage failure that is modelled is binding a Python integer
      that does not fit the 64-bit [INTEGER] of SQLite, which makes
      [execute] raise [OverflowError].  Binding a [str] that cannot be
      encoded (a file name with bytes that are no UTF-8, which [os.listdir]
      hands over as lone surrogates) raises as well; the properties that
      depend on it assume names that are text. *)

From Stdlib Require Import String Ascii List ZArith Bool Lia.
From Stdlib Require Import Permutation Sorting.Sorted DecimalString.
Import ListNotations.

Local Open Scope string_scope.
Local Open Scope Z_scope.

(** ** Python values *)

Module Py.

(** Python's [==] on the hashable values that are used as dictionary keys. *)
Class Eq (A : Type) := eqb : A -> A -> bool.

#[global] Instance Eq_string : Eq string := String.eqb.
#[global] Instance Eq_Z : Eq Z := Z.eqb.

#[global] Instance Eq_option {A} `{Eq A} : Eq (option A) :=
  fun x y =>
    match x, y with
    | Some a, Some b => eqb a b
    | None, None => true
    | _, _ => false
    end.

#[global] Instance Eq_prod {A B} `{Eq A} `{Eq B} : Eq (A * B) :=
  fun x y => eqb (fst x) (fst y) && eqb (snd x) (snd y).

(** [bool(s)] for a string, and for a possibly-[None] string. *)
Definition truthy (s : string) : bool := negb (String.eqb s "").

Definition truthy_opt (s : option string) : bool :=
  match s with
  | Some v => truthy v
  | None => false
  end.

(** *** Insertion-ordered dictionaries *)

Definition dict (K V : Type) : Type := list (K * V).

Section Dict.
Context {K V : Type} `{Eq K}.

(** [d.get(k)] *)
Fixpoint get (d : dict K V) (k : K) : option V :=
  match d with
  | [] => None
  | (k', v) :: rest => if eqb k' k then Some v else get rest k
  end.

(** [k in d] *)
Definition contains (d : dict K V) (k : K) : bool :=
  match get d k with
  | Some _ => true
  | None => false
  end.

(** [d.get(k, dflt)] *)
Definition get_default (d : dict K V) (k : K) (dflt : V) : V :=
  match get d k with
  | Some v => v
  | None => dflt
  end.

(** [d[k] = v]: an existing key keeps its place, a new key goes last. *)
Fixpoint set (d : dict K V) (k : K) (v : V) : dict K V :=
  match d with
  | [] => [(k, v)]
  | (k', v') :: rest =>
      if eqb k' k then (k', v) :: rest else (k', v') :: set rest k v
  end.

Definition keys (d : dict K V) : list K := map fst d.

Definition items (d : dict K V) : list (K * V) := d.

(** What every dictionary built by [set] satisfies: no key occurs twice. *)
Definition wf (d : dict K V) : Prop := NoDup (keys d).
End Dict.

(** *** [set(...)] of strings

    The iteration order of a Python set of strings follows the (per-process
    randomised) string hash: [ips] is a possible iteration order of
    [set(elems)] when it lists every element of [elems] exactly once. *)
Definition set_iteration (elems ips : list string) : Prop :=
  NoDup ips /\ forall x, In x ips <-> In x elems.

(** *** [sorted(l, key=...)] with string keys

    A stable sort; the order on strings is [String.compare]. *)
Section Sorted.
Context {A : Type} (key : A -> string).

Fixpoint insert (x : A) (l : list A) : list A :=
  match l with
  | [] => [x]
  | y :: rest =>
      if String.leb (key x) (key y) then x :: y :: rest
      else y :: insert x rest
  end.

Fixpoint sorted (l : list A) : list A :=
  match l with
  | [] => []
  | x :: rest => insert x (sorted rest)
  end.
End Sorted.

(** *** Strings *)

Definition newline : string := String (ascii_of_nat 10) "".

(** [s.endswith(suffix)] *)
Definition endswith (s suffix : string) : bool :=
  let n := String.length s in
  let m := String.length suffix in
  (m <=? n)%nat && String.eqb (substring (n - m) m s) suffix.

(** [sub in s] *)
Definition substr_in (sub s : string) : bool :=
  match index 0 sub s with
  | Some _ => true
  | None => false
  end.

(** [sep.join(l)] *)
Definition join (sep : string) (l : list string) : string := String.concat sep l.

(** [str(n)] for an integer, and how an f-string renders [None]. *)
Definition str_int (n : Z) : string := NilZero.string_of_int (Z.to_int n).

Definition str_opt (s : option string) : string :=
  match s with
  | Some v => v
  | None => "None"
  end.

(** *** Text

    A [str] is held as its UTF-8 bytes.  [code_points] reads the characters
    back; it is [None] on bytes that are no UTF-8 text (overlong forms,
    surrogates and values above U+10FFFF included), which is what no [str]
    read from a document, a text file or the database is. *)
Definition byte (c : ascii) : Z := Z.of_nat (nat_of_ascii c).

Definition continuation (c : ascii) : bool :=
  (128 <=? byte c) && (byte c <=? 191).

Definition two_bytes (c1 c2 : ascii) : option Z :=
  if (194 <=? byte c1) && (byte c1 <=? 223) && continuation c2
  then Some ((byte c1 - 192) * 64 + (byte c2 - 128))
  else None.

Definition three_bytes (c1 c2 c3 : ascii) : option Z :=
  if (224 <=? byte c1) && (byte c1 <=? 239)
     && continuation c2 && continuation c3
     && (negb (byte c1 =? 224) || (160 <=? byte c2))
     && (negb (byte c1 =? 237) || (byte c2 <=? 159))
  then Some ((byte c1 - 224) * 4096 + (byte c2 - 128) * 64 + (byte c3 - 128))
  else None.

Definition four_bytes (c1 c2 c3 c4 : ascii) : option Z :=
  if (240 <=? byte c1) && (byte c1 <=? 244)
     && continuation c2 && continuation c3 && continuation c4
     && (negb (byte c1 =? 240) || (144 <=? byte c2))
     && (negb (byte c1 =? 244) || (byte c2 <=? 143))
  then Some ((byte c1 - 240) * 262144 + (byte c2 - 128) * 4096
             + (byte c3 - 128) * 64 + (byte c4 - 128))
  else None.

Definition cons_opt (x : option Z) (l : option (list Z)) : option (list Z) :=
  match x, l with
  | Some v, Some vs => Some (v :: vs)
  | _, _ => None
  end.

Fixpoint code_points (s : string) : option (list Z) :=
  match s with
  | EmptyString => Some []
  | String c1 r1 =>
      if byte c1 <? 128 then cons_opt (Some (byte c1)) (code_points r1)
      else
        match r1 with
        | EmptyString => None
        | String c2 r2 =>
            if (byte c1 <? 224)
            then cons_opt (two_bytes c1 c2) (code_points r2)
            else
              match r2 with
              | EmptyString => None
              | String c3 r3 =>
                  if (byte c1 <? 240)
                  then cons_opt (three_bytes c1 c2 c3) (code_points r3)
                  else
                    match r3 with
                    | EmptyString => None
                    | String c4 r4 =>
                        cons_opt (four_bytes c1 c2 c3 c4) (code_points r4)
                    end
              end
        end
  end.

(** Is [s] text, that is, the UTF-8 form of a [str] that can be encoded? *)
Definition is_text (s : string) : bool :=
  match code_points s with
  | Some _ => true
  | None => false
  end.

(** The UTF-8 form of one character. *)
Definition chr (n : Z) : ascii := ascii_of_nat (Z.to_nat n).

Definition utf8 (cp : Z) : string :=
  if cp <? 128 then String (chr cp) ""
  else if cp <? 2048
  then String (chr (192 + cp / 64)) (String (chr (128 + cp mod 64)) "")
  else if cp <? 65536
  then String (chr (224 + cp / 4096))
         (String (chr (128 + (cp / 64) mod 64))
            (String (chr (128 + cp mod 64)) ""))
  else String (chr (240 + cp / 262144))
         (String (chr (128 + (cp / 4096) mod 64))
            (String (chr (128 + (cp / 64) mod 64))
               (String (chr (128 + cp mod 64)) ""))).

(** [c.isspace()] for the character with code point [cp]. *)
Definition isspace (cp : Z) : bool :=
  (9 <=? cp) && (cp <=? 13) || (28 <=? cp) && (cp <=? 32)
  || (cp =? 133) || (cp =? 160) || (cp =? 5760)
  || (8192 <=? cp) && (cp <=? 8202)
  || (cp =? 8232) || (cp =? 8233) || (cp =? 8239) || (cp =? 8287)
  || (cp =? 12288).

(** *** [s.strip()]

    White space is what [isspace] says, so the characters outside ASCII
    count as well.  The bytes are looked at from the front for [lstrip] and
    from the back for [rstrip]; on text a character is white space exactly
    when its bytes are. *)

(** [l] without its first character, when that is white space. *)
Definition space_first (l : list ascii) : option (list ascii) :=
  match l with
  | c1 :: r1 =>
      if byte c1 <? 128 then (if isspace (byte c1) then Some r1 else None)
      else
        match r1 with
        | c2 :: r2 =>
            if byte c1 <? 224 then
              match two_bytes c1 c2 with
              | Some cp => if isspace cp then Some r2 else None
              | None => None
              end
            else
              match r2 with
              | c3 :: r3 =>
                  match three_bytes c1 c2 c3 with
                  | Some cp => if isspace cp then Some r3 else None
                  | None => None
                  end
              | [] => None
              end
        | [] => None
        end
  | [] => None
  end.

(** The same from the back: [l] holds the bytes in reverse, and the result
    is [l] without its last character, when that is white space. *)
Definition space_last (l : list ascii) : option (list ascii) :=
  match l with
  | c1 :: r1 =>
      if byte c1 <? 128 then (if isspace (byte c1) then Some r1 else None)
      else
        match r1 with
        | c2 :: r2 =>
            if continuation c2 then
              match r2 with
              | c3 :: r3 =>
                  match three_bytes c3 c2 c1 with
                  | Some cp => if isspace cp then Some r3 else None
                  | None => None
                  end
              | [] => None
              end
            else
              match two_bytes c2 c1 with
              | Some cp => if isspace cp then Some r2 else None
              | None => None
              end
        | [] => None
        end
  | [] => None
  end.

(** Taking characters off while [first] finds one; [n] bounds the number
    of characters, and the length of the list is enough. *)
Fixpoint drop_spaces (first : list ascii -> option (list ascii)) (n : nat)
    (l : list ascii) : list ascii :=
  match n with
  | O => l
  | S n' =>
      match first l with
      | Some rest => drop_spaces first n' rest
      | None => l
      end
  end.

Definition lstrip_bytes (l : list ascii) : list ascii :=
  drop_spaces space_first (length l) l.

Definition rstrip_bytes (l : list ascii) : list ascii :=
  rev (drop_spaces space_last (length l) (rev l)).

Definition lstrip (s : string) : string :=
  string_of_list_ascii (lstrip_bytes (list_ascii_of_string s)).

Definition rstrip (s : string) : string :=
  string_of_list_ascii (rstrip_bytes (list_ascii_of_string s)).

Definition strip (s : string) : string :=
  string_of_list_ascii
    (rstrip_bytes (lstrip_bytes (list_ascii_of_string s))).

(** *** [int(s)]

    Base-10 [int] of a [str], as CPython 3.11 does it.  The characters are
    first brought to ASCII: a character below U+007F stays, white space
    outside ASCII becomes a blank, and a decimal digit of any script (the
    characters of category Nd, Unicode 14, which come in runs of ten from a
    zero) becomes the ASCII digit of its value; any other character makes
    the call fail.  Then blanks are skipped at both ends (here the six of C's
    [isspace] only), one sign is allowed, and the digits may be separated by
    single underscores.  More than 4300 digits are refused, which is the
    interpreter's default limit.  Every failure raises; [int(None)] raises
    as well; all of them are [None] here. *)
Definition decimal_zeros : list Z :=
  [48; 1632; 1776; 1984; 2406; 2534; 2662; 2790; 2918; 3046; 3174; 3302;
   3430; 3558; 3664; 3792; 3872; 4160; 4240; 6112; 6160; 6470; 6608;
   6784; 6800; 6992; 7088; 7232; 7248; 42528; 43216; 43264; 43472;
   43504; 43600; 44016; 65296; 66720; 68912; 69734; 69872; 69942; 70096;
   70384; 70736; 70864; 71248; 71360; 71472; 71904; 72016; 72784; 73040;
   73120; 92768; 92864; 93008; 120782; 120792; 120802; 120812; 120822;
   123200; 123632; 125264; 130032].

Definition decimal (cp : Z) : option Z :=
  option_map (fun zero => cp - zero)
    (find (fun zero => (zero <=? cp) && (cp <? zero + 10)) decimal_zeros).

Definition to_ascii (cp : Z) : option Z :=
  if cp <? 127 then Some cp
  else if isspace cp then Some 32
  else option_map (Z.add 48) (decimal cp).

Fixpoint all_to_ascii (cps : list Z) : option (list Z) :=
  match cps with
  | [] => Some []
  | cp :: rest => cons_opt (to_ascii cp) (all_to_ascii rest)
  end.

(** [Py_ISSPACE] *)
Definition c_isspace (b : Z) : bool := (9 <=? b) && (b <=? 13) || (b =? 32).

Fixpoint skip_blanks (l : list Z) : list Z :=
  match l with
  | b :: rest => if c_isspace b then skip_blanks rest else l
  | [] => []
  end.

Definition max_str_digits : Z := 4300.

(** The digits from [l] on: the value and the number of digits read, when
    the digits are well separated and only blanks follow them. *)
Fixpoint digits (acc count : Z) (after_digit : bool) (l : list Z)
    : option (Z * Z) :=
  match l with
  | [] => if after_digit then Some (acc, count) else None
  | b :: rest =>
      if (48 <=? b) && (b <=? 57)
      then digits (10 * acc + (b - 48)) (count + 1) true rest
      else if (b =? 95) && after_digit then digits acc count false rest
      else if after_digit && forallb c_isspace l then Some (acc, count)
      else None
  end.

Definition int_of_ascii (l : list Z) : option Z :=
  let l := skip_blanks l in
  let '(sign, body) :=
    match l with
    | 45 :: rest => (-1, rest)
    | 43 :: rest => (1, rest)
    | _ => (1, l)
    end in
  match digits 0 0 false body with
  | Some (value, count) =>
      if count >? max_str_digits then None else Some (sign * value)
  | None => None
  end.

Definition int_of_str (s : string) : option Z :=
  match code_points s with
  | Some cps =>
      match all_to_ascii cps with
      | Some l => int_of_ascii l
      | None => None
      end
  | None => None
  end.

Definition int (x : option string) : option Z :=
  match x with
  | Some s => int_of_str s
  | None => None
  end.

End Py.

(** ** [xml.etree.ElementTree] *)

Module ET.

(** An element: its tag, its attributes and its child elements, in document
    order. *)
#[local] Unset Elimination Schemes.
Inductive Element : Type :=
  Elem (tag : string) (attrib : Py.dict string string) (children : list Element).
#[local] Set Elimination Schemes.

Definition tag (e : Element) : string :=
  let 'Elem t _ _ := e in t.

Definition attrib (e : Element) : Py.dict string string :=
  let 'Elem _ a _ := e in a.

Definition children (e : Element) : list Element :=
  let 'Elem _ _ c := e in c.

(** [e.get(name)] *)
Definition get (e : Element) (name : string) : option string :=
  Py.get (attrib e) name.

(** [e.findall(t)]: the direct children with tag [t]. *)
Definition findall (e : Element) (t : string) : list Element :=
  filter (fun c => String.eqb (tag c) t) (children e).

(** [e.find(t)]: the first of them, or [None]. *)
Definition find (e : Element) (t : string) : option Element :=
  hd_error (findall e t).

(** What [ET.parse(path)] does with a file: it raises, or gives a tree whose
    root is returned by [getroot()]. *)
Inductive parsed : Type :=
| ParseError
| Tree (root : Element).

End ET.

(** ** Records and rows *)

(** One record of [parse_nmap_xml_path], and the five columns
    [ip, port, proto, state, service] of the tables [ports] and
    [baseline_ports]. *)
Record port_record : Type := PortRecord {
  ip : string;
  port : Z;
  proto : option string;
  state : option string;
  service : string
}.

(** Table [scan_files]. *)
Record scan_file_row : Type := ScanFileRow {
  sf_id : Z;
  sf_scan_file : string;
  sf_scan_type : string;
  sf_created_at : string
}.

(** Table [ports]; the [id] column is read by no query. *)
Record ports_row : Type := PortsRow {
  p_scan_file : string;
  p_record : port_record
}.

(** Table [baseline_ports]; the [id] column is read by no query. *)
Record baseline_row : Type := BaselineRow {
  b_tenant : string;
  b_record : port_record;
  b_set_at : string
}.

(** The database file: the three tables, and the largest [scan_files.id]
    handed out so far ([AUTOINCREMENT] never reuses an id). *)
Record db : Type := Db {
  scan_files : list scan_file_row;
  scan_files_seq : Z;
  ports : list ports_row;
  baseline_ports : list baseline_row
}.

Definition empty_db : db := Db [] 0 [] [].

(** ** SQL statements *)

Module Sql.

(** A Python integer can be bound to a statement when it is a signed 64-bit
    value. *)
Definition int_ok (n : Z) : bool := (- 2 ^ 63 <=? n) && (n <? 2 ^ 63).

(** [SELECT 1 FROM scan_files WHERE scan_file=?], then [fetchone()]. *)
Definition scan_file_exists (d : db) (fname : string) : bool :=
  existsb (fun r => String.eqb (sf_scan_file r) fname) (scan_files d).

Definition max_id (rows : list scan_file_row) : Z :=
  fold_right (fun r m => Z.max (sf_id r) m) 0 rows.

(** [INSERT INTO scan_files (scan_file, scan_type, created_at)] *)
Definition insert_scan_file (d : db) (fname typ created_at : string) : db :=
  let id := Z.max (scan_files_seq d) (max_id (scan_files d)) + 1 in
  Db (scan_files d ++ [ScanFileRow id fname typ created_at]) id
     (ports d) (baseline_ports d).

(** [INSERT INTO ports (scan_file, ip, port, proto, state, service)] *)
Definition insert_port (d : db) (fname : string) (r : port_record) : option db :=
  if int_ok (port r) then
    Some (Db (scan_files d) (scan_files_seq d)
             (ports d ++ [PortsRow fname r]) (baseline_ports d))
  else None.

(** [... ORDER BY id DESC LIMIT 1] over the selected rows. *)
Definition newest (rows : list scan_file_row) : option scan_file_row :=
  fold_left
    (fun best r =>
       match best with
       | Some b => if sf_id b <? sf_id r then Some r else Some b
       | None => Some r
       end)
    rows None.

(** [SELECT scan_file FROM scan_files ORDER BY id DESC LIMIT 1] *)
Definition latest_scan_file (d : db) : option string :=
  option_map sf_scan_file (newest (scan_files d)).

(** [SELECT scan_file FROM scan_files WHERE scan_type=? ORDER BY id DESC LIMIT 1] *)
Definition latest_of_type (d : db) (typ : string) : option string :=
  option_map sf_scan_file
    (newest (filter (fun r => String.eqb (sf_scan_type r) typ) (scan_files d))).

(** [SELECT ip, port, proto, state, service FROM ports WHERE scan_file=?] *)
Definition select_ports (d : db) (fname : string) : list port_record :=
  map p_record (filter (fun r => String.eqb (p_scan_file r) fname) (ports d)).

(** [SELECT ip, port, proto, state, service FROM ports WHERE scan_file IN (...)] *)
Definition select_ports_in (d : db) (fnames : list string) : list port_record :=
  map p_record
    (filter (fun r => existsb (String.eqb (p_scan_file r)) fnames) (ports d)).

(** [SELECT ip, port, proto, state, service FROM baseline_ports WHERE tenant=?] *)
Definition select_baseline (d : db) (tenant : string) : list port_record :=
  map b_record (filter (fun r => String.eqb (b_tenant r) tenant) (baseline_ports d)).

(** [DELETE FROM baseline_ports WHERE tenant=?] *)
Definition delete_baseline (d : db) (tenant : string) : db :=
  Db (scan_files d) (scan_files_seq d) (ports d)
     (filter (fun r => negb (String.eqb (b_tenant r) tenant)) (baseline_ports d)).

(** [INSERT INTO baseline_ports (tenant, ip, port, proto, state, service, set_at)] *)
Definition insert_baseline (d : db) (tenant : string) (r : port_record)
    (set_at : string) : option db :=
  if int_ok (port r) then
    Some (Db (scan_files d) (scan_files_seq d) (ports d)
             (baseline_ports d ++ [BaselineRow tenant r set_at]))
  else None.

End Sql.

(** How a call ends: it returns, or an exception leaves it; the database
    then holds what was committed before. *)
Inductive run (A : Type) : Type :=
| Returned (a : A)
| Raised (committed : db).

Arguments Returned {A} a.
Arguments Raised {A} committed.

(** ** [parser/tenant_parser.py] *)

(** The first [address] child with a non-empty [addr]. *)
Fixpoint first_addr (addresses : list ET.Element) : option string :=
  match addresses with
  | [] => None
  | a :: rest =>
      if Py.truthy_opt (ET.get a "addr") then ET.get a "addr"
      else first_addr rest
  end.

(** The body of the loop over [ports.findall('port')]: the record appended
    for port element [p], if any. *)
Definition parse_port (addr : string) (p : ET.Element) : list port_record :=
  match Py.int (ET.get p "portid") with
  | None => []
  | Some portid =>
      let proto := ET.get p "protocol" in
      let state :=
        match ET.find p "state" with
        | Some state_el => ET.get state_el "state"
        | None => Some ""
        end in
      let service :=
        match ET.find p "service" with
        | Some service_el =>
            match Py.get (ET.attrib service_el) "name" with
            | Some name => name
            | None => ""
            end
        | None => ""
        end in
      [PortRecord addr portid proto state service]
  end.

(** The body of the loop over [root.findall('host')]. *)
Definition parse_host (host : ET.Element) : list port_record :=
  match first_addr (ET.findall host "address") with
  | None => []
  | Some addr =>
      if negb (Py.truthy addr) then []
      else
        match ET.find host "ports" with
        | None => []
        | Some ports => flat_map (parse_port addr) (ET.findall ports "port")
        end
  end.

Definition parse_nmap_xml_path (file : ET.parsed) : list port_record :=
  match file with
  | ET.ParseError => []
  | ET.Tree root => flat_map parse_host (ET.findall root "host")
  end.

(** The scan type that [ingest_all_scans] reads off the file name. *)
Definition scan_type_of (fname : string) : string :=
  if Py.substr_in "-tcp-" fname then "tcp"
  else if Py.substr_in "-udp-" fname then "udp"
  else "unknown".

(** The [INSERT INTO ports] loop over the records of one file. *)
Fixpoint insert_records (d : db) (fname : string) (records : list port_record)
    : option db :=
  match records with
  | [] => Some d
  | r :: rest =>
      match Sql.insert_port d fname r with
      | Some d' => insert_records d' fname rest
      | None => None
      end
  end.

(** The loop of [ingest_all_scans] over the sorted files.  A file is its
    base name with what [ET.parse] makes of it; [utcnow fname] is the clock
    reading taken while [fname] is processed.  [d] is the committed database:
    every iteration that inserts ends with [conn.commit()].  The names are
    taken to be text ([Py.is_text]): a name that is not makes the first
    query that binds it raise, which this loop does not show. *)
Fixpoint ingest_files (utcnow : string -> string) (d : db)
    (files : list (string * ET.parsed)) : run db :=
  match files with
  | [] => Returned d
  | (fname, file) :: rest =>
      let typ := scan_type_of fname in
      if Sql.scan_file_exists d fname then ingest_files utcnow d rest
      else
        let created_at := utcnow fname in
        let d1 := Sql.insert_scan_file d fname typ created_at in
        let records := parse_nmap_xml_path file in
        match insert_records d1 fname records with
        | Some d2 => ingest_files utcnow d2 rest
        | None => Raised d
        end
  end.

(** [scans_dir] is the directory listing: the entries of [os.listdir] with
    their contents.  The paths share the prefix [scans_dir], so sorting them
    is sorting the names. *)
Definition ingest_all_scans (utcnow : string -> string)
    (scans_dir : list (string * ET.parsed)) (d : db) : run db :=
  let files :=
    Py.sorted fst (filter (fun f => Py.endswith (fst f) ".xml") scans_dir) in
  ingest_files utcnow d files.

(** The [INSERT INTO baseline_ports] loop over [rows]. *)
Fixpoint insert_baseline_rows (d : db) (tenant : string)
    (rows : list port_record) (set_at : string) : option db :=
  match rows with
  | [] => Some d
  | r :: rest =>
      match Sql.insert_baseline d tenant r set_at with
      | Some d' => insert_baseline_rows d' tenant rest set_at
      | None => None
      end
  end.

(** [set_baseline(tenant, scan_file)]; [set_at] is the clock reading of the
    call.  The value returned names the scan that was used, [None] when the
    call returns before touching the baseline. *)
Definition set_baseline (set_at : string) (tenant : string)
    (scan_file : option string) (d : db) : run (option string * db) :=
  let resolved :=
    if negb (Py.truthy_opt scan_file) then Sql.latest_scan_file d
    else scan_file in
  match resolved with
  | None => Returned (None, d)
  | Some scan_file =>
      let d1 := Sql.delete_baseline d tenant in
      let rows := Sql.select_ports d1 scan_file in
      match insert_baseline_rows d1 tenant rows set_at with
      | Some d2 => Returned (Some scan_file, d2)
      | None => Raised d
      end
  end.

(** *** Snapshots *)

(** The value [{'state': ..., 'service': ...}] kept for a port. *)
Record observation : Type := Observation {
  o_state : option string;
  o_service : string
}.

#[global] Instance Eq_observation : Py.Eq observation :=
  fun a b =>
    Py.eqb (o_state a) (o_state b) && Py.eqb (o_service a) (o_service b).

(** The key [(port, proto)]. *)
Definition port_key : Type := Z * option string.

Definition port_map : Type := Py.dict port_key observation.

(** [host -> (port, proto) -> observation] *)
Definition snapshot : Type := Py.dict string port_map.

(** [snap.setdefault(ip, {})[(port, proto)] = {'state': state, 'service': service}] *)
Definition snapshot_add (snap : snapshot) (r : port_record) : snapshot :=
  let inner := Py.get_default snap (ip r) [] in
  Py.set snap (ip r)
    (Py.set inner (port r, proto r) (Observation (state r) (service r))).

(** The loop over fetched rows that fills a snapshot. *)
Definition load_rows (snap : snapshot) (rows : list port_record) : snapshot :=
  fold_left snapshot_add rows snap.

(** *** The delta *)

Record host_delta : Type := HostDelta {
  added : list (port_key * observation);
  removed : list (port_key * observation);
  changed : list (port_key * observation * observation)
}.

Definition delta_report : Type := Py.dict string host_delta.

(** The loop over [c_map.items()], giving [added] and [changed]. *)
Fixpoint scan_current (b_map : port_map)
    (c_items : list (port_key * observation))
    : list (port_key * observation)
      * list (port_key * observation * observation) :=
  match c_items with
  | [] => ([], [])
  | (k, v) :: rest =>
      let '(added, changed) := scan_current b_map rest in
      match Py.get b_map k with
      | None => ((k, v) :: added, changed)
      | Some old =>
          if negb (Py.eqb v old) then (added, (k, old, v) :: changed)
          else (added, changed)
      end
  end.

(** The loop over [b_map.items()], giving [removed]. *)
Fixpoint scan_baseline (c_map : port_map)
    (b_items : list (port_key * observation))
    : list (port_key * observation) :=
  match b_items with
  | [] => []
  | (k, v) :: rest =>
      if negb (Py.contains c_map k) then (k, v) :: scan_baseline c_map rest
      else scan_baseline c_map rest
  end.

(** What one iteration of [_compute_delta] finds for a host. *)
Definition delta_of (b_map c_map : port_map) : host_delta :=
  let '(added, changed) := scan_current b_map (Py.items c_map) in
  HostDelta added (scan_baseline c_map (Py.items b_map)) changed.

(** [added or removed or changed] *)
Definition any_entry (h : host_delta) : bool :=
  match added h, removed h, changed h with
  | [], [], [] => false
  | _, _, _ => true
  end.

(** The body of the loop of [_compute_delta] over the hosts. *)
Definition delta_step (baseline current : snapshot) (report : delta_report)
    (ip : string) : delta_report :=
  let b_map := Py.get_default baseline ip [] in
  let c_map := Py.get_default current ip [] in
  let h := delta_of b_map c_map in
  if any_entry h then Py.set report ip h else report.

(** [_compute_delta(baseline, current)]; [set_iter l] is the order in which
    the interpreter iterates over [set(l)]. *)
Definition _compute_delta (set_iter : list string -> list string)
    (baseline current : snapshot) : delta_report :=
  let ips := set_iter (Py.keys baseline ++ Py.keys current)%list in
  fold_left (delta_step baseline current) ips [].

(** [compare_baseline_to_latest(tenant)]: [None] stands for the empty
    dictionary returned when there is no scan, otherwise the pair is
    [latest_scan_file] and [report]. *)
Definition compare_baseline_to_latest (set_iter : list string -> list string)
    (tenant : string) (d : db) : option (string * delta_report) :=
  let baseline := load_rows [] (Sql.select_baseline d tenant) in
  match Sql.latest_scan_file d with
  | None => None
  | Some latest =>
      let current := load_rows [] (Sql.select_ports d latest) in
      Some (latest, _compute_delta set_iter baseline current)
  end.

Record combined : Type := Combined {
  latest_tcp : option string;
  latest_udp : option string;
  report : delta_report
}.

(** The [current] map of [compare_baseline_to_latest_combined]: the rows of
    the latest TCP scan, then those of the latest UDP scan. *)
Definition combined_current (d : db) (latest_tcp latest_udp : option string)
    : snapshot :=
  let current := [] in
  let current :=
    match latest_tcp with
    | Some f => if Py.truthy f then load_rows current (Sql.select_ports d f)
                else current
    | None => current
    end in
  match latest_udp with
  | Some f => if Py.truthy f then load_rows current (Sql.select_ports d f)
              else current
  | None => current
  end.

Definition compare_baseline_to_latest_combined
    (set_iter : list string -> list string) (tenant : string) (d : db)
    : combined :=
  let baseline := load_rows [] (Sql.select_baseline d tenant) in
  let latest_tcp := Sql.latest_of_type d "tcp" in
  let latest_udp := Sql.latest_of_type d "udp" in
  let current := combined_current d latest_tcp latest_udp in
  Combined latest_tcp latest_udp (_compute_delta set_iter baseline current).

(** ** [create_baseline.py] *)

Definition get_latest_scan_files (d : db) : option string * option string :=
  (Sql.latest_of_type d "tcp", Sql.latest_of_type d "udp").

Definition collect_ports_for_scans (d : db) (scan_files : list string)
    : list port_record :=
  match scan_files with
  | [] => []
  | _ => Sql.select_ports_in d scan_files
  end.

(** [set_baseline_combined(db_path, tenant, port_rows)]: the number of rows
    written after the commit, or [-1] after the rollback of the [except]
    branch. *)
Definition set_baseline_combined (set_at : string) (d : db) (tenant : string)
    (port_rows : list port_record) : Z * db :=
  let d1 := Sql.delete_baseline d tenant in
  match insert_baseline_rows d1 tenant port_rows set_at with
  | Some d2 => (Z.of_nat (length port_rows), d2)
  | None => (-1, d)
  end.

(** Step 4 of [main]: the baseline of [tenant] from the latest TCP and the
    latest UDP scan.  The result is the exit code, 21 when there is no such
    scan and 30 when the write failed, with the database. *)
Definition main_build_baseline (set_at : string) (tenant : string) (d : db)
    : Z * db :=
  let '(latest_tcp, latest_udp) := get_latest_scan_files d in
  let scan_files :=
    match latest_tcp with
    | Some f => if Py.truthy f then [f] else []
    | None => []
    end in
  let scan_files :=
    match latest_udp with
    | Some f =>
        if Py.truthy f && negb (existsb (String.eqb f) scan_files)
        then (scan_files ++ [f])%list else scan_files
    | None => scan_files
    end in
  match scan_files with
  | [] => (21, d)
  | _ =>
      let port_rows := collect_ports_for_scans d scan_files in
      let '(inserted, d') := set_baseline_combined set_at d tenant port_rows in
      if inserted <? 0 then (30, d') else (0, d')
  end.

(** ** [main.py] *)

(** One line of the [added] and [removed] listings. *)
Definition entry_line (e : port_key * observation) : string :=
  let '((p, proto), v) := e in
  "    - " ++ Py.str_int p ++ "/" ++ Py.str_opt proto
    ++ "   state=" ++ Py.str_opt (o_state v) ++ "   svc=" ++ o_service v.

(** One line of the [changed] listing. *)
Definition changed_line (e : port_key * observation * observation) : string :=
  let '((p, proto), prevv, curv) := e in
  "    - " ++ Py.str_int p ++ "/" ++ Py.str_opt proto ++ "   "
    ++ Py.str_opt (o_state prevv) ++ "/" ++ o_service prevv ++ "  ->  "
    ++ Py.str_opt (o_state curv) ++ "/" ++ o_service curv.

Definition section_lines {A} (title : string) (line : A -> string)
    (entries : list A) : list string :=
  match entries with
  | [] => []
  | _ => title :: map line entries
  end.

(** The lines that one pass of the loop of [_format_report] appends. *)
Definition host_lines (item : string * host_delta) : list string :=
  let '(ip, info) := item in
  (Py.newline ++ "IP: " ++ ip)
    :: (section_lines "  Porte AGGIUNTE:" entry_line (added info)
        ++ section_lines "  Porte RIMOSSE:" entry_line (removed info)
        ++ section_lines "  Porte CAMBIATE:" changed_line (changed info))%list.

(** What one pass adds to [total]. *)
Definition host_total (item : string * host_delta) : Z :=
  let info := snd item in
  Z.of_nat (length (added info) + length (removed info) + length (changed info)).

(** The hosts in the order in which [_format_report] visits them:
    [sorted(report.items(), key=lambda x: x[0])]. *)
Definition visit_order (report : delta_report) : list (string * host_delta) :=
  Py.sorted fst (Py.items report).

Definition _format_report (report : delta_report) : string * Z :=
  let visited := visit_order report in
  let lines := flat_map host_lines visited in
  let total := fold_left (fun t item => t + host_total item) visited 0 in
  let header := "EASM: report generato" in
  (header ++ Py.newline ++ Py.join Py.newline lines, total).

(** The database in which a call leaves the file, however it ends. *)
Definition final (r : run db) : db :=
  match r with
  | Returned d => d
  | Raised d => d
  end.

(** ** More of [parser/tenant_parser.py] *)

(** The rows of [SELECT DISTINCT ...] over a column: each value once, here
    in the order of first occurrence. *)
Fixpoint distinct (values : list string) : list string :=
  match values with
  | [] => []
  | v :: rest => v :: filter (fun w => negb (String.eqb w v)) (distinct rest)
  end.

(** [list_tenants()]: [SELECT DISTINCT tenant FROM baseline_ports]. *)
Definition list_tenants (d : db) : list string :=
  distinct (map b_tenant (baseline_ports d)).

(** ** [os.path] on POSIX *)

(** [s.startswith(prefix)] *)
Definition startswith (s prefix : string) : bool := String.prefix prefix s.

(** ['/' in s] *)
Fixpoint has_sep (s : string) : bool :=
  match s with
  | EmptyString => false
  | String c rest => Ascii.eqb c "/" || has_sep rest
  end.

(** [os.path.join(a, b)] *)
Definition os_path_join (a b : string) : string :=
  if startswith b "/" then b
  else if negb (Py.truthy a) || Py.endswith a "/" then a ++ b
  else a ++ "/" ++ b.

(** [os.path.basename(p)]: what follows the last ['/'] of [p]. *)
Fixpoint os_path_basename (p : string) : string :=
  match p with
  | EmptyString => EmptyString
  | String c rest =>
      if has_sep rest then os_path_basename rest
      else if Ascii.eqb c "/" then rest
      else p
  end.

(** ** [scanner/tcp_scanner.py] and [scanner/udp_scanner.py] *)

(** [out_file], the path that a scanner writes: [scans_dir] is [SCANS_DIR],
    [ts] the time of the scan as [time.strftime] prints it and [ip] the
    target given with [--ip]. *)
Definition tcp_out_file (scans_dir ts ip : string) : string :=
  os_path_join scans_dir ("scan-" ++ ts ++ "-tcp-" ++ ip ++ ".xml").

Definition udp_out_file (scans_dir ts ip : string) : string :=
  os_path_join scans_dir ("scan-" ++ ts ++ "-udp-" ++ ip ++ ".xml").

(** ** More of [main.py] *)

(** [read_ips(path)].  The file is [None] when the path does not exist,
    otherwise its lines, as bytes.  The file is read as UTF-8: when some
    line is no UTF-8 the loop raises [UnicodeDecodeError], which is [None]
    here. *)
Definition read_ips (file : option (list string)) : option (list string) :=
  match file with
  | None => Some []
  | Some lines =>
      if forallb Py.is_text lines then
        Some (flat_map
                (fun line =>
                   let line := Py.strip line in
                   if negb (Py.truthy line) || startswith line "#" then []
                   else [line])
                lines)
      else None
  end.

(** The loop of [scan_tcp] and [scan_udp] over the addresses.
    [run_subprocess n cmd] is what the [n]-th subprocess of the call gives
    for [cmd]: its return code and output.  The result is [rc_total] with
    the commands that were run, in order. *)
Definition scan_loop (run_subprocess : nat -> list string -> Z * string)
    (cmd_of : string -> list string) (ips : list string)
    : Z * list (list string) :=
  fold_left
    (fun '(rc_total, ran) ip =>
       let cmd := cmd_of ip in
       let '(rc, out) := run_subprocess (length ran) cmd in
       let rc_total :=
         if negb (rc =? 0)
         then (if negb (rc_total =? 0) then rc_total else rc)
         else rc_total in
       (rc_total, (ran ++ [cmd])%list))
    ips (0, []).

(** [scan_tcp(ips_file, tenant)]; [executable] is [sys.executable] and
    [scanner] the path of [scanner/tcp_scanner.py].  The result is [None]
    when [read_ips] raises. *)
Definition scan_tcp (run_subprocess : nat -> list string -> Z * string)
    (executable scanner : string) (ips_file : option (list string))
    (tenant : string) : option (Z * list (list string)) :=
  match read_ips ips_file with
  | None => None
  | Some [] => Some (1, [])
  | Some ips =>
      Some (scan_loop run_subprocess
              (fun ip => [executable; scanner; "--ip"; ip; "--tenant"; tenant])
              ips)
  end.

(** [scan_udp(ips_file, tenant, udp_ports)] *)
Definition scan_udp (run_subprocess : nat -> list string -> Z * string)
    (executable scanner : string) (ips_file : option (list string))
    (tenant : string) (udp_ports : option string)
    : option (Z * list (list string)) :=
  match read_ips ips_file with
  | None => None
  | Some [] => Some (1, [])
  | Some ips =>
      Some (scan_loop run_subprocess
              (fun ip =>
                 ([executable; scanner; "--ip"; ip; "--tenant"; tenant]
                  ++ match udp_ports with
                     | Some p => ["--udp-ports"; p]
                     | None => []
                     end)%list)
              ips)
  end.

(** A mail handed to [send_mail]: subject and body. *)
Definition mail : Type := (string * string)%type.

(** [check_baseline(tenant)].  [parse_scans()] runs the ingestion in a
    subprocess; the comparison goes on from the database that this leaves,
    whether the ingestion returned or raised.  Two things are decided
    outside the function: [parser_imports] tells whether
    [from parser.tenant_parser import ...] succeeds, and
    [send_mail_returns subj body] whether [from mailer import send_mail]
    followed by [send_mail(subj, body)] returns rather than raises.  The
    result is the exit code, the database, and the mail that the call hands
    to [send_mail], if any. *)
Definition check_baseline (parser_imports : bool)
    (send_mail_returns : string -> string -> bool)
    (set_iter : list string -> list string)
    (utcnow : string -> string) (scans_dir : list (string * ET.parsed))
    (tenant : string) (d : db) : Z * db * option mail :=
  if negb (Py.truthy tenant) then (1, d, None)
  else
    let d1 := final (ingest_all_scans utcnow scans_dir d) in
    if negb parser_imports then (2, d1, None)
    else
      match compare_baseline_to_latest set_iter tenant d1 with
      | None => (0, d1, None)
      | Some (latest, []) => (0, d1, None)
      | Some (latest, report) =>
          let '(body, total) := _format_report report in
          let body :=
            "EASM: cambiamenti vs baseline (tenant=" ++ tenant
              ++ ") — latest_scan: " ++ latest ++ Py.newline ++ Py.newline
              ++ body in
          let subj :=
            "EASM: " ++ Py.str_int total ++ " cambiamenti tenant=" ++ tenant in
          if send_mail_returns subj body then (0, d1, Some (subj, body))
          else (3, d1, Some (subj, body))
      end.



(** *** The command line of [main.py] *)

Module Cli.

(** The three options with their defaults. *)
Record options : Type := Options {
  opt_ips_file : string;
  opt_tenant : option string;
  opt_udp_ports : option string
}.

Definition defaults : options := Options "ips.txt" None None.

(** How reading the arguments ends: with the options, with [sys.exit(1)]
    after the help text, or with the [IndexError] of [argv[i]]. *)
Inductive parsed : Type :=
| Parsed (o : options)
| SystemExit1
| IndexError.

Definition is_ips_flag (a : string) : bool :=
  String.eqb a "--ips-file" || String.eqb a "--ipsfile".

Definition is_tenant_flag (a : string) : bool :=
  String.eqb a "--tenant" || String.eqb a "-t".

Definition is_udp_flag (a : string) : bool :=
  String.eqb a "--udp-ports" || String.eqb a "--udp".

(** What an option with its value does to the options read so far. *)
Definition set_option (o : options) (a v : string) : options :=
  if is_ips_flag a then Options v (opt_tenant o) (opt_udp_ports o)
  else if is_tenant_flag a
       then Options (opt_ips_file o) (Some v) (opt_udp_ports o)
       else Options (opt_ips_file o) (opt_tenant o) (Some v).

(** The [while i < len(argv)] loop, on the arguments from [argv[i]] on. *)
Fixpoint parse_options (args : list string) (o : options) : parsed :=
  match args with
  | [] => Parsed o
  | a :: rest =>
      if is_ips_flag a || is_tenant_flag a || is_udp_flag a then
        match rest with
        | v :: rest' => parse_options rest' (set_option o a v)
        | [] => IndexError
        end
      else SystemExit1
  end.

(** What [main] goes on to do. *)
Inductive invocation : Type :=
| CallScanTcp (ips_file tenant : string)
| CallScanUdp (ips_file tenant : string) (udp_ports : option string)
| CallParseScans
| CallSetBaseline (tenant : string)
| CallCheckBaseline (tenant : string)
| CallCheckBaselineCombined (tenant : string)
| Return1
| Exit1
| RaiseIndexError.

(** Calls that need a tenant: [if not tenant: return 1]. *)
Definition with_tenant (o : options) (call : string -> invocation)
    : invocation :=
  match opt_tenant o with
  | Some t => if Py.truthy t then call t else Return1
  | None => Return1
  end.

(** [main(argv)], up to the call that it makes. *)
Definition main (argv : list string) : invocation :=
  match argv with
  | [] => Exit1
  | action :: rest =>
      match parse_options rest defaults with
      | IndexError => RaiseIndexError
      | SystemExit1 => Exit1
      | Parsed o =>
          if String.eqb action "scan-tcp"
          then with_tenant o (CallScanTcp (opt_ips_file o))
          else if String.eqb action "scan-udp"
          then with_tenant o
                 (fun t => CallScanUdp (opt_ips_file o) t (opt_udp_ports o))
          else if String.eqb action "parse-scans" then CallParseScans
          else if String.eqb action "set-baseline"
          then with_tenant o CallSetBaseline
          else if String.eqb action "check-baseline"
          then with_tenant o CallCheckBaseline
          else if String.eqb action "check-baseline-combined"
          then with_tenant o CallCheckBaselineCombined
          else Exit1
      end
  end.

(** Is [a] one of the six option names? *)
Definition known (a : string) : bool :=
  is_ips_flag a || is_tenant_flag a || is_udp_flag a.

(** Options with their values, as they stand on the command line. *)
Definition spelled (pairs : list (string * string)) : list string :=
  flat_map (fun p => [fst p; snd p]) pairs.

(** The options after [pairs], read from left to right. *)
Definition read_pairs (pairs : list (string * string)) (o : options) : options :=
  fold_left (fun o p => set_option o (fst p) (snd p)) pairs o.

End Cli.

(** ** Vocabulary of the properties *)

(** The equality test of a key type decides equality. *)
Class EqOk (A : Type) `{Py.Eq A} : Prop :=
  eqb_eq : forall x y : A, Py.eqb x y = true <-> x = y.

(** A snapshot is a dictionary of dictionaries. *)
Definition snapshot_wf (s : snapshot) : Prop :=
  Py.wf s /\ forall h m, In (h, m) (Py.items s) -> Py.wf m.

(** The hosts of a snapshot built from rows have at least one port each. *)
Definition inhabited (snap : snapshot) : Prop :=
  forall h m, In (h, m) (Py.items snap) -> m <> [].

(** [snap[h][k]], if there is one. *)
Definition lookup (snap : snapshot) (h : string) (k : port_key)
    : option observation :=
  Py.get (Py.get_default snap h []) k.

(** The observation of the last of [rows] for host [h] and key [k]. *)
Fixpoint last_row (rows : list port_record) (h : string) (k : port_key)
    : option observation :=
  match rows with
  | [] => None
  | r :: rest =>
      match last_row rest h k with
      | Some o => Some o
      | None =>
          if String.eqb (ip r) h && Py.eqb (port r, proto r) k
          then Some (Observation (state r) (service r))
          else None
      end
  end.

(** [set_iter] is an iteration order for sets. *)
Definition iterates (set_iter : list string -> list string) : Prop :=
  forall elems, Py.set_iteration elems (set_iter elems).

(** Does host [ip] differ between the two snapshots? *)
Definition has_drift (baseline current : snapshot) (ip : string) : bool :=
  any_entry (delta_of (Py.get_default baseline ip []) (Py.get_default current ip [])).

(** The hosts of [ips] that differ, each with what was found, in the order
    of [ips]. *)
Definition host_entries (baseline current : snapshot) (ips : list string) : delta_report :=
  flat_map
    (fun ip =>
       if has_drift baseline current ip
       then [(ip, delta_of (Py.get_default baseline ip []) (Py.get_default current ip []))]
       else [])
    ips.

(** The orders on the items that [sorted] is given a key for. *)
Definition key_le {A : Type} (key : A -> string) (x y : A) : Prop :=
  String.leb (key x) (key y) = true.

Definition key_lt {A : Type} (key : A -> string) (x y : A) : Prop :=
  String.ltb (key x) (key y) = true.

(** The artifact names on record. *)
Definition names (d : db) : list string := map sf_scan_file (scan_files d).

(** Is [fname] new to [d]? *)
Definition unknown (d : db) (f : string * ET.parsed) : bool :=
  negb (Sql.scan_file_exists d (fst f)).

(** Every stored port number is one that SQLite can hold. *)
Definition storable (rows : list port_record) : Prop :=
  Forall (fun r => Sql.int_ok (port r) = true) rows.

(** The rows of [tenant] in the table. *)
Definition baseline_of (d : db) (tenant : string) : list baseline_row :=
  filter (fun r => String.eqb (b_tenant r) tenant) (baseline_ports d).

(** [d'] is [d] with the baseline of [tenant] replaced by [rows], all of
    them stamped [set_at]; nothing else differs. *)
Definition baseline_replaced (d d' : db) (tenant : string)
    (rows : list port_record) (set_at : string) : Prop :=
  baseline_of d' tenant = map (fun r => BaselineRow tenant r set_at) rows /\
  (forall other, other <> tenant -> baseline_of d' other = baseline_of d other) /\
  scan_files d' = scan_files d /\
  scan_files_seq d' = scan_files_seq d /\
  ports d' = ports d.

(** The rows that [compare_baseline_to_latest_combined] loads for the latest
    scan of one kind. *)
Definition scan_rows (d : db) (latest : option string) : list port_record :=
  match latest with
  | Some f => if Py.truthy f then Sql.select_ports d f else []
  | None => []
  end.

(** Has address element [a] no usable [addr]? *)
Definition no_addr (a : ET.Element) : Prop :=
  Py.truthy_opt (ET.get a "addr") = false.

(** ** Vocabulary of the further properties *)

(** The [scan_files] columns that ingestion chooses: name, type, time. *)
Definition scan_columns (r : scan_file_row) : string * string * string :=
  (sf_scan_file r, sf_scan_type r, sf_created_at r).

(** The [ports] rows that ingesting [files] appends. *)
Definition parsed_rows (files : list (string * ET.parsed)) : list ports_row :=
  flat_map (fun f => map (PortsRow (fst f)) (parse_nmap_xml_path (snd f))) files.

(** The ids of [scan_files] grow with the rows and are covered by the
    sequence. *)
Definition ids_increasing (d : db) : Prop :=
  StronglySorted (fun a b => sf_id a < sf_id b) (scan_files d) /\
  Forall (fun r => sf_id r <= scan_files_seq d) (scan_files d).

(** The files of a directory that [ingest_all_scans] goes through, in its
    order. *)
Definition xml_files (scans_dir : list (string * ET.parsed))
    : list (string * ET.parsed) :=
  Py.sorted fst (filter (fun f => Py.endswith (fst f) ".xml") scans_dir).

(** Where the latest TCP and the latest UDP scan both hold a key, they
    hold the same observation. *)
Definition kinds_agree (d : db) : Prop :=
  forall h k ot ou,
    last_row (scan_rows d (Sql.latest_of_type d "tcp")) h k = Some ot ->
    last_row (scan_rows d (Sql.latest_of_type d "udp")) h k = Some ou ->
    ot = ou.

(** The number of added, removed and changed entries of a report. *)
Definition total_entries (report : delta_report) : Z :=
  fold_right (fun item t => host_total item + t) 0 report.

(** The return codes of the subprocesses of a scan: the [n]-th is that of
    the [n]-th command. *)
Fixpoint return_codes (run_subprocess : nat -> list string -> Z * string)
    (n : nat) (cmds : list (list string)) : list Z :=
  match cmds with
  | [] => []
  | cmd :: rest =>
      fst (run_subprocess n cmd) :: return_codes run_subprocess (S n) rest
  end.

(** The first return code that is not 0, or 0. *)
Definition first_failure (codes : list Z) : Z :=
  hd 0 (filter (fun c => negb (c =? 0)) codes).

(** What every database that the program has written satisfies: artifact
    names are distinct, ids grow, every port row belongs to an artifact on
    record, and port numbers are 64-bit. *)
Definition db_ok (d : db) : Prop :=
  NoDup (names d) /\
  ids_increasing d /\
  Forall (fun r => In (p_scan_file r) (names d)) (ports d) /\
  storable (map p_record (ports d)).

(** The names of a listing are text: every one of them can be bound as a
    value of a query. *)
Definition text_names (scans_dir : list (string * ET.parsed)) : Prop :=
  Forall (fun f => Py.is_text (fst f) = true) scans_dir.



(** Is child [x] of a host an [address] element with a non-empty [addr]? *)
Definition usable_address (x : ET.Element) : bool :=
  String.eqb (ET.tag x) "address" && Py.truthy_opt (ET.get x "addr").

(** ** Sample data *)

Module Sample.

(** An iteration order for sets: the elements by last occurrence. *)
Definition forwards : list string -> list string := nodup string_dec.

(** The same hosts the other way round. *)
Definition backwards (l : list string) : list string := rev (nodup string_dec l).

Definition web_open : port_record :=
  PortRecord "10.0.0.1" 80 (Some "tcp") (Some "open") "http".

Definition web_Open : port_record :=
  PortRecord "10.0.0.1" 80 (Some "tcp") (Some "Open") "http".

Definition ssh_open : port_record :=
  PortRecord "10.0.0.2" 22 (Some "tcp") (Some "open") "ssh".

Definition dns_tcp : port_record :=
  PortRecord "10.0.0.1" 53 (Some "tcp") (Some "open") "domain".

Definition dns_udp : port_record :=
  PortRecord "10.0.0.1" 53 (Some "udp") (Some "open") "domain".

Definition baseline : snapshot := load_rows [] [web_open].

Definition current : snapshot := load_rows [] [web_Open; ssh_open].

Definition two_hosts : snapshot := load_rows [] [web_open; ssh_open].

Definition clock (fname : string) : string := "2024-01-01T00:00:00Z".

(** A port element with a port number and nothing else. *)
Definition bare_port : ET.Element := ET.Elem "port" [("portid", "80")] [].

(** A port element whose number is not one. *)
Definition named_port : ET.Element :=
  ET.Elem "port" [("portid", "http"); ("protocol", "tcp")] [].

(** A scan of one host with these two ports. *)
Definition bare_scan : ET.Element :=
  ET.Elem "nmaprun" []
    [ET.Elem "host" []
       [ET.Elem "address" [("addr", "10.0.0.1")] [];
        ET.Elem "ports" [] [named_port; bare_port]]].

(** A database with no artifact, where tenant acme holds two baseline
    entries and tenant globex one. *)
Definition two_tenants : db :=
  Db [] 0 []
     [BaselineRow "acme" web_open "2023-12-31T00:00:00Z";
      BaselineRow "globex" ssh_open "2023-12-31T00:00:00Z";
      BaselineRow "acme" dns_udp "2023-12-31T00:00:00Z"].

Definition snmp_in_tcp_scan : port_record :=
  PortRecord "10.0.0.1" 161 (Some "udp") (Some "closed") "snmp".

Definition snmp_in_udp_scan : port_record :=
  PortRecord "10.0.0.1" 161 (Some "udp") (Some "open") "snmp".

(** A TCP and a UDP artifact that both see port 53 of one host, and that
    both hold the key (161, udp). *)
Definition tcp_and_udp : db :=
  Db [ScanFileRow 1 "site-tcp-1.xml" "tcp" "2024-01-01T00:00:00Z";
      ScanFileRow 2 "site-udp-1.xml" "udp" "2024-01-01T00:05:00Z"]
     2
     [PortsRow "site-tcp-1.xml" dns_tcp;
      PortsRow "site-tcp-1.xml" snmp_in_tcp_scan;
      PortsRow "site-udp-1.xml" dns_udp;
      PortsRow "site-udp-1.xml" snmp_in_udp_scan]
     [].

(** A scans directory: a UDP scan, a TCP scan taken before it, and a file
    that is no scan. *)
Definition scans : list (string * ET.parsed) :=
  [("scan-20240101-000500-udp-10.0.0.1.xml", ET.Tree (ET.Elem "nmaprun" [] []));
   ("scan-20240101-000000-tcp-10.0.0.1.xml", ET.Tree bare_scan);
   ("notes.txt", ET.ParseError)].

(** A scan with a port number beyond 64 bits. *)
Definition huge_port_scan : ET.Element :=
  ET.Elem "nmaprun" []
    [ET.Elem "host" []
       [ET.Elem "address" [("addr", "10.0.0.9")] [];
        ET.Elem "ports" []
          [ET.Elem "port" [("portid", "99999999999999999999")] []]]].

Definition scans_with_huge_port : list (string * ET.parsed) :=
  [("scan-20240101-000000-tcp-10.0.0.1.xml", ET.Tree bare_scan);
   ("scan-20240102-000000-tcp-10.0.0.9.xml", ET.Tree huge_port_scan);
   ("scan-20240103-000000-tcp-10.0.0.1.xml", ET.Tree bare_scan)].

(** A TCP and a UDP artifact without a common key. *)
Definition tcp_and_udp_apart : db :=
  Db [ScanFileRow 1 "site-tcp-1.xml" "tcp" "2024-01-01T00:00:00Z";
      ScanFileRow 2 "site-udp-1.xml" "udp" "2024-01-01T00:05:00Z"]
     2
     [PortsRow "site-tcp-1.xml" dns_tcp;
      PortsRow "site-udp-1.xml" dns_udp]
     [].

(** The UDP artifact ingested before the TCP artifact; both hold the key
    (161, udp), with different states. *)
Definition udp_then_tcp : db :=
  Db [ScanFileRow 1 "site-udp-1.xml" "udp" "2024-01-01T00:00:00Z";
      ScanFileRow 2 "site-tcp-1.xml" "tcp" "2024-01-01T00:05:00Z"]
     2
     [PortsRow "site-udp-1.xml" snmp_in_udp_scan;
      PortsRow "site-tcp-1.xml" snmp_in_tcp_scan]
     [].

(** A host as nmap prints it, with its IPv4 address before its hardware
    address, after an address element without [addr]. *)
Definition host_with_addresses : ET.Element :=
  ET.Elem "host" []
    [ET.Elem "status" [("state", "up")] [];
     ET.Elem "address" [("addrtype", "ipv4")] [];
     ET.Elem "address" [("addr", "10.0.0.7"); ("addrtype", "ipv4")] [];
     ET.Elem "address" [("addr", "00:11:22:33:44:55"); ("addrtype", "mac")] [];
     ET.Elem "ports" []
       [ET.Elem "port" [("protocol", "tcp"); ("portid", "443")]
          [ET.Elem "state" [("state", "open")] [];
           ET.Elem "service" [("name", "https")] []]]].

End Sample.

(** * Properties *)

(** ** Equality tests decide equality *)

#[global] Instance EqOk_string : EqOk string := String.eqb_eq.

#[global] Instance EqOk_Z : EqOk Z := Z.eqb_eq.

Lemma eqb_spec {A} `{EqOk A} (x y : A) : reflect (x = y) (Py.eqb x y).
Proof. apply iff_reflect. symmetry. apply eqb_eq. Qed.

#[global] Instance EqOk_option {A} `{EqOk A} : EqOk (option A).
Proof.
  intros [a|] [b|]; unfold Py.eqb; simpl; try (split; congruence).
  destruct (eqb_spec a b); split; congruence.
Qed.

#[global] Instance EqOk_prod {A B} `{EqOk A} `{EqOk B} : EqOk (A * B).
Proof.
  intros [a b] [a' b']; unfold Py.eqb, Py.Eq_prod; simpl.
  destruct (eqb_spec a a'), (eqb_spec b b'); simpl; split; congruence.
Qed.

#[global] Instance EqOk_observation : EqOk observation.
Proof.
  intros [s v] [s' v']; unfold Py.eqb, Eq_observation; simpl.
  destruct (eqb_spec s s'), (eqb_spec v v'); simpl; split; congruence.
Qed.

Lemma eqb_refl {A} `{EqOk A} (x : A) : Py.eqb x x = true.
Proof. destruct (eqb_spec x x); congruence. Qed.

Lemma eqb_neq {A} `{EqOk A} (x y : A) : x <> y -> Py.eqb x y = false.
Proof. destruct (eqb_spec x y); congruence. Qed.

(** ** Dictionaries *)

Section DictFacts.
Context {K V : Type} `{EqOk K}.
Implicit Types (d : Py.dict K V) (k : K) (v : V).

Lemma get_set_same d k v : Py.get (Py.set d k v) k = Some v.
Proof.
  induction d as [|[k' v'] d IH]; simpl.
  - now rewrite eqb_refl.
  - destruct (eqb_spec k' k) as [->|Hne]; simpl.
    + now rewrite eqb_refl.
    + now rewrite (eqb_neq _ _ Hne).
Qed.

Lemma get_set_other d k k' v :
  k <> k' -> Py.get (Py.set d k v) k' = Py.get d k'.
Proof.
  intros Hne. induction d as [|[k0 v0] d IH]; simpl.
  - now rewrite (eqb_neq _ _ Hne).
  - destruct (eqb_spec k0 k) as [->|Hk]; simpl.
    + now rewrite (eqb_neq _ _ Hne).
    + now rewrite IH.
Qed.

Lemma get_In d k v : Py.get d k = Some v -> In (k, v) (Py.items d).
Proof.
  induction d as [|[k' v'] d IH]; simpl; [discriminate|].
  destruct (eqb_spec k' k) as [->|Hne].
  - intros [= ->]. now left.
  - intros Hg. right. now apply IH.
Qed.

Lemma get_None d k : Py.get d k = None <-> ~ In k (Py.keys d).
Proof.
  induction d as [|[k' v'] d IH]; simpl; [tauto|].
  destruct (eqb_spec k' k) as [->|Hne].
  - split; [discriminate|]. intros Hn. exfalso. apply Hn. now left.
  - rewrite IH. split; [|tauto]. intros Hn [Heq|Hin]; [congruence|tauto].
Qed.

Lemma get_Some_key d k v : Py.get d k = Some v -> In k (Py.keys d).
Proof. intros Hg. apply get_In in Hg. now apply (in_map fst) in Hg. Qed.

(** In a dictionary proper, iterating over the items and looking a key up
    see the same value. *)
Lemma In_get d k v : Py.wf d -> In (k, v) (Py.items d) -> Py.get d k = Some v.
Proof.
  unfold Py.wf, Py.items.
  induction d as [|[k' v'] d IH]; simpl; [tauto|].
  intros Hnd [Heq|Hin]; inversion Hnd as [|? ? Hnotin Hnd']; subst.
  - injection Heq as -> ->. now rewrite eqb_refl.
  - destruct (eqb_spec k' k) as [->|Hne]; [|now apply IH].
    exfalso. apply Hnotin. now apply (in_map fst) in Hin.
Qed.

Lemma set_absent d k v : Py.get d k = None -> Py.set d k v = (d ++ [(k, v)])%list.
Proof.
  induction d as [|[k' v'] d IH]; simpl; [reflexivity|].
  destruct (eqb_spec k' k); [discriminate|]. intros Hg. now rewrite IH.
Qed.

Lemma keys_set_present d k v :
  Py.get d k <> None -> Py.keys (Py.set d k v) = Py.keys d.
Proof.
  induction d as [|[k' v'] d IH]; simpl; [congruence|].
  destruct (eqb_spec k' k); simpl; [reflexivity|].
  intros Hg. now rewrite IH.
Qed.

Lemma wf_set d k v : Py.wf d -> Py.wf (Py.set d k v).
Proof.
  unfold Py.wf. intros Hwf.
  destruct (Py.get d k) eqn:Hg.
  - rewrite keys_set_present; [assumption | congruence].
  - rewrite (set_absent _ _ _ Hg). unfold Py.keys. rewrite map_app. simpl.
    apply get_None in Hg.
    apply NoDup_app; [assumption | repeat constructor; simpl; tauto |].
    intros x Hx [<-|[]]. now apply Hg.
Qed.
End DictFacts.

Implicit Types (baseline current : snapshot) (b_map c_map : port_map).
Implicit Types (set_iter : list string -> list string) (h ip : string).
Implicit Types (e : host_delta).

(** ** Snapshots are dictionaries of dictionaries *)

Lemma snapshot_wf_empty : snapshot_wf [].
Proof. split; [constructor | intros h m []]. Qed.

Lemma In_set_inv {K V : Type} `{EqOk K} (d : Py.dict K V) k v k' v' :
  In (k', v') (Py.set d k v) -> In (k', v') d \/ (k' = k /\ v' = v).
Proof.
  induction d as [|[k0 v0] d IH]; simpl.
  - intros [[= <- <-]|[]]. now right.
  - destruct (eqb_spec k0 k) as [->|Hne]; simpl.
    + intros [[= <- <-]|Hin]; [now right | left; now right].
    + intros [Heq|Hin]; [left; now left|].
      destruct (IH Hin) as [Hd|Hd]; [left; now right | now right].
Qed.

Lemma get_default_wf (s : snapshot) h : snapshot_wf s -> Py.wf (Py.get_default s h []).
Proof.
  intros [_ Hin]. unfold Py.get_default.
  destruct (Py.get s h) as [m|] eqn:Hg; [|constructor].
  apply (Hin h). now apply get_In.
Qed.

Lemma snapshot_add_wf s r : snapshot_wf s -> snapshot_wf (snapshot_add s r).
Proof.
  intros Hs. split.
  - apply wf_set, Hs.
  - intros h m Hin. apply In_set_inv in Hin as [Hin|[_ ->]].
    + now apply (proj2 Hs h).
    + apply wf_set. now apply get_default_wf.
Qed.

(** Every snapshot that the program builds from rows is well formed. *)
Lemma load_rows_wf rows : forall s, snapshot_wf s -> snapshot_wf (load_rows s rows).
Proof.
  induction rows as [|r rows IH]; intros s Hs; simpl; [assumption|].
  apply IH. now apply snapshot_add_wf.
Qed.

(** ** The two inner loops of the delta *)

Lemma in_added b_map items k v :
  In (k, v) (fst (scan_current b_map items)) <->
  In (k, v) items /\ Py.get b_map k = None.
Proof.
  induction items as [|[k0 v0] items IH]; simpl; [tauto|].
  destruct (scan_current b_map items) as [a c] eqn:Hsc. simpl in IH.
  destruct (Py.get b_map k0) as [old|] eqn:Hg.
  - assert (Hfst : fst (if negb (Py.eqb v0 old) then (a, (k0, old, v0) :: c) else (a, c)) = a)
      by now destruct (negb _).
    rewrite Hfst, IH. split; [tauto|].
    intros [[[= -> ->]|Hin] Hn]; [congruence | tauto].
  - simpl. rewrite IH. split.
    + intros [[= -> ->]|[Hin Hn]]; auto.
    + intros [[Heq|Hin] Hn]; auto.
Qed.

Lemma in_changed b_map items k old v :
  In (k, old, v) (snd (scan_current b_map items)) <->
  In (k, v) items /\ Py.get b_map k = Some old /\ v <> old.
Proof.
  induction items as [|[k0 v0] items IH]; simpl; [tauto|].
  destruct (scan_current b_map items) as [a c] eqn:Hsc. simpl in IH.
  destruct (Py.get b_map k0) as [old0|] eqn:Hg.
  - destruct (eqb_spec v0 old0) as [->|Hne]; simpl; rewrite IH.
    + split; [tauto|]. intros [[[= -> ->]|Hin] [Hb Hd]]; [congruence | tauto].
    + split.
      * intros [[= -> -> ->]|[Hin Hrest]]; auto.
      * intros [[[= -> ->]|Hin] [Hb Hd]]; [left; congruence | tauto].
  - simpl. rewrite IH. split; [tauto|].
    intros [[[= -> ->]|Hin] [Hb Hd]]; [congruence | tauto].
Qed.

Lemma in_removed c_map items k v :
  In (k, v) (scan_baseline c_map items) <->
  In (k, v) items /\ Py.get c_map k = None.
Proof.
  induction items as [|[k0 v0] items IH]; simpl; [tauto|].
  unfold Py.contains. destruct (Py.get c_map k0) as [w|] eqn:Hg; simpl; rewrite IH.
  - split; [tauto|]. intros [[[= -> ->]|Hin] Hn]; [congruence | tauto].
  - split.
    + intros [[= -> ->]|[Hin Hn]]; auto.
    + intros [[Heq|Hin] Hn]; auto.
Qed.

Lemma added_of_delta b_map c_map :
  added (delta_of b_map c_map) = fst (scan_current b_map (Py.items c_map)).
Proof. unfold delta_of. now destruct (scan_current _ _). Qed.

Lemma changed_of_delta b_map c_map :
  changed (delta_of b_map c_map) = snd (scan_current b_map (Py.items c_map)).
Proof. unfold delta_of. now destruct (scan_current _ _). Qed.

Lemma removed_of_delta b_map c_map :
  removed (delta_of b_map c_map) = scan_baseline c_map (Py.items b_map).
Proof. unfold delta_of. now destruct (scan_current _ _). Qed.

Lemma any_entry_true e :
  any_entry e = true <-> added e <> [] \/ removed e <> [] \/ changed e <> [].
Proof.
  unfold any_entry.
  destruct (added e), (removed e), (changed e); split;
    try discriminate; try reflexivity.
  - intros [Hx|[Hx|Hx]]; congruence.
  - intros _. right. right. discriminate.
  - intros _. right. left. discriminate.
  - intros _. right. left. discriminate.
  - intros _. left. discriminate.
  - intros _. left. discriminate.
  - intros _. left. discriminate.
  - intros _. left. discriminate.
Qed.




(** ** The loop over the hosts *)

Lemma compute_delta_fold set_iter baseline current :
  _compute_delta set_iter baseline current =
  fold_left (delta_step baseline current)
    (set_iter (Py.keys baseline ++ Py.keys current)%list) [].
Proof. reflexivity. Qed.

Lemma fold_delta_get baseline current h ips : forall acc,
  Py.get (fold_left (delta_step baseline current) ips acc) h =
  let e := delta_of (Py.get_default baseline h []) (Py.get_default current h []) in
  if existsb (String.eqb h) ips && any_entry e then Some e else Py.get acc h.
Proof.
  induction ips as [|ip ips IH]; intros acc; simpl; [reflexivity|].
  rewrite IH. simpl.
  set (e := delta_of _ _).
  destruct (existsb (String.eqb h) ips); simpl.
  - rewrite orb_true_r. simpl.
    destruct (any_entry e) eqn:Hany; [reflexivity|].
    unfold delta_step. destruct (String.eqb_spec h ip) as [->|Hne].
    + fold e. now rewrite Hany.
    + destruct (any_entry (delta_of _ _)); [|reflexivity].
      apply get_set_other. congruence.
  - rewrite orb_false_r. unfold delta_step.
    destruct (String.eqb_spec h ip) as [->|Hne]; simpl.
    + fold e. destruct (any_entry e); [apply get_set_same | reflexivity].
    + destruct (any_entry (delta_of _ _)); [|reflexivity].
      apply get_set_other. congruence.
Qed.

Lemma existsb_eqb_In h ips : existsb (String.eqb h) ips = true <-> In h ips.
Proof.
  rewrite existsb_exists. split.
  - intros [x [Hin Heq]]. apply String.eqb_eq in Heq. now subst.
  - intros Hin. exists h. split; [assumption | apply String.eqb_refl].
Qed.

(** What the report holds for a host. *)
Lemma compute_delta_get set_iter baseline current h :
  In h (set_iter (Py.keys baseline ++ Py.keys current)%list) ->
  let e := delta_of (Py.get_default baseline h []) (Py.get_default current h []) in
  Py.get (_compute_delta set_iter baseline current) h =
  if any_entry e then Some e else None.
Proof.
  intros Hin. rewrite compute_delta_fold, fold_delta_get. cbv zeta.
  apply existsb_eqb_In in Hin. now rewrite Hin.
Qed.

(** ** A map compared with itself *)

Lemma scan_current_same b_map items :
  (forall k v, In (k, v) items -> Py.get b_map k = Some v) ->
  scan_current b_map items = ([], []).
Proof.
  induction items as [|[k v] items IH]; intros Hall; simpl; [reflexivity|].
  rewrite IH by (intros k' v' Hin; apply Hall; now right).
  rewrite (Hall k v) by now left.
  now rewrite eqb_refl.
Qed.

Lemma scan_baseline_same c_map items :
  (forall k v, In (k, v) items -> Py.get c_map k = Some v) ->
  scan_baseline c_map items = [].
Proof.
  induction items as [|[k v] items IH]; intros Hall; simpl; [reflexivity|].
  unfold Py.contains. rewrite (Hall k v) by now left. simpl.
  apply IH. intros k' v' Hin. apply Hall. now right.
Qed.

Lemma delta_of_self (m : port_map) : Py.wf m -> delta_of m m = HostDelta [] [] [].
Proof.
  intros Hwf. unfold delta_of.
  rewrite scan_current_same, scan_baseline_same;
    [reflexivity | |]; intros k v Hin; now apply In_get.
Qed.

Lemma fold_delta_self (x : snapshot) ips : forall acc,
  snapshot_wf x -> fold_left (delta_step x x) ips acc = acc.
Proof.
  induction ips as [|ip ips IH]; intros acc Hwf; simpl; [reflexivity|].
  rewrite IH by assumption. unfold delta_step.
  now rewrite delta_of_self by now apply get_default_wf.
Qed.

(** ** The order on strings *)

Lemma ascii_compare_refl (a : ascii) : Ascii.compare a a = Eq.
Proof. apply N.compare_refl. Qed.

Lemma ascii_compare_lt_trans (a b c : ascii) :
  Ascii.compare a b = Lt -> Ascii.compare b c = Lt -> Ascii.compare a c = Lt.
Proof.
  unfold Ascii.compare. rewrite !N.compare_lt_iff. apply N.lt_trans.
Qed.

Lemma string_compare_refl (s : string) : String.compare s s = Eq.
Proof. induction s as [|a s IH]; simpl; [reflexivity|]. now rewrite ascii_compare_refl. Qed.

Lemma string_compare_lt_trans (s1 : string) : forall s2 s3,
  String.compare s1 s2 = Lt -> String.compare s2 s3 = Lt ->
  String.compare s1 s3 = Lt.
Proof.
  induction s1 as [|a s1 IH]; intros [|b s2] [|c s3]; simpl;
    try discriminate; try reflexivity.
  destruct (Ascii.compare a b) eqn:Hab; try discriminate;
    destruct (Ascii.compare b c) eqn:Hbc; try discriminate; intros H12 H23.
  - apply Ascii.compare_eq_iff in Hab, Hbc. subst.
    rewrite ascii_compare_refl. now apply (IH s2).
  - apply Ascii.compare_eq_iff in Hab. subst. now rewrite Hbc.
  - apply Ascii.compare_eq_iff in Hbc. subst. now rewrite Hab.
  - now rewrite (ascii_compare_lt_trans _ _ _ Hab Hbc).
Qed.

Lemma string_leb_iff (s1 s2 : string) :
  String.leb s1 s2 = true <-> String.ltb s1 s2 = true \/ s1 = s2.
Proof.
  unfold String.leb, String.ltb.
  destruct (String.compare s1 s2) eqn:Hc; split; auto; try discriminate.
  - intros _. right. now apply String.compare_eq_iff.
  - intros [Hf| ->]; [discriminate|]. now rewrite string_compare_refl in Hc.
Qed.

Lemma string_ltb_trans (s1 s2 s3 : string) :
  String.ltb s1 s2 = true -> String.ltb s2 s3 = true -> String.ltb s1 s3 = true.
Proof.
  unfold String.ltb. intros H12 H23.
  destruct (String.compare s1 s2) eqn:H1; try discriminate.
  destruct (String.compare s2 s3) eqn:H2; try discriminate.
  now rewrite (string_compare_lt_trans _ _ _ H1 H2).
Qed.

Lemma string_leb_trans (s1 s2 s3 : string) :
  String.leb s1 s2 = true -> String.leb s2 s3 = true -> String.leb s1 s3 = true.
Proof.
  rewrite !string_leb_iff. intros [H12| ->] [H23| ->]; auto.
  left. now apply (string_ltb_trans _ s2).
Qed.

Lemma string_ltb_irrefl (s : string) : String.ltb s s = false.
Proof. unfold String.ltb. now rewrite string_compare_refl. Qed.

(** ** [sorted] *)

Section SortedFacts.
Context {A : Type} (key : A -> string).

Lemma insert_perm x l : Permutation (Py.insert key x l) (x :: l).
Proof.
  induction l as [|y l IH]; simpl; [reflexivity|].
  destruct (String.leb (key x) (key y)); [reflexivity|].
  rewrite IH. apply perm_swap.
Qed.

Lemma sorted_perm l : Permutation (Py.sorted key l) l.
Proof.
  induction l as [|x l IH]; simpl; [reflexivity|].
  rewrite insert_perm. now constructor.
Qed.

Lemma insert_sorted x l :
  StronglySorted (key_le key) l -> StronglySorted (key_le key) (Py.insert key x l).
Proof.
  induction l as [|y l IH]; intros Hs; simpl.
  - repeat constructor.
  - inversion Hs as [|? ? Hl Hall]; subst.
    destruct (String.leb (key x) (key y)) eqn:Hxy.
    + constructor; [assumption|]. constructor; [exact Hxy|].
      eapply Forall_impl; [|exact Hall].
      intros z Hz. now apply (string_leb_trans _ (key y)).
    + constructor; [now apply IH|].
      eapply Permutation_Forall; [symmetry; apply insert_perm|].
      constructor; [|assumption].
      destruct (String.leb_total (key x) (key y)) as [Hc|Hc]; [congruence | exact Hc].
Qed.

Lemma sorted_sorted l : StronglySorted (key_le key) (Py.sorted key l).
Proof.
  induction l as [|x l IH]; simpl; [constructor | now apply insert_sorted].
Qed.

(** With distinct keys there is one sorted arrangement. *)
Lemma sorted_unique l1 : forall l2,
  NoDup (map key l1) -> Permutation l1 l2 ->
  StronglySorted (key_le key) l1 -> StronglySorted (key_le key) l2 -> l1 = l2.
Proof.
  induction l1 as [|a l1 IH]; intros l2 Hnd Hp Hs1 Hs2.
  - now apply Permutation_nil in Hp.
  - destruct l2 as [|b l2];
      [symmetry in Hp; now apply Permutation_nil in Hp|].
    inversion Hs1 as [|? ? Hs1' Hall1]; subst.
    inversion Hs2 as [|? ? Hs2' Hall2]; subst.
    inversion Hnd as [|? ? Hnotin Hnd']; subst.
    assert (Hab : a = b).
    { assert (Ha : In a (b :: l2)) by (eapply Permutation_in; [exact Hp|now left]).
      assert (Hb : In b (a :: l1))
        by (eapply Permutation_in; [symmetry; exact Hp|now left]).
      destruct Ha as [Ha|Ha]; [now symmetry|].
      destruct Hb as [Hb|Hb]; [assumption|].
      exfalso. apply Hnotin.
      rewrite Forall_forall in Hall1, Hall2.
      rewrite (String.leb_antisym _ _ (Hall1 _ Hb) (Hall2 _ Ha)).
      now apply in_map. }
    subst b. f_equal.
    apply IH; try assumption. now apply Permutation_cons_inv in Hp.
Qed.

Lemma sorted_perm_eq l1 l2 :
  NoDup (map key l1) -> Permutation l1 l2 ->
  Py.sorted key l1 = Py.sorted key l2.
Proof.
  intros Hnd Hp. apply sorted_unique; try apply sorted_sorted.
  - eapply Permutation_NoDup; [|exact Hnd].
    apply Permutation_map. symmetry. apply sorted_perm.
  - rewrite sorted_perm, Hp. symmetry. apply sorted_perm.
Qed.

Lemma sorted_strict l :
  NoDup (map key l) -> StronglySorted (key_le key) l -> StronglySorted (key_lt key) l.
Proof.
  induction l as [|x l IH]; intros Hnd Hs; [constructor|].
  inversion Hs as [|? ? Hs' Hall]; subst.
  inversion Hnd as [|? ? Hnotin Hnd']; subst.
  constructor; [now apply IH|].
  rewrite Forall_forall in *. intros y Hy.
  destruct (proj1 (string_leb_iff _ _) (Hall y Hy)) as [Hlt|Heq]; [exact Hlt|].
  exfalso. apply Hnotin. rewrite Heq. now apply in_map.
Qed.
End SortedFacts.

(** ** The report as a list of hosts *)

Lemma fold_delta_entries baseline current ips : forall acc : delta_report,
  NoDup ips -> (forall ip, In ip ips -> Py.get acc ip = None) ->
  fold_left (delta_step baseline current) ips acc =
  (acc ++ host_entries baseline current ips)%list.
Proof.
  induction ips as [|ip ips IH]; intros acc Hnd Hfresh; simpl.
  - now rewrite app_nil_r.
  - inversion Hnd as [|? ? Hnotin Hnd']; subst.
    rewrite IH; [|assumption|].
    + unfold delta_step, has_drift.
      destruct (any_entry _); [|reflexivity].
      rewrite set_absent by (apply Hfresh; now left).
      now rewrite <- app_assoc.
    + intros ip' Hin. unfold delta_step.
      destruct (any_entry _); [|apply Hfresh; now right].
      rewrite get_set_other by (intros ->; contradiction).
      apply Hfresh. now right.
Qed.

Lemma compute_delta_entries set_iter baseline current :
  iterates set_iter ->
  _compute_delta set_iter baseline current =
  host_entries baseline current (set_iter (Py.keys baseline ++ Py.keys current)%list).
Proof.
  intros Hit. rewrite compute_delta_fold.
  rewrite fold_delta_entries; [reflexivity | apply Hit | reflexivity].
Qed.

Lemma keys_host_entries baseline current ips :
  Py.keys (host_entries baseline current ips) = filter (has_drift baseline current) ips.
Proof.
  induction ips as [|ip ips IH]; simpl; [reflexivity|].
  unfold Py.keys in *. rewrite map_app, IH.
  now destruct (has_drift baseline current ip).
Qed.

Lemma iterations_perm set_iter set_iter' (elems : list string) :
  iterates set_iter -> iterates set_iter' ->
  Permutation (set_iter elems) (set_iter' elems).
Proof.
  intros H1 H2. destruct (H1 elems) as [Hnd1 Hin1], (H2 elems) as [Hnd2 Hin2].
  apply NoDup_Permutation; try assumption.
  intros x. now rewrite Hin1, Hin2.
Qed.

Lemma compute_delta_wf set_iter baseline current :
  iterates set_iter -> Py.wf (_compute_delta set_iter baseline current).
Proof.
  intros Hit. rewrite compute_delta_entries by assumption.
  unfold Py.wf. rewrite keys_host_entries. apply NoDup_filter, Hit.
Qed.

Lemma visit_order_independent set_iter set_iter' baseline current :
  iterates set_iter -> iterates set_iter' ->
  visit_order (_compute_delta set_iter' baseline current) =
  visit_order (_compute_delta set_iter baseline current).
Proof.
  intros H1 H2. unfold visit_order, Py.items.
  apply sorted_perm_eq.
  - now apply compute_delta_wf.
  - rewrite !compute_delta_entries by assumption.
    apply Permutation_flat_map. now apply iterations_perm.
Qed.

(** The two sample orders are iteration orders. *)
Lemma forwards_iterates : iterates Sample.forwards.
Proof.
  intros elems. split; [apply NoDup_nodup | intros x; apply nodup_In].
Qed.

Lemma backwards_iterates : iterates Sample.backwards.
Proof.
  intros elems. split.
  - apply NoDup_rev, NoDup_nodup.
  - intros x. unfold Sample.backwards. rewrite <- in_rev. apply nodup_In.
Qed.

(** ** Ingestion *)

Lemma scan_file_exists_In d fname :
  Sql.scan_file_exists d fname = true <-> In fname (names d).
Proof.
  unfold Sql.scan_file_exists, names. rewrite existsb_exists, in_map_iff.
  split; intros [r [H1 H2]]; exists r.
  - apply String.eqb_eq in H2. tauto.
  - split; [tauto|]. now apply String.eqb_eq.
Qed.

Lemma insert_records_scan_files records : forall d fname d',
  insert_records d fname records = Some d' -> scan_files d' = scan_files d.
Proof.
  induction records as [|r records IH]; intros d fname d'; simpl.
  - now intros [= ->].
  - unfold Sql.insert_port. destruct (Sql.int_ok (port r)); [|discriminate].
    intros Hrec. now apply IH in Hrec.
Qed.

Lemma insert_records_baseline records : forall d fname d',
  insert_records d fname records = Some d' -> baseline_ports d' = baseline_ports d.
Proof.
  induction records as [|r records IH]; intros d fname d'; simpl.
  - now intros [= ->].
  - unfold Sql.insert_port. destruct (Sql.int_ok (port r)); [|discriminate].
    intros Hrec. now apply IH in Hrec.
Qed.

Lemma insert_records_ports records : forall d fname d',
  insert_records d fname records = Some d' ->
  ports d' = (ports d ++ map (PortsRow fname) records)%list /\ storable records.
Proof.
  induction records as [|r records IH]; intros d fname d'; simpl.
  - intros [= ->]. rewrite app_nil_r. split; [reflexivity | constructor].
  - unfold Sql.insert_port. destruct (Sql.int_ok (port r)) eqn:Hok; [|discriminate].
    intros Hrec. apply IH in Hrec as [-> Hst]. simpl.
    rewrite <- app_assoc. split; [reflexivity | now constructor].
Qed.

Lemma names_insert_scan_file d fname typ created_at :
  names (Sql.insert_scan_file d fname typ created_at) = (names d ++ [fname])%list.
Proof. unfold names. simpl. now rewrite map_app. Qed.

(** A file whose name is known is passed over. *)
Lemma ingest_files_known utcnow d fname file rest :
  Sql.scan_file_exists d fname = true ->
  ingest_files utcnow d ((fname, file) :: rest) = ingest_files utcnow d rest.
Proof. intros Hex. simpl. now rewrite Hex. Qed.

(** One pass over a file whose name is new. *)
Lemma ingest_files_new utcnow d fname file rest :
  Sql.scan_file_exists d fname = false ->
  ingest_files utcnow d ((fname, file) :: rest) =
  match insert_records
          (Sql.insert_scan_file d fname (scan_type_of fname) (utcnow fname))
          fname (parse_nmap_xml_path file) with
  | Some d2 => ingest_files utcnow d2 rest
  | None => Raised d
  end.
Proof. intros Hex. simpl. now rewrite Hex. Qed.

(** A run that returns has every name of its files in the table, and keeps
    the names that were there. *)
Lemma ingest_files_names utcnow files : forall d d',
  ingest_files utcnow d files = Returned d' ->
  incl (names d) (names d') /\ incl (map fst files) (names d').
Proof.
  induction files as [|[fname file] files IH]; intros d d'; simpl.
  - intros [= ->]. split; [apply incl_refl | intros x []].
  - destruct (Sql.scan_file_exists d fname) eqn:Hex.
    + intros Hrun. apply IH in Hrun as [Hd Hf]. split; [assumption|].
      apply incl_cons; [|assumption].
      apply Hd. now apply scan_file_exists_In.
    + destruct (insert_records _ fname _) as [d2|] eqn:Hins; [|discriminate].
      intros Hrun. apply IH in Hrun as [Hd Hf].
      assert (Hn2 : names d2 = (names d ++ [fname])%list).
      { unfold names at 1. rewrite (insert_records_scan_files _ _ _ _ Hins).
        apply names_insert_scan_file. }
      rewrite Hn2 in Hd. split.
      * intros x Hx. apply Hd, in_or_app. now left.
      * apply incl_cons; [|assumption].
        apply Hd, in_or_app. right. now left.
Qed.

Lemma ingest_files_all_known utcnow files : forall d,
  (forall f, In f files -> Sql.scan_file_exists d (fst f) = true) ->
  ingest_files utcnow d files = Returned d.
Proof.
  induction files as [|[fname file] files IH]; intros d Hall; simpl; [reflexivity|].
  rewrite (Hall (fname, file) (or_introl eq_refl) : Sql.scan_file_exists d fname = true).
  apply IH. intros f Hin. apply Hall. now right.
Qed.

(** Only the files that are new to the database matter to a run. *)
Lemma ingest_files_filter utcnow d0 files : forall d,
  incl (names d0) (names d) ->
  ingest_files utcnow d files = ingest_files utcnow d (filter (unknown d0) files).
Proof.
  induction files as [|[fname file] files IH]; intros d Hincl; simpl; [reflexivity|].
  unfold unknown at 1. simpl.
  destruct (Sql.scan_file_exists d0 fname) eqn:Hex0; simpl.
  - apply scan_file_exists_In, Hincl, scan_file_exists_In in Hex0.
    rewrite Hex0. now apply IH.
  - destruct (Sql.scan_file_exists d fname) eqn:Hex; [now apply IH|].
    destruct (insert_records _ fname _) as [d2|] eqn:Hins; [|reflexivity].
    apply IH. intros x Hx.
    assert (Hn2 : names d2 = (names d ++ [fname])%list).
    { unfold names at 1. rewrite (insert_records_scan_files _ _ _ _ Hins).
      apply names_insert_scan_file. }
    rewrite Hn2. apply in_or_app. left. now apply Hincl.
Qed.

(** The stored ports stay storable. *)
Lemma ingest_files_storable utcnow files : forall d d',
  storable (map p_record (ports d)) ->
  ingest_files utcnow d files = Returned d' ->
  storable (map p_record (ports d')).
Proof.
  induction files as [|[fname file] files IH]; intros d d' Hst; simpl.
  - now intros [= <-].
  - destruct (Sql.scan_file_exists d fname); [now apply IH|].
    destruct (insert_records _ fname _) as [d2|] eqn:Hins; [|discriminate].
    apply IH. apply insert_records_ports in Hins as [-> Hrec]. simpl.
    unfold storable in *. rewrite map_app, map_map. simpl. rewrite map_id.
    apply Forall_app. now split.
Qed.

(** The names on record stay distinct: the [UNIQUE] constraint of
    [scan_files] is never put to the test. *)
Lemma ingest_files_unique utcnow files : forall d d',
  NoDup (names d) ->
  ingest_files utcnow d files = Returned d' ->
  NoDup (names d').
Proof.
  induction files as [|[fname file] files IH]; intros d d' Hnd; simpl.
  - now intros [= <-].
  - destruct (Sql.scan_file_exists d fname) eqn:Hex; [now apply IH|].
    destruct (insert_records _ fname _) as [d2|] eqn:Hins; [|discriminate].
    apply IH. unfold names at 1.
    rewrite (insert_records_scan_files _ _ _ _ Hins).
    fold (names (Sql.insert_scan_file d fname (scan_type_of fname) (utcnow fname))).
    rewrite names_insert_scan_file.
    apply NoDup_app; [assumption | repeat constructor; simpl; tauto |].
    intros x Hx [<-|[]].
    apply scan_file_exists_In in Hx. congruence.
Qed.

Lemma select_ports_storable d fname :
  storable (map p_record (ports d)) -> storable (Sql.select_ports d fname).
Proof.
  unfold storable, Sql.select_ports. rewrite !Forall_forall.
  intros Hall r Hin. apply Hall.
  apply in_map_iff in Hin as (row & <- & Hrow).
  apply filter_In in Hrow as [Hrow _]. now apply in_map.
Qed.

Lemma select_ports_in_storable d fnames :
  storable (map p_record (ports d)) -> storable (Sql.select_ports_in d fnames).
Proof.
  unfold storable, Sql.select_ports_in. rewrite !Forall_forall.
  intros Hall r Hin. apply Hall.
  apply in_map_iff in Hin as (row & <- & Hrow).
  apply filter_In in Hrow as [Hrow _]. now apply in_map.
Qed.

(** ** The baseline table *)

Lemma insert_baseline_rows_ok rows : forall d tenant set_at,
  storable rows ->
  insert_baseline_rows d tenant rows set_at =
  Some (Db (scan_files d) (scan_files_seq d) (ports d)
           (baseline_ports d ++ map (fun r => BaselineRow tenant r set_at) rows)).
Proof.
  induction rows as [|r rows IH]; intros d tenant set_at Hst; simpl.
  - rewrite app_nil_r. now destruct d.
  - inversion Hst as [|? ? Hr Hrest]; subst.
    unfold Sql.insert_baseline. rewrite Hr, IH by assumption. simpl.
    now rewrite <- app_assoc.
Qed.

Lemma insert_baseline_rows_storable rows : forall d tenant set_at d',
  insert_baseline_rows d tenant rows set_at = Some d' -> storable rows.
Proof.
  induction rows as [|r rows IH]; intros d tenant set_at d'; simpl.
  - intros _. constructor.
  - unfold Sql.insert_baseline.
    destruct (Sql.int_ok (port r)) eqn:Hok; [|discriminate].
    intros Hrec. constructor; [assumption | now apply IH in Hrec].
Qed.

Lemma filter_tenant_fresh tenant set_at rows :
  filter (fun r => String.eqb (b_tenant r) tenant)
    (map (fun r => BaselineRow tenant r set_at) rows) =
  map (fun r => BaselineRow tenant r set_at) rows.
Proof.
  induction rows as [|r rows IH]; simpl; [reflexivity|].
  now rewrite String.eqb_refl, IH.
Qed.

Lemma filter_other_fresh tenant other set_at rows :
  other <> tenant ->
  filter (fun r => String.eqb (b_tenant r) other)
    (map (fun r => BaselineRow tenant r set_at) rows) = [].
Proof.
  intros Hne. induction rows as [|r rows IH]; simpl; [reflexivity|].
  destruct (String.eqb_spec tenant other); [congruence | exact IH].
Qed.

Lemma filter_tenant_deleted tenant (rows : list baseline_row) :
  filter (fun r => String.eqb (b_tenant r) tenant)
    (filter (fun r => negb (String.eqb (b_tenant r) tenant)) rows) = [].
Proof.
  induction rows as [|r rows IH]; simpl; [reflexivity|].
  destruct (String.eqb (b_tenant r) tenant) eqn:Heq; simpl; [exact IH|].
  now rewrite Heq.
Qed.

Lemma filter_other_deleted tenant other (rows : list baseline_row) :
  other <> tenant ->
  filter (fun r => String.eqb (b_tenant r) other)
    (filter (fun r => negb (String.eqb (b_tenant r) tenant)) rows) =
  filter (fun r => String.eqb (b_tenant r) other) rows.
Proof.
  intros Hne. induction rows as [|r rows IH]; simpl; [reflexivity|].
  destruct (String.eqb_spec (b_tenant r) tenant) as [Ht|Ht]; simpl.
  - destruct (String.eqb_spec (b_tenant r) other); [congruence | exact IH].
  - destruct (String.eqb (b_tenant r) other); [now rewrite IH | exact IH].
Qed.

(** Delete, then insert: the replacement. *)
Lemma delete_insert_replaces d tenant rows set_at :
  storable rows ->
  exists d',
    insert_baseline_rows (Sql.delete_baseline d tenant) tenant rows set_at = Some d'
    /\ baseline_replaced d d' tenant rows set_at.
Proof.
  intros Hst. eexists. split; [now apply insert_baseline_rows_ok|].
  unfold baseline_replaced, baseline_of. simpl. repeat split.
  - now rewrite filter_app, filter_tenant_deleted, filter_tenant_fresh.
  - intros other Hne.
    rewrite filter_app, filter_other_deleted, filter_other_fresh by assumption.
    apply app_nil_r.
Qed.

Lemma select_baseline_replaced d d' tenant rows set_at :
  baseline_replaced d d' tenant rows set_at ->
  Sql.select_baseline d' tenant = rows.
Proof.
  intros [Hb _]. unfold Sql.select_baseline. fold (baseline_of d' tenant).
  rewrite Hb, map_map. simpl. apply map_id.
Qed.

(** ** Looking a key up in a snapshot *)

Lemma lookup_snapshot_add snap r h k :
  lookup (snapshot_add snap r) h k =
  if String.eqb (ip r) h && Py.eqb (port r, proto r) k
  then Some (Observation (state r) (service r))
  else lookup snap h k.
Proof.
  unfold lookup, snapshot_add, Py.get_default at 1.
  destruct (String.eqb_spec (ip r) h) as [<-|Hne]; simpl.
  - rewrite get_set_same.
    destruct (eqb_spec (port r, proto r) k) as [<-|Hk].
    + apply get_set_same.
    + now apply get_set_other.
  - rewrite get_set_other by assumption. reflexivity.
Qed.

Lemma lookup_load_rows rows : forall snap h k,
  lookup (load_rows snap rows) h k =
  match last_row rows h k with
  | Some o => Some o
  | None => lookup snap h k
  end.
Proof.
  induction rows as [|r rows IH]; intros snap h k; simpl; [reflexivity|].
  rewrite IH, lookup_snapshot_add.
  destruct (last_row rows h k); [reflexivity|].
  now destruct (String.eqb (ip r) h && Py.eqb (port r, proto r) k).
Qed.

Lemma last_row_present rows r :
  In r rows -> last_row rows (ip r) (port r, proto r) <> None.
Proof.
  induction rows as [|r0 rows IH]; simpl; [tauto|].
  intros [->|Hin].
  - destruct (last_row rows _ _); [discriminate|].
    rewrite String.eqb_refl, eqb_refl. discriminate.
  - destruct (last_row rows _ _); [discriminate | now apply IH in Hin].
Qed.

Lemma set_not_empty {K V} `{Py.Eq K} (d : Py.dict K V) k v : Py.set d k v <> [].
Proof. destruct d as [|[k' v'] d]; simpl; [|destruct (Py.eqb k' k)]; discriminate. Qed.

Lemma load_rows_inhabited rows : forall snap,
  inhabited snap -> inhabited (load_rows snap rows).
Proof.
  induction rows as [|r rows IH]; intros snap Hs; simpl; [assumption|].
  apply IH. intros h m Hin.
  apply In_set_inv in Hin as [Hin|[_ ->]]; [now apply (Hs h) | apply set_not_empty].
Qed.

Lemma load_rows_hosts rows : forall snap r,
  In r rows -> In (ip r) (Py.keys (load_rows snap rows)).
Proof.
  intros snap r Hin.
  pose proof (last_row_present _ _ Hin) as Hl.
  pose proof (lookup_load_rows rows snap (ip r) (port r, proto r)) as Hlk.
  unfold lookup, Py.get_default in Hlk.
  destruct (Py.get (load_rows snap rows) (ip r)) as [m|] eqn:Hg.
  - now apply get_Some_key in Hg.
  - simpl in Hlk. destruct (last_row rows _ _); [discriminate | congruence].
Qed.

(** ** A baseline compared with nothing *)

Lemma scan_baseline_nil items : scan_baseline [] items = items.
Proof.
  induction items as [|[k v] items IH]; simpl; [reflexivity|]. now rewrite IH.
Qed.

Lemma delta_of_nil_current b_map :
  delta_of b_map [] = HostDelta [] (Py.items b_map) [].
Proof. unfold delta_of. simpl. now rewrite scan_baseline_nil. Qed.

(** * The delta engine *)


(** C4.  A snapshot compared with itself gives the empty report, whatever
    the order in which its hosts are visited. *)
Theorem compute_delta_self set_iter (x : snapshot) :
  snapshot_wf x -> _compute_delta set_iter x x = [].
Proof.
  intros Hwf. rewrite compute_delta_fold. now apply fold_delta_self.
Qed.


Lemma compute_delta_self_witness :
  snapshot_wf Sample.two_hosts /\
  _compute_delta Sample.forwards Sample.two_hosts Sample.two_hosts = [].
Proof.
  assert (Hwf : snapshot_wf Sample.two_hosts)
    by apply load_rows_wf, snapshot_wf_empty.
  split; [exact Hwf | exact (compute_delta_self Sample.forwards _ Hwf)].
Defined.

(** C5, as stated, fails: the report is a dictionary filled in the order
    in which the set of hosts is iterated, and that order need not be
    ascending.  Here the set gives 10.0.0.2 before 10.0.0.1. *)
Lemma delta_report_unsorted :
  iterates Sample.backwards /\
  Py.keys (_compute_delta Sample.backwards [] Sample.two_hosts)
    = ["10.0.0.2"; "10.0.0.1"] /\
  ~ StronglySorted (key_le fst)
      (Py.items (_compute_delta Sample.backwards [] Sample.two_hosts)).
Proof.
  split; [exact backwards_iterates | split; [reflexivity|]].
  intros Hs. vm_compute in Hs.
  inversion Hs as [|? ? _ Hall]; subst.
  inversion Hall as [|? ? Hle _]; subst.
  vm_compute in Hle. discriminate.
Qed.

(** C5, amended.  The report lists the hosts that differ in the order in
    which the set of hosts is iterated.  [_format_report] visits the hosts of
    the report in strictly ascending order of host identifier, each host
    once, and what it returns does not depend on the iteration order: the
    body that it returns is the header line followed by the lines of the
    hosts of the report, one block of lines for each host, the blocks in
    strictly ascending order of host identifier. *)
Theorem format_report_sorted set_iter baseline current :
  iterates set_iter ->
  let report := _compute_delta set_iter baseline current in
  Py.keys report =
    filter (has_drift baseline current)
      (set_iter (Py.keys baseline ++ Py.keys current)%list) /\
  Permutation (visit_order report) (Py.items report) /\
  StronglySorted (key_lt fst) (visit_order report) /\
  (forall set_iter',
      iterates set_iter' ->
      _format_report (_compute_delta set_iter' baseline current)
      = _format_report report) /\
  (exists hosts,
      Permutation hosts (Py.items report) /\
      StronglySorted (key_lt fst) hosts /\
      fst (_format_report report)
      = "EASM: report generato" ++ Py.newline
          ++ Py.join Py.newline (flat_map host_lines hosts)).
Proof.
  intros Hit report.
  assert (Hstrict : StronglySorted (key_lt fst) (visit_order report)).
  { apply sorted_strict; [|apply sorted_sorted].
    eapply Permutation_NoDup.
    - apply Permutation_map. symmetry. apply sorted_perm.
    - now apply compute_delta_wf. }
  split; [|split; [|split; [|split]]].
  - unfold report. rewrite compute_delta_entries by assumption.
    apply keys_host_entries.
  - apply sorted_perm.
  - exact Hstrict.
  - intros set_iter' Hit'. unfold _format_report, report.
    now rewrite (visit_order_independent set_iter set_iter').
  - exists (visit_order report). split; [apply sorted_perm|].
    split; [exact Hstrict | reflexivity].
Qed.

Lemma format_report_sorted_witness :
  iterates Sample.backwards /\
  map fst (visit_order (_compute_delta Sample.backwards [] Sample.two_hosts))
    = ["10.0.0.1"; "10.0.0.2"] /\
  _format_report (_compute_delta Sample.forwards [] Sample.two_hosts)
    = _format_report (_compute_delta Sample.backwards [] Sample.two_hosts) /\
  fst (_format_report (_compute_delta Sample.backwards [] Sample.two_hosts))
    = Py.join Py.newline
        ["EASM: report generato";
         "";
         "IP: 10.0.0.1";
         "  Porte AGGIUNTE:";
         "    - 80/tcp   state=open   svc=http";
         "";
         "IP: 10.0.0.2";
         "  Porte AGGIUNTE:";
         "    - 22/tcp   state=open   svc=ssh"].
Proof.
  split; [exact backwards_iterates | split; [reflexivity|]].
  destruct (format_report_sorted Sample.backwards [] Sample.two_hosts
              backwards_iterates) as (_ & _ & _ & Hsame & _).
  split; [exact (Hsame Sample.forwards forwards_iterates) | reflexivity].
Defined.

(** A state that went from open to closed is one changed entry. *)
Example delta_state_changed :
  _compute_delta Sample.forwards
    (load_rows [] [PortRecord "h1" 80 (Some "tcp") (Some "open") ""])
    (load_rows [] [PortRecord "h1" 80 (Some "tcp") (Some "closed") ""])
  = [("h1",
      HostDelta [] []
        [((80, Some "tcp"), Observation (Some "open") "",
          Observation (Some "closed") "")])].
Proof. reflexivity. Qed.

(** A port that the baseline lacks is one added entry, and nothing else. *)
Example delta_port_added :
  _compute_delta Sample.forwards
    (load_rows [] [PortRecord "h1" 22 (Some "tcp") (Some "open") ""])
    (load_rows []
       [PortRecord "h1" 22 (Some "tcp") (Some "open") "";
        PortRecord "h1" 80 (Some "tcp") (Some "open") ""])
  = [("h1",
      HostDelta [((80, Some "tcp"), Observation (Some "open") "")] [] [])].
Proof. reflexivity. Qed.

(** Observations that differ in case only are different. *)
Example delta_case_sensitive :
  Py.eqb (Observation (Some "open") "http") (Observation (Some "Open") "http")
  = false.
Proof. reflexivity. Qed.

(** * Ingestion *)

(** C2.  Ingestion passes over an artifact whose name is on record: the
    call returns normally with the database as it was, so no [scan_files]
    row and no port observation is added.  A run over a list of files is the
    run over those whose names are new; a run over a directory all of whose
    artifacts are on record changes nothing; and running ingestion again
    over the same directory, at any later time, changes nothing. *)
Theorem ingest_known_is_noop utcnow d :
  (forall fname file,
      Sql.scan_file_exists d fname = true ->
      ingest_all_scans utcnow [(fname, file)] d = Returned d) /\
  (forall files,
      ingest_files utcnow d files
      = ingest_files utcnow d (filter (unknown d) files)) /\
  (forall scans_dir,
      (forall f, In f scans_dir -> Sql.scan_file_exists d (fst f) = true) ->
      ingest_all_scans utcnow scans_dir d = Returned d) /\
  (forall scans_dir d' utcnow',
      ingest_all_scans utcnow scans_dir d = Returned d' ->
      ingest_all_scans utcnow' scans_dir d' = Returned d').
Proof.
  split; [|split; [|split]].
  - intros fname file Hex. unfold ingest_all_scans. simpl.
    destruct (Py.endswith fname ".xml"); simpl; [now rewrite Hex | reflexivity].
  - intros files. apply ingest_files_filter, incl_refl.
  - intros scans_dir Hall. unfold ingest_all_scans.
    apply ingest_files_all_known. intros f Hin. apply Hall.
    eapply Permutation_in in Hin; [|apply sorted_perm].
    now apply filter_In in Hin.
  - intros scans_dir d' utcnow' Hrun. unfold ingest_all_scans in *.
    apply ingest_files_all_known. intros f Hin.
    apply ingest_files_names in Hrun as [_ Hf].
    apply scan_file_exists_In, Hf. now apply in_map.
Qed.

Lemma ingest_known_is_noop_witness :
  exists d,
    ingest_all_scans Sample.clock [("site-tcp-1.xml", ET.ParseError)] empty_db
      = Returned d /\
    Sql.scan_file_exists d "site-tcp-1.xml" = true /\
    ingest_all_scans Sample.clock
      [("site-tcp-1.xml", ET.Tree (ET.Elem "nmaprun" [] []))] d = Returned d.
Proof.
  eexists. split; [reflexivity | split; [reflexivity|]].
  apply (proj1 (ingest_known_is_noop Sample.clock _)). reflexivity.
Defined.

(** C7, as stated, fails: an artifact whose document cannot be parsed is
    put on record all the same, since its [scan_files] row is inserted
    before the document is read. *)
Lemma corrupt_artifact_recorded :
  ingest_all_scans Sample.clock [("site-tcp-1.xml", ET.ParseError)] empty_db
  = Returned
      (Db [ScanFileRow 1 "site-tcp-1.xml" "tcp" "2024-01-01T00:00:00Z"] 1 [] [])
  /\ Sql.scan_file_exists
       (Db [ScanFileRow 1 "site-tcp-1.xml" "tcp" "2024-01-01T00:00:00Z"] 1 [] [])
       "site-tcp-1.xml" = true.
Proof. split; reflexivity. Qed.

(** C7, amended.  A document that cannot be parsed gives no records and
    no exception.  In a batch, an artifact with such a document and a new
    name gets its [scan_files] row and no port observation, and the run goes
    on with the remaining artifacts from there; the name is then on record,
    so later runs pass over it. *)
Theorem ingest_corrupt_artifact utcnow d fname rest :
  Sql.scan_file_exists d fname = false ->
  let d1 := Sql.insert_scan_file d fname (scan_type_of fname) (utcnow fname) in
  parse_nmap_xml_path ET.ParseError = [] /\
  ingest_files utcnow d ((fname, ET.ParseError) :: rest)
    = ingest_files utcnow d1 rest /\
  ports d1 = ports d /\
  baseline_ports d1 = baseline_ports d /\
  names d1 = (names d ++ [fname])%list /\
  Sql.scan_file_exists d1 fname = true.
Proof.
  intros Hnew d1. split; [reflexivity|]. split.
  - now rewrite ingest_files_new.
  - repeat split.
    + apply names_insert_scan_file.
    + apply scan_file_exists_In. unfold d1. rewrite names_insert_scan_file.
      apply in_or_app. right. now left.
Qed.

Lemma ingest_corrupt_artifact_witness :
  Sql.scan_file_exists empty_db "site-tcp-1.xml" = false /\
  ingest_files Sample.clock empty_db
    [("site-tcp-1.xml", ET.ParseError);
     ("site-udp-1.xml", ET.Tree (ET.Elem "nmaprun" [] []))]
  = ingest_files Sample.clock
      (Sql.insert_scan_file empty_db "site-tcp-1.xml" "tcp" "2024-01-01T00:00:00Z")
      [("site-udp-1.xml", ET.Tree (ET.Elem "nmaprun" [] []))].
Proof.
  split; [reflexivity|].
  exact (proj1 (proj2 (ingest_corrupt_artifact Sample.clock empty_db
                         "site-tcp-1.xml"
                         [("site-udp-1.xml", ET.Tree (ET.Elem "nmaprun" [] []))]
                         eq_refl))).
Defined.

(** * Baselines *)

Lemma set_baseline_combined_replaces set_at d tenant port_rows :
  storable port_rows ->
  exists d',
    set_baseline_combined set_at d tenant port_rows
      = (Z.of_nat (length port_rows), d')
    /\ baseline_replaced d d' tenant port_rows set_at.
Proof.
  intros Hst. unfold set_baseline_combined.
  destruct (delete_insert_replaces d tenant port_rows set_at Hst) as (d' & -> & Hrep).
  now exists d'.
Qed.



(** C10.  Without a scan file and with no artifact on record,
    [set_baseline] returns at once: nothing is deleted, nothing is inserted,
    and the database, the baseline of the tenant included, is as it was. *)
Theorem set_baseline_without_scans set_at tenant d :
  scan_files d = [] ->
  set_baseline set_at tenant None d = Returned (None, d) /\
  set_baseline set_at tenant (Some "") d = Returned (None, d).
Proof.
  intros Hnone. unfold set_baseline, Sql.latest_scan_file. simpl.
  rewrite Hnone. split; reflexivity.
Qed.


Lemma set_baseline_without_scans_witness :
  scan_files Sample.two_tenants = [] /\
  set_baseline "2024-01-01T00:00:00Z" "acme" None Sample.two_tenants
    = Returned (None, Sample.two_tenants).
Proof.
  split; [reflexivity|].
  exact (proj1 (set_baseline_without_scans "2024-01-01T00:00:00Z" "acme"
                  Sample.two_tenants eq_refl)).
Defined.

(** A port number that SQLite cannot hold sends [set_baseline_combined]
    through its [except] branch: the transaction is rolled back and the
    result is [-1]. *)
Remark set_baseline_combined_rollback set_at d tenant port_rows :
  ~ storable port_rows ->
  set_baseline_combined set_at d tenant port_rows = (-1, d).
Proof.
  intros Hno. unfold set_baseline_combined.
  destruct (insert_baseline_rows _ _ _ _) as [d'|] eqn:Hins; [|reflexivity].
  exfalso. apply Hno. now apply insert_baseline_rows_storable in Hins.
Qed.

(** Called as [create_baseline.py] calls it, on rows read from a database,
    [set_baseline_combined] succeeds: the exit code of step 4 is 21 when
    there is no TCP or UDP scan and 0 otherwise. *)
Lemma main_build_baseline_exit set_at tenant d :
  storable (map p_record (ports d)) ->
  fst (main_build_baseline set_at tenant d) = 21 \/
  fst (main_build_baseline set_at tenant d) = 0.
Proof.
  intros Hst. unfold main_build_baseline, get_latest_scan_files.
  set (fs := match Sql.latest_of_type d "udp" with
             | Some f => _
             | None => _
             end).
  destruct fs as [|f rest]; [now left | right].
  assert (Hrows : storable (collect_ports_for_scans d (f :: rest)))
    by now apply select_ports_in_storable.
  destruct (set_baseline_combined_replaces set_at d tenant _ Hrows)
    as (d' & -> & _).
  destruct (Z.ltb_spec (Z.of_nat (length (collect_ports_for_scans d (f :: rest)))) 0);
    [lia | reflexivity].
Qed.

(** * The combined snapshot *)

Lemma combined_current_rows d latest_tcp latest_udp :
  combined_current d latest_tcp latest_udp =
  load_rows (load_rows [] (scan_rows d latest_tcp)) (scan_rows d latest_udp).
Proof.
  unfold combined_current, scan_rows.
  destruct latest_tcp as [t|], latest_udp as [u|];
    try destruct (Py.truthy t); try destruct (Py.truthy u); reflexivity.
Qed.

Lemma lookup_empty h k : lookup [] h k = None.
Proof. reflexivity. Qed.

(** C8.  The snapshot that [compare_baseline_to_latest_combined] compares
    against is keyed by host and by (port, protocol).  What it holds for a
    key is the observation of the latest UDP scan when that scan has the
    key, whatever the latest TCP scan says, and otherwise the observation of
    the latest TCP scan.  So a TCP and a UDP observation of one host and one
    port number with different protocol strings are two entries, and on a
    common key the UDP scan, which is loaded second, wins; no case is an
    error. *)
Theorem combined_later_kind_wins set_iter tenant d :
  let latest_tcp := Sql.latest_of_type d "tcp" in
  let latest_udp := Sql.latest_of_type d "udp" in
  let tcp_rows := scan_rows d latest_tcp in
  let udp_rows := scan_rows d latest_udp in
  let current := combined_current d latest_tcp latest_udp in
  compare_baseline_to_latest_combined set_iter tenant d
    = Combined latest_tcp latest_udp
        (_compute_delta set_iter (load_rows [] (Sql.select_baseline d tenant))
           current) /\
  (forall h k,
      lookup current h k =
      match last_row udp_rows h k with
      | Some o => Some o
      | None => last_row tcp_rows h k
      end) /\
  (forall h k ot ou,
      last_row tcp_rows h k = Some ot -> last_row udp_rows h k = Some ou ->
      lookup current h k = Some ou) /\
  (forall rt ru,
      In rt tcp_rows -> In ru udp_rows ->
      ip rt = ip ru -> port rt = port ru -> proto rt <> proto ru ->
      (port rt, proto rt) <> (port ru, proto ru) /\
      lookup current (ip rt) (port rt, proto rt) <> None /\
      lookup current (ip rt) (port ru, proto ru) <> None).
Proof.
  intros latest_tcp latest_udp tcp_rows udp_rows current.
  assert (Hlook : forall h k,
             lookup current h k =
             match last_row udp_rows h k with
             | Some o => Some o
             | None => last_row tcp_rows h k
             end).
  { intros h k. unfold current. rewrite combined_current_rows.
    rewrite !lookup_load_rows, lookup_empty.
    fold tcp_rows udp_rows. now destruct (last_row tcp_rows h k). }
  split; [reflexivity | split; [exact Hlook | split]].
  - intros h k ot ou _ Hu. now rewrite Hlook, Hu.
  - intros rt ru Ht Hu Hip Hport Hproto. split; [congruence | split].
    + rewrite Hlook. destruct (last_row udp_rows _ _); [discriminate|].
      now apply last_row_present.
    + rewrite Hlook, Hip.
      pose proof (last_row_present _ _ Hu) as Hp.
      destruct (last_row udp_rows _ _); [discriminate | contradiction].
Qed.

Lemma combined_later_kind_wins_witness :
  let current :=
    combined_current Sample.tcp_and_udp
      (Sql.latest_of_type Sample.tcp_and_udp "tcp")
      (Sql.latest_of_type Sample.tcp_and_udp "udp") in
  (lookup current "10.0.0.1" (53, Some "tcp") <> None /\
   lookup current "10.0.0.1" (53, Some "udp") <> None) /\
  lookup current "10.0.0.1" (161, Some "udp")
    = Some (Observation (Some "open") "snmp").
Proof.
  destruct (combined_later_kind_wins Sample.forwards "acme" Sample.tcp_and_udp)
    as (_ & _ & Hwins & Hdistinct).
  split.
  - apply (Hdistinct Sample.dns_tcp Sample.dns_udp);
      [simpl; auto | simpl; auto | reflexivity | reflexivity | discriminate].
  - apply (Hwins "10.0.0.1" (161, Some "udp")
             (Observation (Some "closed") "snmp")); reflexivity.
Defined.

(** * A baseline with nothing to compare to *)

Lemma get_of_key {K V : Type} `{EqOk K} (d : Py.dict K V) k :
  In k (Py.keys d) -> exists v, Py.get d k = Some v.
Proof.
  intros Hin. destruct (Py.get d k) as [v|] eqn:Hg; [now exists v|].
  now apply get_None in Hg.
Qed.

Lemma compute_delta_nothing set_iter baseline h :
  iterates set_iter -> inhabited baseline ->
  Py.get (_compute_delta set_iter baseline []) h =
  match Py.get baseline h with
  | Some b_map => Some (HostDelta [] (Py.items b_map) [])
  | None => None
  end.
Proof.
  intros Hit Hinh. rewrite compute_delta_fold, fold_delta_get. cbv zeta.
  change (Py.get_default [] h []) with (@nil (port_key * observation)).
  rewrite delta_of_nil_current. unfold any_entry, Py.get_default, Py.items.
  cbn [added removed changed].
  destruct (Py.get baseline h) as [b_map|] eqn:Hg.
  - assert (Hin : In h (set_iter (Py.keys baseline ++ Py.keys (V:=port_map) [])%list)).
    { apply (proj2 (Hit _)), in_or_app. left. now apply get_Some_key in Hg. }
    apply existsb_eqb_In in Hin. rewrite Hin. simpl.
    assert (Hne : b_map <> []) by (apply (Hinh h); now apply get_In).
    now destruct b_map.
  - now rewrite andb_false_r.
Qed.

(** C9, as stated, fails for [compare_baseline_to_latest], the second of
    the two functions that it names: with no artifact on record the function
    returns the empty dictionary, which holds no report, although the
    tenant has a baseline. *)
Lemma compare_latest_without_report :
  Sql.select_baseline Sample.two_tenants "acme" <> [] /\
  Sql.latest_of_type Sample.two_tenants "tcp" = None /\
  Sql.latest_of_type Sample.two_tenants "udp" = None /\
  compare_baseline_to_latest Sample.forwards "acme" Sample.two_tenants = None /\
  ~ (exists latest report,
        compare_baseline_to_latest Sample.forwards "acme" Sample.two_tenants
          = Some (latest, report) /\
        Py.get report "10.0.0.1"
          = Some (HostDelta []
                    [((80, Some "tcp"), Observation (Some "open") "http");
                     ((53, Some "udp"), Observation (Some "open") "domain")]
                    [])).
Proof.
  split; [discriminate|]. repeat (split; [reflexivity|]).
  intros (latest & report & Hsome & _). discriminate Hsome.
Qed.

(** C9, amended.  When no TCP and no UDP artifact is on record,
    [compare_baseline_to_latest_combined] returns normally, naming no
    artifact, and its report holds, for every host of the tenant's baseline,
    nothing added, nothing changed and all the entries of that host as
    removed; every row of the baseline table has its key among them.
    [compare_baseline_to_latest] returns normally as well when no artifact
    at all is on record, but with the empty dictionary: no report is made,
    whatever the baseline holds. *)
Theorem compare_with_no_artifacts set_iter tenant d :
  iterates set_iter ->
  Sql.latest_of_type d "tcp" = None ->
  Sql.latest_of_type d "udp" = None ->
  let baseline := load_rows [] (Sql.select_baseline d tenant) in
  let result := compare_baseline_to_latest_combined set_iter tenant d in
  latest_tcp result = None /\
  latest_udp result = None /\
  (forall h b_map,
      Py.get baseline h = Some b_map ->
      Py.get (report result) h = Some (HostDelta [] (Py.items b_map) [])) /\
  (forall h k o,
      lookup baseline h k = Some o ->
      exists info,
        Py.get (report result) h = Some info /\ In (k, o) (removed info)) /\
  (forall r,
      In r (Sql.select_baseline d tenant) ->
      exists info o,
        Py.get (report result) (ip r) = Some info /\
        added info = [] /\ changed info = [] /\
        In ((port r, proto r), o) (removed info)) /\
  (forall h, Py.get baseline h = None -> Py.get (report result) h = None) /\
  (Sql.latest_scan_file d = None ->
   compare_baseline_to_latest set_iter tenant d = None).
Proof.
  intros Hit Htcp Hudp baseline result.
  assert (Hrep : forall h,
             Py.get (report result) h =
             match Py.get baseline h with
             | Some b_map => Some (HostDelta [] (Py.items b_map) [])
             | None => None
             end).
  { intros h. unfold result, compare_baseline_to_latest_combined.
    rewrite Htcp, Hudp. simpl report.
    apply compute_delta_nothing; [assumption|].
    apply load_rows_inhabited. intros ? ? []. }
  assert (Hkey : forall h k o,
             lookup baseline h k = Some o ->
             exists info,
               Py.get (report result) h = Some info /\ In (k, o) (removed info)).
  { intros h k o Hl. unfold lookup, Py.get_default in Hl. rewrite Hrep.
    destruct (Py.get baseline h) as [b_map|]; [|discriminate].
    eexists. split; [reflexivity|]. simpl. now apply get_In. }
  split; [|split; [|split; [|split; [|split; [|split]]]]].
  - unfold result, compare_baseline_to_latest_combined. now rewrite Htcp.
  - unfold result, compare_baseline_to_latest_combined. now rewrite Hudp.
  - intros h b_map Hg. now rewrite Hrep, Hg.
  - exact Hkey.
  - intros r Hin.
    pose proof (lookup_load_rows (Sql.select_baseline d tenant) [] (ip r)
                  (port r, proto r)) as Hl.
    pose proof (last_row_present _ _ Hin) as Hp.
    destruct (last_row _ _ _) as [o|]; [|contradiction].
    fold baseline in Hl. unfold lookup, Py.get_default in Hl.
    rewrite Hrep.
    destruct (Py.get baseline (ip r)) as [b_map|]; [|discriminate].
    exists (HostDelta [] (Py.items b_map) []), o.
    repeat split. simpl. now apply get_In.
  - intros h Hg. now rewrite Hrep, Hg.
  - intros Hnone. unfold compare_baseline_to_latest. now rewrite Hnone.
Qed.

Lemma compare_with_no_artifacts_witness :
  let result :=
    compare_baseline_to_latest_combined Sample.forwards "acme" Sample.two_tenants in
  Py.get (report result) "10.0.0.1"
  = Some (HostDelta []
            [((80, Some "tcp"), Observation (Some "open") "http");
             ((53, Some "udp"), Observation (Some "open") "domain")]
            []) /\
  compare_baseline_to_latest Sample.forwards "acme" Sample.two_tenants = None.
Proof.
  destruct (compare_with_no_artifacts Sample.forwards "acme" Sample.two_tenants
              forwards_iterates eq_refl eq_refl)
    as (_ & _ & Hhost & _ & _ & _ & Hlatest).
  split; [apply Hhost; reflexivity | apply Hlatest; reflexivity].
Defined.

(** The older [compare_baseline_to_latest] has no report at all when no
    artifact is on record. *)
Remark compare_baseline_to_latest_no_scan set_iter tenant d :
  scan_files d = [] -> compare_baseline_to_latest set_iter tenant d = None.
Proof.
  intros Hnone. unfold compare_baseline_to_latest, Sql.latest_scan_file.
  now rewrite Hnone.
Qed.

(** * The parser *)

Lemma first_addr_none addresses :
  Forall no_addr addresses -> first_addr addresses = None.
Proof.
  induction 1 as [|a addresses Ha _ IH]; simpl; [reflexivity|].
  unfold no_addr in Ha. now rewrite Ha.
Qed.

Lemma first_addr_truthy addresses addr :
  first_addr addresses = Some addr -> Py.truthy addr = true.
Proof.
  induction addresses as [|a addresses IH]; simpl; [discriminate|].
  destruct (Py.truthy_opt (ET.get a "addr")) eqn:Ht; [|exact IH].
  intros Hg. rewrite Hg in Ht. exact Ht.
Qed.

(** C6.  The parser at a port element that has a number and nothing
    else: the record that it gives has the empty string for the state and
    for the service, whose elements are missing, but [None] for the
    protocol, whose attribute is missing; the claim has the empty string
    there too. *)
Lemma missing_protocol_is_none :
  parse_nmap_xml_path (ET.Tree Sample.bare_scan)
    = [PortRecord "10.0.0.1" 80 None (Some "") ""] /\
  proto (PortRecord "10.0.0.1" 80 None (Some "") "") <> Some "".
Proof. split; [reflexivity | discriminate]. Qed.

(** X26.  What the parser skips and what it fills in.  A host element
    none of whose address elements has a non-empty [addr] gives no record; a
    host element without a [ports] element gives no record; a port element
    whose [portid] is missing or is refused by [int] gives no record; none
    of these is an error, and the records of a document are those of its
    other hosts and ports, in document order.  In a record, the protocol is
    the [protocol] attribute as it is read; the state is the empty string
    when the port has no [state] element; the service is the empty string
    when the port has no [service] element or that element has no [name]. *)
Theorem parser_skip_rules :
  (forall host,
      Forall no_addr (ET.findall host "address") -> parse_host host = []) /\
  (forall host, ET.find host "ports" = None -> parse_host host = []) /\
  (forall addr p,
      Py.int (ET.get p "portid") = None -> parse_port addr p = []) /\
  (forall root,
      parse_nmap_xml_path (ET.Tree root)
      = flat_map parse_host (ET.findall root "host")) /\
  (forall host addr ports,
      first_addr (ET.findall host "address") = Some addr ->
      ET.find host "ports" = Some ports ->
      parse_host host = flat_map (parse_port addr) (ET.findall ports "port")) /\
  (forall addr p portid,
      Py.int (ET.get p "portid") = Some portid ->
      exists st sv,
        parse_port addr p
          = [PortRecord addr portid (ET.get p "protocol") st sv] /\
        (ET.find p "state" = None -> st = Some "") /\
        (forall el value,
            ET.find p "state" = Some el -> ET.get el "state" = Some value ->
            st = Some value) /\
        (ET.find p "service" = None -> sv = "") /\
        (forall el,
            ET.find p "service" = Some el -> ET.get el "name" = None ->
            sv = "") /\
        (forall el name,
            ET.find p "service" = Some el -> ET.get el "name" = Some name ->
            sv = name)).
Proof.
  split; [|split; [|split; [|split; [|split]]]].
  - intros host Hno. unfold parse_host. now rewrite first_addr_none.
  - intros host Hports. unfold parse_host. rewrite Hports.
    destruct (first_addr _) as [addr|]; [|reflexivity].
    now destruct (negb (Py.truthy addr)).
  - intros addr p Hint. unfold parse_port. now rewrite Hint.
  - reflexivity.
  - intros host addr ports Haddr Hports. unfold parse_host.
    now rewrite Haddr, Hports, (first_addr_truthy _ _ Haddr).
  - intros addr p portid Hint. unfold parse_port. rewrite Hint.
    eexists. eexists. split; [reflexivity|].
    unfold ET.get.
    split; [|split; [|split; [|split]]].
    + now intros ->.
    + intros el value -> Hv. exact Hv.
    + now intros ->.
    + intros el -> Hn. now rewrite Hn.
    + intros el name -> Hn. now rewrite Hn.
Qed.

Lemma parser_skip_rules_witness :
  Py.int (ET.get Sample.named_port "portid") = None /\
  parse_port "10.0.0.1" Sample.named_port = [] /\
  exists st sv,
    parse_port "10.0.0.1" Sample.bare_port = [PortRecord "10.0.0.1" 80 None st sv]
    /\ st = Some "" /\ sv = "".
Proof.
  destruct parser_skip_rules as (_ & _ & Hport & _ & _ & Hfields).
  split; [reflexivity|]. split; [apply Hport; reflexivity|].
  destruct (Hfields "10.0.0.1" Sample.bare_port 80 eq_refl)
    as (st & sv & Hrec & Hstate & _ & Hservice & _).
  exists st, sv. split; [exact Hrec|]. split; [now apply Hstate | now apply Hservice].
Defined.

(** A [state] element without a [state] attribute: the state of the record
    is then [None] as well. *)
Remark state_without_attribute :
  parse_port "10.0.0.1"
    (ET.Elem "port" [("portid", "80"); ("protocol", "tcp")] [ET.Elem "state" [] []])
  = [PortRecord "10.0.0.1" 80 (Some "tcp") None ""].
Proof. reflexivity. Qed.

(** [int] reads the decimal digits of every script, here the Arabic-Indic
    digits eight and zero between two no-break spaces; it takes the
    separators U+001C to U+001F for no blanks, and it refuses a number of
    more than 4300 digits.  A port with a number that [int] refuses is
    skipped. *)
Remark int_of_other_digits :
  Py.int (Some (Py.utf8 160 ++ Py.utf8 1640 ++ Py.utf8 1632 ++ Py.utf8 160))
    = Some 80 /\
  Py.int (Some (Py.utf8 28 ++ "80")) = None /\
  Py.int (Some (string_of_list_ascii (repeat "1"%char 4301))) = None /\
  parse_port "10.0.0.1"
    (ET.Elem "port"
       [("portid", string_of_list_ascii (repeat "1"%char 4301))] [])
    = [].
Proof. vm_compute. repeat split. Qed.

(** * Further properties of ingestion *)

Lemma insert_records_total records : forall d fname,
  storable records -> exists d', insert_records d fname records = Some d'.
Proof.
  induction records as [|r records IH]; intros d fname Hst; simpl.
  - now exists d.
  - inversion Hst as [|? ? Hr Hrest]; subst.
    unfold Sql.insert_port. rewrite Hr. now apply IH.
Qed.

Lemma insert_records_seq records : forall d fname d',
  insert_records d fname records = Some d' -> scan_files_seq d' = scan_files_seq d.
Proof.
  induction records as [|r records IH]; intros d fname d'; simpl.
  - now intros [= ->].
  - unfold Sql.insert_port. destruct (Sql.int_ok (port r)); [|discriminate].
    intros Hrec. now apply IH in Hrec.
Qed.

(** The database after one new file. *)
Lemma ingest_one_new utcnow d fname file d2 :
  insert_records
    (Sql.insert_scan_file d fname (scan_type_of fname) (utcnow fname))
    fname (parse_nmap_xml_path file) = Some d2 ->
  scan_files d2 =
    (scan_files d ++
     [ScanFileRow (Z.max (scan_files_seq d) (Sql.max_id (scan_files d)) + 1)
        fname (scan_type_of fname) (utcnow fname)])%list /\
  scan_files_seq d2 = Z.max (scan_files_seq d) (Sql.max_id (scan_files d)) + 1 /\
  ports d2 = (ports d ++ map (PortsRow fname) (parse_nmap_xml_path file))%list /\
  baseline_ports d2 = baseline_ports d /\
  storable (parse_nmap_xml_path file).
Proof.
  intros Hins.
  pose proof (insert_records_scan_files _ _ _ _ Hins) as Hsf.
  pose proof (insert_records_seq _ _ _ _ Hins) as Hseq.
  pose proof (insert_records_baseline _ _ _ _ Hins) as Hb.
  apply insert_records_ports in Hins as [Hp Hst].
  repeat split; assumption.
Qed.

Lemma unknown_after_insert d fname d2 f :
  names d2 = (names d ++ [fname])%list ->
  unknown d f = true -> fst f <> fname -> unknown d2 f = true.
Proof.
  unfold unknown. intros Hn Hu Hne.
  apply negb_true_iff. apply negb_true_iff in Hu.
  destruct (Sql.scan_file_exists d2 (fst f)) eqn:Hex; [|reflexivity].
  apply scan_file_exists_In in Hex. rewrite Hn in Hex.
  apply in_app_or in Hex as [Hin|[Heq|[]]]; [|congruence].
  apply scan_file_exists_In in Hin. congruence.
Qed.

(** A run over new files with distinct names that returns. *)
Lemma ingest_files_result utcnow files : forall d d',
  NoDup (map fst files) ->
  (forall f, In f files -> unknown d f = true) ->
  ingest_files utcnow d files = Returned d' ->
  map scan_columns (scan_files d') =
    (map scan_columns (scan_files d) ++
     map (fun f => (fst f, scan_type_of (fst f), utcnow (fst f))) files)%list /\
  ports d' = (ports d ++ parsed_rows files)%list /\
  baseline_ports d' = baseline_ports d.
Proof.
  induction files as [|[fname file] files IH]; intros d d' Hnd Hnew Hrun.
  - simpl in Hrun. injection Hrun as <-. simpl. now rewrite !app_nil_r.
  - inversion Hnd as [|? ? Hnotin Hnd']; subst.
    assert (Hex : Sql.scan_file_exists d fname = false).
    { specialize (Hnew (fname, file) (or_introl eq_refl)).
      unfold unknown in Hnew. simpl in Hnew. now apply negb_true_iff in Hnew. }
    rewrite (ingest_files_new _ _ _ _ _ Hex) in Hrun.
    destruct (insert_records _ fname _) as [d2|] eqn:Hins; [|discriminate].
    apply ingest_one_new in Hins as (Hsf & _ & Hp & Hb & _).
    assert (Hn2 : names d2 = (names d ++ [fname])%list).
    { unfold names. now rewrite Hsf, map_app. }
    apply IH in Hrun as (Hsf' & Hp' & Hb'); [|assumption|].
    + rewrite Hsf', Hp', Hb', Hsf, Hp, Hb. unfold parsed_rows. simpl.
      rewrite map_app, <- !app_assoc. simpl. now repeat split.
    + intros f Hin. apply (unknown_after_insert d fname); try assumption.
      * apply Hnew. now right.
      * intros Heq. apply Hnotin. rewrite <- Heq. now apply in_map.
Qed.

Lemma NoDup_map_filter {E K} (key : E -> K) (keep : E -> bool)
    (entries : list E) (Hnd : NoDup (map key entries)) :
  NoDup (map key (filter keep entries)).
Proof.
  revert Hnd. induction entries as [|x rest IH]; simpl; [constructor|].
  intros Hnd. inversion Hnd as [|? ? Hnotin Hnd']; subst.
  destruct (keep x); simpl; [|now apply IH].
  constructor; [|now apply IH].
  intros Hin. apply Hnotin.
  apply in_map_iff in Hin as (y & Hy & Hin).
  apply filter_In in Hin as [Hin _].
  rewrite <- Hy. now apply in_map.
Qed.

Lemma names_scan_columns d : names d = map (fun c => fst (fst c)) (map scan_columns (scan_files d)).
Proof. unfold names. rewrite map_map. reflexivity. Qed.

Lemma xml_files_In scans_dir f :
  In f (xml_files scans_dir) <->
  In f scans_dir /\ Py.endswith (fst f) ".xml" = true.
Proof.
  unfold xml_files. split; intros Hin.
  - eapply Permutation_in in Hin; [|apply sorted_perm].
    now apply filter_In in Hin.
  - eapply Permutation_in; [symmetry; apply sorted_perm|].
    now apply filter_In.
Qed.

Lemma xml_files_NoDup scans_dir :
  NoDup (map fst scans_dir) -> NoDup (map fst (xml_files scans_dir)).
Proof.
  intros Hnd. unfold xml_files.
  eapply Permutation_NoDup.
  - apply Permutation_map. symmetry. apply sorted_perm.
  - now apply NoDup_map_filter.
Qed.

(** A run is the run over the new files of the directory. *)
Lemma ingest_all_scans_fresh utcnow scans_dir d :
  ingest_all_scans utcnow scans_dir d =
  ingest_files utcnow d (filter (unknown d) (xml_files scans_dir)).
Proof. unfold ingest_all_scans. apply ingest_files_filter, incl_refl. Qed.

Lemma select_parsed_rows files fname file :
  NoDup (map fst files) -> In (fname, file) files ->
  map p_record
    (filter (fun r => String.eqb (p_scan_file r) fname) (parsed_rows files))
  = parse_nmap_xml_path file.
Proof.
  assert (Hsame : forall records,
             map p_record
               (filter (fun r => String.eqb (p_scan_file r) fname)
                  (map (PortsRow fname) records)) = records).
  { induction records as [|r records IH]; simpl; [reflexivity|].
    rewrite String.eqb_refl. simpl. now rewrite IH. }
  assert (Hother : forall other records,
             other <> fname ->
             filter (fun r => String.eqb (p_scan_file r) fname)
               (map (PortsRow other) records) = []).
  { intros other records Hne.
    induction records as [|r records IH]; simpl; [reflexivity|].
    destruct (String.eqb_spec other fname); [congruence | exact IH]. }
  induction files as [|[fname0 file0] files IH]; intros Hnd Hin; [destruct Hin|].
  inversion Hnd as [|? ? Hnotin Hnd']; subst.
  unfold parsed_rows. simpl. rewrite filter_app, map_app.
  destruct Hin as [[= -> ->]|Hin].
  - rewrite Hsame.
    assert (Hrest : filter (fun r => String.eqb (p_scan_file r) fname)
                      (parsed_rows files) = []).
    { clear IH Hnd Hnd'. induction files as [|[f1 x1] files IH]; [reflexivity|].
      unfold parsed_rows. simpl. rewrite filter_app.
      rewrite Hother by (intros ->; apply Hnotin; now left).
      apply IH. intros Hin. apply Hnotin. now right. }
    unfold parsed_rows in Hrest. rewrite Hrest. apply app_nil_r.
  - rewrite Hother.
    + simpl. now apply IH.
    + intros ->. apply Hnotin. now apply (in_map fst) in Hin.
Qed.

Lemma select_ports_unknown d fname :
  Forall (fun r => In (p_scan_file r) (names d)) (ports d) ->
  Sql.scan_file_exists d fname = false ->
  Sql.select_ports d fname = [].
Proof.
  intros Hall Hex. unfold Sql.select_ports.
  induction (ports d) as [|r rows IH]; [reflexivity|].
  inversion Hall as [|? ? Hr Hrest]; subst. simpl.
  destruct (String.eqb_spec (p_scan_file r) fname) as [Heq|Hne]; [|now apply IH].
  exfalso. rewrite Heq in Hr. apply scan_file_exists_In in Hr. congruence.
Qed.

Lemma filter_other_parsed files fname :
  ~ In fname (map fst files) ->
  filter (fun r => String.eqb (p_scan_file r) fname) (parsed_rows files) = [].
Proof.
  induction files as [|[f1 x1] files IH]; intros Hnotin; [reflexivity|].
  unfold parsed_rows. simpl. rewrite filter_app.
  assert (Hhead : filter (fun r => String.eqb (p_scan_file r) fname)
                    (map (PortsRow f1) (parse_nmap_xml_path x1)) = []).
  { induction (parse_nmap_xml_path x1) as [|r records IHr]; simpl; [reflexivity|].
    destruct (String.eqb_spec f1 fname) as [->|Hne]; [|exact IHr].
    exfalso. apply Hnotin. now left. }
  rewrite Hhead. apply IH. intros Hin. apply Hnotin. now right.
Qed.

(** X1.  A run of [ingest_all_scans] that returns has appended, for the new
    [.xml] files of the directory in the order of their names, one
    [scan_files] row each (name, type read off the name, time of processing)
    and the records parsed from each as [ports] rows; rows that were there
    stay, in place, and the baselines are untouched. *)
Theorem ingest_appends utcnow scans_dir d d' :
  NoDup (map fst scans_dir) ->
  ingest_all_scans utcnow scans_dir d = Returned d' ->
  let fresh := filter (unknown d) (xml_files scans_dir) in
  map scan_columns (scan_files d') =
    (map scan_columns (scan_files d) ++
     map (fun f => (fst f, scan_type_of (fst f), utcnow (fst f))) fresh)%list /\
  ports d' = (ports d ++ parsed_rows fresh)%list /\
  baseline_ports d' = baseline_ports d.
Proof.
  intros Hnd Hrun fresh. rewrite ingest_all_scans_fresh in Hrun.
  apply ingest_files_result in Hrun; [exact Hrun | |].
  - now apply NoDup_map_filter, xml_files_NoDup.
  - intros f Hin. now apply filter_In in Hin.
Qed.

(** X2.  Reading back what was ingested: after a run that returns, the
    [ports] rows selected for an artifact that the run found new are the
    records that the parser gives for its document, in document order; for
    any other name the selection is what it was before the run. *)
Theorem ingest_read_back utcnow scans_dir d d' :
  db_ok d ->
  NoDup (map fst scans_dir) ->
  ingest_all_scans utcnow scans_dir d = Returned d' ->
  (forall fname file,
      In (fname, file) scans_dir ->
      Py.endswith fname ".xml" = true ->
      Sql.scan_file_exists d fname = false ->
      Sql.select_ports d' fname = parse_nmap_xml_path file) /\
  (forall fname,
      ~ In fname (map fst (filter (unknown d) (xml_files scans_dir))) ->
      Sql.select_ports d' fname = Sql.select_ports d fname).
Proof.
  intros (_ & _ & Hrefs & _) Hnd Hrun.
  rewrite ingest_all_scans_fresh in Hrun.
  assert (Hfresh : NoDup (map fst (filter (unknown d) (xml_files scans_dir))))
    by now apply NoDup_map_filter, xml_files_NoDup.
  apply ingest_files_result in Hrun as (_ & Hports & _);
    [|assumption | intros f Hin; now apply filter_In in Hin].
  split.
  - intros fname file Hin Hxml Hnew.
    unfold Sql.select_ports. rewrite Hports, filter_app, map_app.
    fold (Sql.select_ports d fname).
    rewrite (select_ports_unknown d fname Hrefs Hnew). simpl.
    apply select_parsed_rows; [assumption|].
    apply filter_In. split.
    + now apply xml_files_In.
    + unfold unknown. simpl. now rewrite Hnew.
  - intros fname Hnot.
    unfold Sql.select_ports. rewrite Hports, filter_app, map_app.
    rewrite (filter_other_parsed _ _ Hnot). simpl. apply app_nil_r.
Qed.

Lemma ingest_files_raised utcnow files : forall d dc,
  ingest_files utcnow d files = Raised dc ->
  exists before fname file after,
    files = (before ++ (fname, file) :: after)%list /\
    ingest_files utcnow d before = Returned dc /\
    Sql.scan_file_exists dc fname = false /\
    ~ storable (parse_nmap_xml_path file).
Proof.
  induction files as [|[fname file] files IH]; intros d dc Hrun; [discriminate|].
  destruct (Sql.scan_file_exists d fname) eqn:Hex.
  - rewrite (ingest_files_known _ _ _ _ _ Hex) in Hrun.
    apply IH in Hrun as (before & f1 & x1 & after & -> & Hpre & Hnew & Hbad).
    exists ((fname, file) :: before), f1, x1, after.
    split; [reflexivity|]. split; [|now split].
    now rewrite (ingest_files_known _ _ _ _ _ Hex).
  - rewrite (ingest_files_new _ _ _ _ _ Hex) in Hrun.
    destruct (insert_records _ fname _) as [d2|] eqn:Hins.
    + apply IH in Hrun as (before & f1 & x1 & after & -> & Hpre & Hnew & Hbad).
      exists ((fname, file) :: before), f1, x1, after.
      split; [reflexivity|]. split; [|now split].
      now rewrite (ingest_files_new _ _ _ _ _ Hex), Hins.
    + injection Hrun as <-.
      exists [], fname, file, files.
      split; [reflexivity|]. split; [reflexivity|]. split; [assumption|].
      intros Hst.
      destruct (insert_records_total _
                  (Sql.insert_scan_file d fname (scan_type_of fname) (utcnow fname))
                  fname Hst) as [d2 Hd2].
      congruence.
Qed.

Lemma ingest_files_returns utcnow files : forall d,
  (forall f, In f files -> storable (parse_nmap_xml_path (snd f))) ->
  exists d', ingest_files utcnow d files = Returned d'.
Proof.
  induction files as [|[fname file] files IH]; intros d Hall; simpl.
  - now exists d.
  - assert (Hrest : forall f, In f files -> storable (parse_nmap_xml_path (snd f)))
      by (intros f Hin; apply Hall; now right).
    destruct (Sql.scan_file_exists d fname); [now apply IH|].
    destruct (insert_records_total (parse_nmap_xml_path file)
                (Sql.insert_scan_file d fname (scan_type_of fname) (utcnow fname))
                fname (Hall (fname, file) (or_introl eq_refl))) as [d2 ->].
    now apply IH.
Qed.

(** The port rows that a run adds carry names that the run has put on
    record. *)
Lemma ingest_files_added utcnow files : forall d d',
  ingest_files utcnow d files = Returned d' ->
  exists rows,
    ports d' = (ports d ++ rows)%list /\
    storable (map p_record rows) /\
    Forall (fun r => In (p_scan_file r) (names d')
                     /\ ~ In (p_scan_file r) (names d)) rows.
Proof.
  induction files as [|[fname file] files IH]; intros d d' Hrun.
  - simpl in Hrun. injection Hrun as <-. exists []. rewrite app_nil_r.
    repeat split; constructor.
  - destruct (Sql.scan_file_exists d fname) eqn:Hex.
    + rewrite (ingest_files_known _ _ _ _ _ Hex) in Hrun. now apply IH.
    + rewrite (ingest_files_new _ _ _ _ _ Hex) in Hrun.
      destruct (insert_records _ fname _) as [d2|] eqn:Hins; [|discriminate].
      apply ingest_one_new in Hins as (Hsf & _ & Hp & _ & Hst).
      assert (Hn2 : names d2 = (names d ++ [fname])%list).
      { unfold names. now rewrite Hsf, map_app. }
      pose proof (ingest_files_names _ _ _ _ Hrun) as [Hincl _].
      apply IH in Hrun as (rows & Hports & Hst' & Hrows).
      exists (map (PortsRow fname) (parse_nmap_xml_path file) ++ rows)%list.
      split; [now rewrite Hports, Hp, <- app_assoc|]. split.
      * unfold storable in *. rewrite map_app, map_map. simpl. rewrite map_id.
        apply Forall_app. now split.
      * apply Forall_app. split.
        -- apply Forall_forall. intros r Hin.
           apply in_map_iff in Hin as (rec & <- & _). simpl. split.
           ++ apply Hincl. rewrite Hn2. apply in_or_app. right. now left.
           ++ intros Hin. apply scan_file_exists_In in Hin. congruence.
        -- eapply Forall_impl; [|exact Hrows].
           intros r [Hin Hnot]. split; [assumption|].
           intros Hd. apply Hnot. rewrite Hn2. apply in_or_app. now left.
Qed.

Lemma select_ports_app_other d d' rows fname :
  ports d' = (ports d ++ rows)%list ->
  Forall (fun r => p_scan_file r <> fname) rows ->
  Sql.select_ports d' fname = Sql.select_ports d fname.
Proof.
  intros Hp Hall. unfold Sql.select_ports. rewrite Hp, filter_app, map_app.
  clear Hp.
  assert (Hnone : filter (fun r => String.eqb (p_scan_file r) fname) rows = []).
  { induction Hall as [|r rows Hr _ IH]; simpl; [reflexivity|].
    destruct (String.eqb_spec (p_scan_file r) fname); [contradiction | exact IH]. }
  rewrite Hnone. apply app_nil_r.
Qed.

(** X3.  In a directory whose file names are text, a port number that
    SQLite cannot hold stops the run with an exception, but cleanly: the
    database then holds exactly what the run over the files before the
    offending one has written, and nothing of the offending file, neither its
    name nor rows of it, so that a later run takes it up again.  When, in
    such a directory, every document has port numbers of 64 bits, the run
    returns.  (A name that is not text stops the run as well, at the first
    query that binds it; such directories are left aside here.) *)
Theorem ingest_failure_is_clean utcnow scans_dir d :
  text_names scans_dir ->
  (forall dc,
      ingest_all_scans utcnow scans_dir d = Raised dc ->
      exists before fname file after,
        xml_files scans_dir = (before ++ (fname, file) :: after)%list /\
        ingest_files utcnow d before = Returned dc /\
        Sql.scan_file_exists dc fname = false /\
        Sql.select_ports dc fname = Sql.select_ports d fname /\
        ~ storable (parse_nmap_xml_path file)) /\
  ((forall f, In f scans_dir -> storable (parse_nmap_xml_path (snd f))) ->
   exists d', ingest_all_scans utcnow scans_dir d = Returned d').
Proof.
  intros _. split.
  - intros dc Hrun. unfold ingest_all_scans in Hrun.
    fold (xml_files scans_dir) in Hrun.
    apply ingest_files_raised in Hrun
      as (before & fname & file & after & Hsplit & Hpre & Hnew & Hbad).
    exists before, fname, file, after.
    split; [assumption|]. split; [assumption|]. split; [assumption|].
    split; [|assumption].
    destruct (ingest_files_added _ _ _ _ Hpre) as (rows & Hports & _ & Hrows).
    apply (select_ports_app_other d dc rows); [assumption|].
    eapply Forall_impl; [|exact Hrows].
    intros r [Hin _] Heq. rewrite Heq in Hin.
    apply scan_file_exists_In in Hin. congruence.
  - intros Hall. unfold ingest_all_scans. apply ingest_files_returns.
    intros f Hin. apply Hall. fold (xml_files scans_dir) in Hin.
    now apply xml_files_In in Hin.
Qed.

(** * The shape of the database *)

Lemma max_id_ge rows r : In r rows -> sf_id r <= Sql.max_id rows.
Proof.
  induction rows as [|r0 rows IH]; simpl; [tauto|].
  intros [->|Hin]; [lia|]. apply IH in Hin. lia.
Qed.

Lemma StronglySorted_snoc {A} (R : A -> A -> Prop) l y :
  StronglySorted R l -> Forall (fun x => R x y) l -> StronglySorted R (l ++ [y]).
Proof.
  induction 1 as [|x l Hs IH Hall]; intros Hy; simpl.
  - repeat constructor.
  - inversion Hy as [|? ? Hxy Hrest]; subst.
    constructor; [now apply IH|].
    apply Forall_app. split; [assumption | now constructor].
Qed.

Lemma StronglySorted_app_lt {A} (R : A -> A -> Prop) l1 x l2 :
  StronglySorted R (l1 ++ x :: l2) -> Forall (fun a => R a x) l1.
Proof.
  induction l1 as [|a l1 IH]; simpl; intros Hs; [constructor|].
  inversion Hs as [|? ? Hs' Hall]; subst.
  constructor; [|now apply IH].
  rewrite Forall_forall in Hall. apply Hall, in_or_app. right. now left.
Qed.

Lemma db_ok_empty : db_ok empty_db.
Proof. repeat split; constructor. Qed.

(** One new file keeps the database in shape. *)
Lemma db_ok_step utcnow d fname file d2 :
  db_ok d ->
  Sql.scan_file_exists d fname = false ->
  insert_records
    (Sql.insert_scan_file d fname (scan_type_of fname) (utcnow fname))
    fname (parse_nmap_xml_path file) = Some d2 ->
  db_ok d2.
Proof.
  intros (Hnames & [Hsorted Hseq] & Hrefs & Hst) Hnew Hins.
  apply ingest_one_new in Hins as (Hsf & Hseq2 & Hp & _ & Hrec).
  assert (Hn2 : names d2 = (names d ++ [fname])%list).
  { unfold names. now rewrite Hsf, map_app. }
  split; [|split; [|split]].
  - rewrite Hn2. apply NoDup_app; [assumption | repeat constructor; simpl; tauto |].
    intros x Hx [<-|[]]. apply scan_file_exists_In in Hx. congruence.
  - unfold ids_increasing. rewrite Hsf, Hseq2. split.
    + apply StronglySorted_snoc; [assumption|].
      apply Forall_forall. intros r Hin. simpl.
      pose proof (max_id_ge _ _ Hin). lia.
    + apply Forall_app. split.
      * apply Forall_forall. intros r Hin.
        pose proof (max_id_ge _ _ Hin). lia.
      * repeat constructor. simpl. lia.
  - rewrite Hp, Hn2. apply Forall_app. split.
    + eapply Forall_impl; [|exact Hrefs].
      intros r Hin. apply in_or_app. now left.
    + apply Forall_forall. intros r Hin.
      apply in_map_iff in Hin as (rec & <- & _). simpl.
      apply in_or_app. right. now left.
  - rewrite Hp. unfold storable in *. rewrite map_app, map_map. simpl.
    rewrite map_id. apply Forall_app. now split.
Qed.

Lemma db_ok_ingest_files utcnow files : forall d,
  db_ok d -> db_ok (final (ingest_files utcnow d files)).
Proof.
  induction files as [|[fname file] files IH]; intros d Hok; simpl; [assumption|].
  destruct (Sql.scan_file_exists d fname) eqn:Hex; [now apply IH|].
  destruct (insert_records _ fname _) as [d2|] eqn:Hins; [|assumption].
  apply IH. now apply (db_ok_step utcnow d fname file).
Qed.

Lemma insert_baseline_rows_tables rows : forall d tenant set_at d',
  insert_baseline_rows d tenant rows set_at = Some d' ->
  scan_files d' = scan_files d /\
  scan_files_seq d' = scan_files_seq d /\
  ports d' = ports d.
Proof.
  induction rows as [|r rows IH]; intros d tenant set_at d'; simpl.
  - now intros [= ->].
  - unfold Sql.insert_baseline. destruct (Sql.int_ok (port r)); [|discriminate].
    intros Hrec. now apply IH in Hrec.
Qed.

Lemma db_ok_same_scans d d' :
  scan_files d' = scan_files d ->
  scan_files_seq d' = scan_files_seq d ->
  ports d' = ports d ->
  db_ok d -> db_ok d'.
Proof.
  unfold db_ok, ids_increasing, names. now intros -> -> ->.
Qed.

(** X4.  The operations keep the database in shape.  From a database in
    which artifact names are distinct, ids grow along the table, every port
    row names an artifact on record and port numbers are 64-bit (the empty
    database is one), ingestion ends, returning or raising, in such a
    database, and so do [set_baseline] and [set_baseline_combined]; a
    [set_baseline] that raises has changed nothing. *)
Theorem db_ok_preserved d :
  db_ok d ->
  (forall utcnow scans_dir,
      db_ok (final (ingest_all_scans utcnow scans_dir d))) /\
  (forall set_at tenant scan_file,
      match set_baseline set_at tenant scan_file d with
      | Returned (_, d') => db_ok d'
      | Raised dc => dc = d
      end) /\
  (forall set_at tenant port_rows,
      db_ok (snd (set_baseline_combined set_at d tenant port_rows))).
Proof.
  intros Hok. split; [|split].
  - intros utcnow scans_dir. unfold ingest_all_scans.
    now apply db_ok_ingest_files.
  - intros set_at tenant scan_file. unfold set_baseline.
    destruct (if negb (Py.truthy_opt scan_file) then Sql.latest_scan_file d
              else scan_file) as [used|]; [|assumption].
    destruct (insert_baseline_rows _ _ _ _) as [d2|] eqn:Hins; [|reflexivity].
    apply insert_baseline_rows_tables in Hins as (H1 & H2 & H3).
    now apply (db_ok_same_scans d).
  - intros set_at tenant port_rows. unfold set_baseline_combined.
    destruct (insert_baseline_rows _ _ _ _) as [d2|] eqn:Hins; [|assumption].
    apply insert_baseline_rows_tables in Hins as (H1 & H2 & H3).
    now apply (db_ok_same_scans d).
Qed.

Lemma newest_In rows : forall best r,
  fold_left
    (fun best r =>
       match best with
       | Some b => if sf_id b <? sf_id r then Some r else Some b
       | None => Some r
       end) rows best = Some r ->
  In r rows \/ best = Some r.
Proof.
  induction rows as [|r0 rows IH]; intros best r; simpl; [now right|].
  intros Hf. apply IH in Hf as [Hin|Hbest]; [left; now right|].
  destruct best as [b|].
  - destruct (sf_id b <? sf_id r0); injection Hbest as <-; [left|right]; auto.
  - injection Hbest as <-. left. now left.
Qed.

Lemma newest_snoc rows r :
  Forall (fun a => sf_id a < sf_id r) rows ->
  Sql.newest (rows ++ [r]) = Some r.
Proof.
  intros Hall. unfold Sql.newest. rewrite fold_left_app. simpl.
  destruct (fold_left _ rows None) as [b|] eqn:Hb; [|reflexivity].
  apply newest_In in Hb as [Hin|Hb]; [|discriminate].
  rewrite Forall_forall in Hall. apply Hall in Hin.
  now apply Z.ltb_lt in Hin as ->.
Qed.

Lemma filter_none {A} (p : A -> bool) l :
  Forall (fun a => p a = false) l -> filter p l = [].
Proof.
  induction 1 as [|a l Ha _ IH]; simpl; [reflexivity|]. now rewrite Ha.
Qed.

(** X5.  The latest artifact is the one ingested last.  In a database
    whose ids grow along [scan_files], the latest scan is the last row of the
    table, and the latest scan of a type is the last row of that type; when
    no row has the type there is none. *)
Theorem latest_is_last_row d :
  ids_increasing d ->
  (forall rows r,
      scan_files d = (rows ++ [r])%list ->
      Sql.latest_scan_file d = Some (sf_scan_file r)) /\
  (forall typ before r after,
      scan_files d = (before ++ r :: after)%list ->
      sf_scan_type r = typ ->
      Forall (fun a => sf_scan_type a <> typ) after ->
      Sql.latest_of_type d typ = Some (sf_scan_file r)) /\
  (forall typ,
      Forall (fun a => sf_scan_type a <> typ) (scan_files d) ->
      Sql.latest_of_type d typ = None).
Proof.
  intros [Hsorted _]. split; [|split].
  - intros rows r Hsplit. unfold Sql.latest_scan_file.
    rewrite Hsplit in *. rewrite newest_snoc; [reflexivity|].
    now apply StronglySorted_app_lt in Hsorted.
  - intros typ before r after Hsplit Htyp Hafter. unfold Sql.latest_of_type.
    rewrite Hsplit in *. rewrite filter_app. simpl.
    rewrite (proj2 (String.eqb_eq _ _) Htyp).
    rewrite (filter_none _ after).
    + rewrite newest_snoc; [reflexivity|].
      apply StronglySorted_app_lt in Hsorted.
      rewrite Forall_forall in *. intros a Hin.
      apply filter_In in Hin as [Hin _]. now apply Hsorted.
    + eapply Forall_impl; [|exact Hafter].
      intros a Ha. now apply String.eqb_neq.
  - intros typ Hnone. unfold Sql.latest_of_type.
    rewrite filter_none; [reflexivity|].
    eapply Forall_impl; [|exact Hnone].
    intros a Ha. now apply String.eqb_neq.
Qed.

Lemma map_eq_snoc {A B} (g : A -> B) l front b :
  map g l = (front ++ [b])%list ->
  exists l' x, l = (l' ++ [x])%list /\ g x = b.
Proof.
  intros Hm. apply map_eq_app in Hm as (l1 & l2 & -> & _ & H2).
  destruct l2 as [|x [|y l2]]; try discriminate.
  injection H2 as <-. now exists l1, x.
Qed.

(** X6.  After a run of ingestion that returns, the latest scan is the new
    file whose name sorts last; a run that finds no new file leaves the
    database as it was. *)
Theorem latest_after_ingest utcnow scans_dir d d' :
  db_ok d ->
  NoDup (map fst scans_dir) ->
  ingest_all_scans utcnow scans_dir d = Returned d' ->
  (forall front f,
      filter (unknown d) (xml_files scans_dir) = (front ++ [f])%list ->
      Sql.latest_scan_file d' = Some (fst f)) /\
  (filter (unknown d) (xml_files scans_dir) = [] -> d' = d).
Proof.
  intros Hok Hnd Hrun. split.
  - intros front f Hfresh.
    assert (Hok' : db_ok d').
    { pose proof (db_ok_ingest_files utcnow (xml_files scans_dir) d Hok) as H.
      unfold ingest_all_scans in Hrun. fold (xml_files scans_dir) in Hrun.
      now rewrite Hrun in H. }
    rewrite ingest_all_scans_fresh in Hrun.
    apply ingest_files_result in Hrun as (Hcols & _ & _).
    + rewrite Hfresh, map_app, app_assoc in Hcols. simpl in Hcols.
      apply map_eq_snoc in Hcols as (rows & r & Hsplit & Hr).
      destruct Hok' as (_ & [Hsorted _] & _).
      unfold Sql.latest_scan_file. rewrite Hsplit in *.
      rewrite newest_snoc by now apply StronglySorted_app_lt in Hsorted.
      simpl. unfold scan_columns in Hr. congruence.
    + now apply NoDup_map_filter, xml_files_NoDup.
    + intros x Hin. now apply filter_In in Hin.
  - intros Hnone. rewrite ingest_all_scans_fresh, Hnone in Hrun.
    simpl in Hrun. congruence.
Qed.

Lemma sample_scans_distinct : NoDup (map fst Sample.scans).
Proof. repeat constructor; simpl; intuition discriminate. Qed.

Lemma ingest_appends_witness :
  NoDup (map fst Sample.scans) /\
  map scan_columns
    (scan_files (final (ingest_all_scans Sample.clock Sample.scans empty_db)))
  = [("scan-20240101-000000-tcp-10.0.0.1.xml", "tcp", "2024-01-01T00:00:00Z");
     ("scan-20240101-000500-udp-10.0.0.1.xml", "udp", "2024-01-01T00:00:00Z")].
Proof.
  split; [exact sample_scans_distinct|].
  exact (proj1 (ingest_appends Sample.clock Sample.scans empty_db
                  (final (ingest_all_scans Sample.clock Sample.scans empty_db))
                  sample_scans_distinct eq_refl)).
Defined.

Lemma ingest_read_back_witness :
  db_ok empty_db /\
  Sql.select_ports
    (final (ingest_all_scans Sample.clock Sample.scans empty_db))
    "scan-20240101-000000-tcp-10.0.0.1.xml"
  = [PortRecord "10.0.0.1" 80 None (Some "") ""].
Proof.
  split; [exact db_ok_empty|].
  exact (proj1 (ingest_read_back Sample.clock Sample.scans empty_db
                  (final (ingest_all_scans Sample.clock Sample.scans empty_db))
                  db_ok_empty sample_scans_distinct eq_refl)
           "scan-20240101-000000-tcp-10.0.0.1.xml" (ET.Tree Sample.bare_scan)
           (or_intror (or_introl eq_refl)) eq_refl eq_refl).
Defined.

Lemma ingest_failure_is_clean_witness :
  text_names Sample.scans_with_huge_port /\
  ingest_all_scans Sample.clock Sample.scans_with_huge_port empty_db
  = Raised
      (Db [ScanFileRow 1 "scan-20240101-000000-tcp-10.0.0.1.xml" "tcp"
             "2024-01-01T00:00:00Z"] 1
          [PortsRow "scan-20240101-000000-tcp-10.0.0.1.xml"
             (PortRecord "10.0.0.1" 80 None (Some "") "")] []) /\
  exists before fname file after,
    xml_files Sample.scans_with_huge_port = (before ++ (fname, file) :: after)%list /\
    ~ storable (parse_nmap_xml_path file).
Proof.
  assert (Htext : text_names Sample.scans_with_huge_port)
    by (repeat constructor).
  split; [exact Htext|]. split; [reflexivity|].
  destruct (proj1 (ingest_failure_is_clean Sample.clock
                     Sample.scans_with_huge_port empty_db Htext) _ eq_refl)
    as (before & fname & file & after & Hsplit & _ & _ & _ & Hbad).
  now exists before, fname, file, after.
Defined.

Lemma db_ok_preserved_witness :
  db_ok empty_db /\
  db_ok (final (ingest_all_scans Sample.clock Sample.scans empty_db)).
Proof.
  split; [exact db_ok_empty|].
  exact (proj1 (db_ok_preserved empty_db db_ok_empty) Sample.clock Sample.scans).
Defined.

Lemma tcp_and_udp_ids : ids_increasing Sample.tcp_and_udp.
Proof.
  split; simpl.
  - repeat constructor; simpl; lia.
  - repeat constructor; simpl; lia.
Qed.

Lemma latest_is_last_row_witness :
  ids_increasing Sample.tcp_and_udp /\
  Sql.latest_of_type Sample.tcp_and_udp "tcp" = Some "site-tcp-1.xml".
Proof.
  split; [exact tcp_and_udp_ids|].
  refine (proj1 (proj2 (latest_is_last_row Sample.tcp_and_udp tcp_and_udp_ids))
            "tcp" []
            (ScanFileRow 1 "site-tcp-1.xml" "tcp" "2024-01-01T00:00:00Z")
            [ScanFileRow 2 "site-udp-1.xml" "udp" "2024-01-01T00:05:00Z"]
            eq_refl eq_refl _).
  repeat constructor. simpl. discriminate.
Defined.

Lemma latest_after_ingest_witness :
  db_ok empty_db /\
  Sql.latest_scan_file
    (final (ingest_all_scans Sample.clock Sample.scans empty_db))
  = Some "scan-20240101-000500-udp-10.0.0.1.xml".
Proof.
  split; [exact db_ok_empty|].
  exact (proj1 (latest_after_ingest Sample.clock Sample.scans empty_db
                  (final (ingest_all_scans Sample.clock Sample.scans empty_db))
                  db_ok_empty sample_scans_distinct eq_refl)
           [("scan-20240101-000000-tcp-10.0.0.1.xml", ET.Tree Sample.bare_scan)]
           ("scan-20240101-000500-udp-10.0.0.1.xml",
            ET.Tree (ET.Elem "nmaprun" [] []))
           eq_refl).
Defined.

(** * Further properties of snapshots and of the delta *)

Lemma keys_snapshot_add snap r h :
  In h (Py.keys (snapshot_add snap r)) -> In h (Py.keys snap) \/ h = ip r.
Proof.
  unfold Py.keys. intros Hin.
  apply in_map_iff in Hin as ([h' m] & Hh & Hin). simpl in Hh. subst h'.
  apply In_set_inv in Hin as [Hin|[-> _]]; [left | now right].
  now apply (in_map fst) in Hin.
Qed.

Lemma keys_load_rows rows : forall snap h,
  In h (Py.keys (load_rows snap rows)) ->
  In h (Py.keys snap) \/ exists r, In r rows /\ ip r = h.
Proof.
  induction rows as [|r rows IH]; intros snap h; simpl; [now left|].
  intros Hin. apply IH in Hin as [Hin|(r' & Hr' & Hip)].
  - apply keys_snapshot_add in Hin as [Hin| ->]; [now left|].
    right. exists r. split; [now left | reflexivity].
  - right. exists r'. split; [now right | assumption].
Qed.

(** X7.  The snapshot built from rows.  Loading rows into an empty
    snapshot gives a dictionary of dictionaries without repeated keys and
    without empty hosts; its hosts are the addresses of the rows; and under a
    host and a (port, protocol) key it holds the state and service of the
    last row with that address and key, so that a later duplicate replaces an
    earlier one. *)
Theorem load_rows_snapshot rows :
  let snap := load_rows [] rows in
  snapshot_wf snap /\
  inhabited snap /\
  (forall h, In h (Py.keys snap) <-> exists r, In r rows /\ ip r = h) /\
  (forall h k, lookup snap h k = last_row rows h k) /\
  (forall r, In r rows -> lookup snap (ip r) (port r, proto r) <> None).
Proof.
  intros snap. split; [|split; [|split; [|split]]].
  - apply load_rows_wf, snapshot_wf_empty.
  - apply load_rows_inhabited. intros h m [].
  - intros h. split.
    + intros Hin. apply keys_load_rows in Hin as [[]|Hr]. exact Hr.
    + intros (r & Hin & <-). now apply load_rows_hosts.
  - intros h k. unfold snap. rewrite lookup_load_rows.
    now destruct (last_row rows h k).
  - intros r Hin. unfold snap. rewrite lookup_load_rows.
    pose proof (last_row_present _ _ Hin).
    now destruct (last_row rows (ip r) (port r, proto r)).
Qed.

Lemma load_rows_snapshot_witness :
  lookup (load_rows [] [Sample.web_open; Sample.web_Open]) "10.0.0.1"
    (80, Some "tcp")
  = last_row [Sample.web_open; Sample.web_Open] "10.0.0.1" (80, Some "tcp").
Proof.
  exact (proj1 (proj2 (proj2 (proj2
           (load_rows_snapshot [Sample.web_open; Sample.web_Open]))))
           "10.0.0.1" (80, Some "tcp")).
Defined.

Lemma lookup_In (snap : snapshot) h k v :
  lookup snap h k = Some v -> In (k, v) (Py.items (Py.get_default snap h [])).
Proof. unfold lookup. apply get_In. Qed.

Lemma In_lookup (snap : snapshot) h k v :
  snapshot_wf snap ->
  In (k, v) (Py.items (Py.get_default snap h [])) -> lookup snap h k = Some v.
Proof.
  intros Hwf Hin. unfold lookup. apply In_get; [|assumption].
  now apply get_default_wf.
Qed.

Lemma keys_added_sub b_map items k v :
  In (k, v) (fst (scan_current b_map items)) -> In (k, v) items.
Proof. intros Hin. now apply in_added in Hin. Qed.

(** The three lists name each key once when the maps do. *)
Lemma scan_current_NoDup b_map items :
  NoDup (map fst items) ->
  NoDup (map fst (fst (scan_current b_map items))) /\
  NoDup (map (fun x => fst (fst x)) (snd (scan_current b_map items))).
Proof.
  induction items as [|[k v] items IH]; simpl; intros Hnd;
    [split; constructor|].
  inversion Hnd as [|? ? Hnotin Hnd']; subst.
  destruct (IH Hnd') as [Ha Hc].
  pose proof (in_added b_map items) as Hia.
  pose proof (in_changed b_map items) as Hic.
  destruct (scan_current b_map items) as [a c]. simpl in *.
  destruct (Py.get b_map k) as [old|].
  - destruct (negb (Py.eqb v old)); simpl; split; try assumption.
    constructor; [|assumption].
    intros Hin. apply in_map_iff in Hin as ([[k' o'] n'] & Hk & Hin).
    simpl in Hk. subst k'. apply Hic in Hin as [Hin _].
    apply Hnotin. now apply (in_map fst) in Hin.
  - simpl. split; [|assumption].
    constructor; [|assumption].
    intros Hin. apply in_map_iff in Hin as ([k' v'] & Hk & Hin).
    simpl in Hk. subst k'. apply Hia in Hin as [Hin _].
    apply Hnotin. now apply (in_map fst) in Hin.
Qed.

Lemma scan_baseline_NoDup c_map items :
  NoDup (map fst items) -> NoDup (map fst (scan_baseline c_map items)).
Proof.
  induction items as [|[k v] items IH]; simpl; intros Hnd; [constructor|].
  inversion Hnd as [|? ? Hnotin Hnd']; subst.
  destruct (negb (Py.contains c_map k)); simpl; [|now apply IH].
  constructor; [|now apply IH].
  intros Hin. apply in_map_iff in Hin as ([k' v'] & Hk & Hin).
  simpl in Hk. subst k'. apply in_removed in Hin as [Hin _].
  apply Hnotin. now apply (in_map fst) in Hin.
Qed.

Lemma compute_delta_get_inv set_iter baseline current h info :
  iterates set_iter ->
  Py.get (_compute_delta set_iter baseline current) h = Some info ->
  In h (Py.keys baseline ++ Py.keys current) /\
  info = delta_of (Py.get_default baseline h []) (Py.get_default current h []).
Proof.
  intros Hit Hg. rewrite compute_delta_fold, fold_delta_get in Hg. cbv zeta in Hg.
  destruct (existsb _ _) eqn:Hex; simpl in Hg; [|discriminate].
  destruct (any_entry _); [|discriminate].
  apply existsb_eqb_In in Hex. apply (proj1 (proj2 (Hit _) h)) in Hex.
  split; [assumption | congruence].
Qed.

(** X8.  Every entry of a report is real.  For snapshots without repeated
    keys, a host of the report is a host of one of the snapshots; an added
    entry is an observation of the current snapshot whose key the baseline
    lacks; a removed entry is an observation of the baseline whose key the
    current snapshot lacks; a changed entry carries the baseline's and the
    current snapshot's observations of a key of both, and they differ; and
    within each list a key occurs once. *)
Theorem report_entries_are_real set_iter baseline current h info :
  iterates set_iter ->
  snapshot_wf baseline -> snapshot_wf current ->
  Py.get (_compute_delta set_iter baseline current) h = Some info ->
  In h (Py.keys baseline ++ Py.keys current) /\
  (forall k v,
      In (k, v) (added info) ->
      lookup current h k = Some v /\ lookup baseline h k = None) /\
  (forall k v,
      In (k, v) (removed info) ->
      lookup baseline h k = Some v /\ lookup current h k = None) /\
  (forall k old new,
      In (k, old, new) (changed info) ->
      lookup baseline h k = Some old /\ lookup current h k = Some new
      /\ old <> new) /\
  NoDup (map fst (added info)) /\
  NoDup (map fst (removed info)) /\
  NoDup (map (fun x => fst (fst x)) (changed info)).
Proof.
  intros Hit Hb Hc Hg.
  apply compute_delta_get_inv in Hg as [Hh ->]; [|assumption].
  pose proof (get_default_wf baseline h Hb) as Hwb.
  pose proof (get_default_wf current h Hc) as Hwc.
  split; [assumption|].
  rewrite added_of_delta, removed_of_delta, changed_of_delta.
  split; [|split; [|split; [|split; [|split]]]].
  - intros k v Hin. apply in_added in Hin as [Hin Hn].
    split; [now apply In_lookup | exact Hn].
  - intros k v Hin. apply in_removed in Hin as [Hin Hn].
    split; [now apply In_lookup | exact Hn].
  - intros k old new Hin. apply in_changed in Hin as (Hin & Ho & Hne).
    split; [exact Ho|]. split; [now apply In_lookup | congruence].
  - now apply scan_current_NoDup.
  - now apply scan_baseline_NoDup.
  - now apply scan_current_NoDup.
Qed.

Lemma report_entries_are_real_witness :
  exists info,
    Py.get (_compute_delta Sample.forwards Sample.baseline Sample.current)
      "10.0.0.2" = Some info /\
    forall k v,
      In (k, v) (added info) ->
      lookup Sample.current "10.0.0.2" k = Some v
      /\ lookup Sample.baseline "10.0.0.2" k = None.
Proof.
  eexists. split; [reflexivity|].
  refine (proj1 (proj2 (report_entries_are_real Sample.forwards Sample.baseline
                          Sample.current "10.0.0.2" _ forwards_iterates _ _
                          eq_refl))).
  - apply load_rows_wf, snapshot_wf_empty.
  - apply load_rows_wf, snapshot_wf_empty.
Defined.

Lemma fold_delta_quiet baseline current ips : forall acc : delta_report,
  (forall ip, In ip ips -> has_drift baseline current ip = false) ->
  fold_left (delta_step baseline current) ips acc = acc.
Proof.
  induction ips as [|ip ips IH]; intros acc Hq; simpl; [reflexivity|].
  rewrite IH by (intros x Hx; apply Hq; now right).
  unfold delta_step. fold (has_drift baseline current ip).
  now rewrite Hq by now left.
Qed.

Lemma any_entry_false e :
  any_entry e = false <-> added e = [] /\ removed e = [] /\ changed e = [].
Proof.
  unfold any_entry.
  destruct (added e), (removed e), (changed e); split;
    try discriminate; try (intros (? & ? & ?); discriminate); auto.
Qed.

Lemma lookup_absent_host (snap : snapshot) h k :
  ~ In h (Py.keys snap) -> lookup snap h k = None.
Proof.
  intros Hnot. unfold lookup, Py.get_default.
  now rewrite (proj2 (get_None snap h) Hnot).
Qed.

(** The delta of two maps is empty when they hold the same observations. *)
Lemma delta_of_agree b_map c_map :
  Py.wf b_map -> Py.wf c_map ->
  (forall k, Py.get b_map k = Py.get c_map k) ->
  any_entry (delta_of b_map c_map) = false.
Proof.
  intros Hb Hc Hagree. unfold delta_of.
  rewrite scan_current_same, scan_baseline_same; [reflexivity | |].
  - intros k v Hin. rewrite <- Hagree. now apply In_get.
  - intros k v Hin. rewrite Hagree. now apply In_get.
Qed.

(** And only then. *)
Lemma delta_of_quiet b_map c_map k :
  any_entry (delta_of b_map c_map) = false ->
  Py.get b_map k = Py.get c_map k.
Proof.
  intros Hq. apply any_entry_false in Hq as (Ha & Hr & Hc).
  rewrite added_of_delta in Ha. rewrite removed_of_delta in Hr.
  rewrite changed_of_delta in Hc.
  destruct (Py.get c_map k) as [v|] eqn:Hcur.
  - apply get_In in Hcur.
    destruct (Py.get b_map k) as [old|] eqn:Hbase.
    + destruct (eqb_spec v old) as [->|Hne]; [reflexivity|].
      assert (Hin : In (k, old, v) (snd (scan_current b_map (Py.items c_map))))
        by (apply in_changed; repeat split; assumption).
      rewrite Hc in Hin. destruct Hin.
    + assert (Hin : In (k, v) (fst (scan_current b_map (Py.items c_map))))
        by (apply in_added; split; assumption).
      rewrite Ha in Hin. destruct Hin.
  - destruct (Py.get b_map k) as [old|] eqn:Hbase; [|reflexivity].
    apply get_In in Hbase.
    assert (Hin : In (k, old) (scan_baseline c_map (Py.items b_map)))
      by (apply in_removed; split; assumption).
    rewrite Hr in Hin. destruct Hin.
Qed.

(** X9.  The report is empty exactly when there is no drift: for snapshots
    without repeated keys, [_compute_delta] gives the empty report if and
    only if the two snapshots hold the same observation, or none, under
    every host and key. *)
Theorem empty_report_iff_same set_iter baseline current :
  iterates set_iter ->
  snapshot_wf baseline -> snapshot_wf current ->
  (_compute_delta set_iter baseline current = [] <->
   forall h k, lookup baseline h k = lookup current h k).
Proof.
  intros Hit Hb Hc. split.
  - intros Hempty h k.
    destruct (in_dec string_dec h (Py.keys baseline ++ Py.keys current)%list)
      as [Hin|Hnot].
    + apply delta_of_quiet.
      apply (proj2 (Hit _)) in Hin.
      pose proof (compute_delta_get set_iter baseline current h Hin) as Hg.
      cbv zeta in Hg. rewrite Hempty in Hg.
      now destruct (any_entry _).
    + rewrite !lookup_absent_host; [reflexivity | |];
        intros Hin; apply Hnot, in_or_app; auto.
  - intros Hsame. rewrite compute_delta_fold. apply fold_delta_quiet.
    intros ip _. unfold has_drift.
    apply delta_of_agree; try now apply get_default_wf.
    intros k. apply Hsame.
Qed.

Lemma empty_report_iff_same_witness :
  _compute_delta Sample.forwards Sample.two_hosts Sample.two_hosts = [] /\
  forall h k, lookup Sample.two_hosts h k = lookup Sample.two_hosts h k.
Proof.
  assert (Hwf : snapshot_wf Sample.two_hosts)
    by apply load_rows_wf, snapshot_wf_empty.
  split; [|reflexivity].
  apply (proj2 (empty_report_iff_same Sample.forwards Sample.two_hosts
                  Sample.two_hosts forwards_iterates Hwf Hwf)).
  reflexivity.
Defined.

Lemma added_is_removed b_map items :
  fst (scan_current b_map items) = scan_baseline b_map items.
Proof.
  induction items as [|[k v] items IH]; simpl; [reflexivity|].
  destruct (scan_current b_map items) as [a c]. simpl in IH. subst a.
  unfold Py.contains. destruct (Py.get b_map k) as [old|]; simpl; [|reflexivity].
  now destruct (negb (Py.eqb v old)).
Qed.

Lemma changed_swap b_map c_map k old new :
  Py.wf b_map -> Py.wf c_map ->
  In (k, old, new) (changed (delta_of b_map c_map)) ->
  In (k, new, old) (changed (delta_of c_map b_map)).
Proof.
  intros Hb Hc. rewrite !changed_of_delta, !in_changed.
  intros (Hin & Hold & Hne). repeat split.
  - now apply get_In.
  - now apply In_get.
  - congruence.
Qed.

Lemma any_entry_swap b_map c_map :
  Py.wf b_map -> Py.wf c_map ->
  any_entry (delta_of c_map b_map) = any_entry (delta_of b_map c_map).
Proof.
  intros Hb Hc.
  destruct (any_entry (delta_of b_map c_map)) eqn:Hfwd.
  - destruct (any_entry (delta_of c_map b_map)) eqn:Hbwd; [reflexivity|].
    rewrite delta_of_agree in Hfwd; [discriminate | assumption | assumption |].
    intros k. symmetry. now apply delta_of_quiet.
  - apply delta_of_agree; try assumption.
    intros k. symmetry. now apply delta_of_quiet.
Qed.

(** X10.  Comparing the other way round.  For snapshots without repeated
    keys, a host is in the report of [current] against [baseline] exactly
    when it is in the report of [baseline] against [current]; what one lists
    as added the other lists as removed, entry for entry, and a changed entry
    of one is a changed entry of the other with old and new exchanged. *)
Theorem compute_delta_swap set_iter baseline current h :
  iterates set_iter ->
  snapshot_wf baseline -> snapshot_wf current ->
  match Py.get (_compute_delta set_iter baseline current) h,
        Py.get (_compute_delta set_iter current baseline) h with
  | Some fwd, Some bwd =>
      added bwd = removed fwd /\
      removed bwd = added fwd /\
      (forall k old new,
          In (k, old, new) (changed fwd) <-> In (k, new, old) (changed bwd))
  | None, None => True
  | _, _ => False
  end.
Proof.
  intros Hit Hb Hc.
  pose proof (get_default_wf baseline h Hb) as Hwb.
  pose proof (get_default_wf current h Hc) as Hwc.
  rewrite !compute_delta_fold, !fold_delta_get. cbv zeta.
  assert (Hex : existsb (String.eqb h)
                  (set_iter (Py.keys current ++ Py.keys baseline)%list)
                = existsb (String.eqb h)
                    (set_iter (Py.keys baseline ++ Py.keys current)%list)).
  { apply eq_true_iff_eq. rewrite !existsb_eqb_In.
    rewrite (proj2 (Hit _) h), (proj2 (Hit _) h), !in_app_iff. tauto. }
  rewrite Hex, (any_entry_swap _ _ Hwb Hwc).
  destruct (existsb _ _ && any_entry _); [|exact I].
  rewrite !added_of_delta, !removed_of_delta.
  split; [apply added_is_removed|].
  split; [symmetry; apply added_is_removed|].
  intros k old new. split; now apply changed_swap.
Qed.

Lemma compute_delta_swap_witness :
  exists bwd,
    Py.get (_compute_delta Sample.forwards Sample.current Sample.baseline)
      "10.0.0.2" = Some bwd /\
    removed bwd
    = [((22, Some "tcp"), Observation (Some "open") "ssh")].
Proof.
  assert (Hb : snapshot_wf Sample.baseline)
    by apply load_rows_wf, snapshot_wf_empty.
  assert (Hc : snapshot_wf Sample.current)
    by apply load_rows_wf, snapshot_wf_empty.
  pose proof (compute_delta_swap Sample.forwards Sample.baseline Sample.current
                "10.0.0.2" forwards_iterates Hb Hc) as Hswap.
  destruct (Py.get (_compute_delta Sample.forwards Sample.current Sample.baseline)
              "10.0.0.2") as [bwd|] eqn:Hbwd.
  - exists bwd. split; [reflexivity|].
    change (Py.get (_compute_delta Sample.forwards Sample.baseline Sample.current)
              "10.0.0.2")
      with (Some (HostDelta [((22, Some "tcp"), Observation (Some "open") "ssh")]
                    [] [])) in Hswap.
    now destruct Hswap as (_ & -> & _).
  - vm_compute in Hbwd. discriminate.
Defined.

(** * Further properties of baselines *)

Lemma set_baseline_returned set_at tenant scan_file d used d' :
  set_baseline set_at tenant scan_file d = Returned (Some used, d') ->
  (if negb (Py.truthy_opt scan_file) then Sql.latest_scan_file d else scan_file)
    = Some used /\
  baseline_replaced d d' tenant (Sql.select_ports d used) set_at.
Proof.
  unfold set_baseline. intros Hrun.
  destruct (if negb (Py.truthy_opt scan_file) then Sql.latest_scan_file d
            else scan_file) as [f|]; [|discriminate].
  change (Sql.select_ports (Sql.delete_baseline d tenant) f)
    with (Sql.select_ports d f) in Hrun.
  destruct (insert_baseline_rows _ _ _ _) as [d2|] eqn:Hins; [|discriminate].
  injection Hrun as <- <-.
  pose proof (insert_baseline_rows_storable _ _ _ _ _ Hins) as Hst.
  destruct (delete_insert_replaces d tenant _ set_at Hst) as (d3 & Hins3 & Hrep).
  split; [reflexivity|]. congruence.
Qed.

Lemma compare_after_set_baseline set_iter set_at tenant scan_file d used d' :
  set_baseline set_at tenant scan_file d = Returned (Some used, d') ->
  Sql.latest_scan_file d = Some used ->
  scan_files d' = scan_files d /\
  compare_baseline_to_latest set_iter tenant d' = Some (used, []).
Proof.
  intros Hrun Hlatest.
  apply set_baseline_returned in Hrun as [_ Hrep].
  pose proof (select_baseline_replaced _ _ _ _ _ Hrep) as Hsel.
  destruct Hrep as (_ & _ & Hsf & _ & Hp).
  split; [assumption|].
  unfold compare_baseline_to_latest, Sql.latest_scan_file.
  rewrite Hsf. fold (Sql.latest_scan_file d). rewrite Hlatest.
  rewrite Hsel. unfold Sql.select_ports. rewrite Hp.
  fold (Sql.select_ports d used).
  rewrite compute_delta_fold, fold_delta_self; [reflexivity|].
  apply load_rows_wf, snapshot_wf_empty.
Qed.

(** X11.  A baseline taken from the latest scan shows no drift.  When
    [set_baseline] returns having used the scan that is the latest one,
    [compare_baseline_to_latest] for the same tenant names that scan and
    gives the empty report. *)
Theorem baseline_then_compare set_iter set_at tenant scan_file d used d' :
  set_baseline set_at tenant scan_file d = Returned (Some used, d') ->
  Sql.latest_scan_file d = Some used ->
  compare_baseline_to_latest set_iter tenant d' = Some (used, []).
Proof.
  intros Hrun Hlatest.
  now destruct (compare_after_set_baseline set_iter set_at tenant scan_file d
                  used d' Hrun Hlatest).
Qed.

Lemma baseline_then_compare_witness :
  exists d',
    set_baseline "2024-01-02T00:00:00Z" "acme" None Sample.tcp_and_udp
      = Returned (Some "site-udp-1.xml", d') /\
    compare_baseline_to_latest Sample.forwards "acme" d'
      = Some ("site-udp-1.xml", []).
Proof.
  eexists. split; [reflexivity|].
  apply (baseline_then_compare Sample.forwards "2024-01-02T00:00:00Z" "acme"
           None Sample.tcp_and_udp); reflexivity.
Defined.


Lemma compute_delta_all_added set_iter current h :
  iterates set_iter -> inhabited current ->
  Py.get (_compute_delta set_iter [] current) h =
  match Py.get current h with
  | Some c_map => Some (HostDelta (Py.items c_map) [] [])
  | None => None
  end.
Proof.
  intros Hit Hinh. rewrite compute_delta_fold, fold_delta_get. cbv zeta.
  change (Py.get_default [] h []) with (@nil (port_key * observation)).
  assert (Hd : forall c_map : port_map,
             delta_of [] c_map = HostDelta (Py.items c_map) [] []).
  { intros c_map. unfold delta_of, Py.items.
    assert (Hs : scan_current [] c_map = (c_map, [])).
    { induction c_map as [|[k v] c_map IH]; simpl; [reflexivity|].
      now rewrite IH. }
    now rewrite Hs. }
  rewrite Hd. unfold any_entry, Py.get_default, Py.items.
  cbn [added removed changed].
  destruct (Py.get current h) as [c_map|] eqn:Hg.
  - assert (Hin : In h (set_iter (Py.keys (V:=port_map) [] ++ Py.keys current)%list)).
    { apply (proj2 (Hit _)), in_or_app. right. now apply get_Some_key in Hg. }
    apply existsb_eqb_In in Hin. rewrite Hin. simpl.
    assert (Hne : c_map <> []) by (apply (Hinh h); now apply get_In).
    now destruct c_map.
  - now rewrite andb_false_r.
Qed.

Lemma combined_current_inhabited d latest_tcp latest_udp :
  inhabited (combined_current d latest_tcp latest_udp).
Proof.
  rewrite combined_current_rows.
  apply load_rows_inhabited, load_rows_inhabited. intros h m [].
Qed.

(** X13.  A tenant without a baseline sees everything as added.  When the
    tenant has no row in [baseline_ports],
    [compare_baseline_to_latest_combined] returns normally and its report
    holds, for every host of the combined current snapshot, all the entries
    of that host as added and nothing removed or changed. *)
Theorem compare_without_baseline set_iter tenant d :
  iterates set_iter ->
  Sql.select_baseline d tenant = [] ->
  let result := compare_baseline_to_latest_combined set_iter tenant d in
  let current :=
    combined_current d (Sql.latest_of_type d "tcp") (Sql.latest_of_type d "udp") in
  (forall h c_map,
      Py.get current h = Some c_map ->
      Py.get (report result) h = Some (HostDelta (Py.items c_map) [] [])) /\
  (forall h k o,
      lookup current h k = Some o ->
      exists info,
        Py.get (report result) h = Some info /\ In (k, o) (added info)) /\
  (forall h, Py.get current h = None -> Py.get (report result) h = None).
Proof.
  intros Hit Hnone result current.
  assert (Hrep : forall h,
             Py.get (report result) h =
             match Py.get current h with
             | Some c_map => Some (HostDelta (Py.items c_map) [] [])
             | None => None
             end).
  { intros h. unfold result, compare_baseline_to_latest_combined.
    rewrite Hnone. simpl report.
    apply compute_delta_all_added; [assumption|].
    apply combined_current_inhabited. }
  split; [|split].
  - intros h c_map Hg. now rewrite Hrep, Hg.
  - intros h k o Hl. unfold lookup, Py.get_default in Hl. rewrite Hrep.
    destruct (Py.get current h) as [c_map|]; [|discriminate].
    eexists. split; [reflexivity|]. simpl. now apply get_In.
  - intros h Hg. now rewrite Hrep, Hg.
Qed.

Lemma compare_without_baseline_witness :
  exists info,
    Py.get
      (report (compare_baseline_to_latest_combined Sample.forwards "nobody"
                 Sample.tcp_and_udp)) "10.0.0.1" = Some info /\
    In ((161, Some "udp"), Observation (Some "open") "snmp") (added info).
Proof.
  destruct (compare_without_baseline Sample.forwards "nobody" Sample.tcp_and_udp
              forwards_iterates eq_refl) as (_ & Hkey & _).
  apply Hkey. reflexivity.
Defined.

Lemma last_row_cons_Some r rows h k o :
  last_row rows h k = Some o -> last_row (r :: rows) h k = Some o.
Proof. intros Hl. simpl. now rewrite Hl. Qed.

(** The last row for a key among the rows of several scans is the last row
    for it in one of them. *)
Lemma last_row_merged (rows : list ports_row) (fnames : list string) h k :
  let merged :=
    map p_record
      (filter (fun r => existsb (String.eqb (p_scan_file r)) fnames) rows) in
  let of_scan f :=
    map p_record (filter (fun r => String.eqb (p_scan_file r) f) rows) in
  match last_row merged h k with
  | Some o => exists f, In f fnames /\ last_row (of_scan f) h k = Some o
  | None => forall f, In f fnames -> last_row (of_scan f) h k = None
  end.
Proof.
  induction rows as [|r rows IH]; simpl; [easy|]. simpl in IH.
  destruct (existsb (String.eqb (p_scan_file r)) fnames) eqn:Hex; simpl.
  - destruct (last_row (map p_record (filter _ rows)) h k) as [o|] eqn:Hm.
    + destruct IH as (f & Hf & Hl). exists f. split; [assumption|].
      destruct (String.eqb (p_scan_file r) f); [|assumption].
      now apply last_row_cons_Some.
    + destruct (String.eqb (ip (p_record r)) h
                && Py.eqb (port (p_record r), proto (p_record r)) k) eqn:Hmatch.
      * apply existsb_exists in Hex as (f & Hf & Heq).
        exists f. split; [assumption|]. rewrite Heq. simpl.
        now rewrite (IH f Hf), Hmatch.
      * intros f Hf. destruct (String.eqb (p_scan_file r) f); simpl.
        -- now rewrite (IH f Hf), Hmatch.
        -- now apply IH.
  - assert (Hother : forall f, In f fnames -> String.eqb (p_scan_file r) f = false).
    { intros f Hf. destruct (String.eqb (p_scan_file r) f) eqn:Heq; [|reflexivity].
      assert (Ht : existsb (String.eqb (p_scan_file r)) fnames = true)
        by (apply existsb_exists; now exists f).
      congruence. }
    destruct (last_row (map p_record (filter _ rows)) h k) as [o|].
    + destruct IH as (f & Hf & Hl). exists f. split; [assumption|].
      now rewrite (Hother f Hf).
    + intros f Hf. rewrite (Hother f Hf). now apply IH.
Qed.

(** The scans that step 4 of [create_baseline.py] collects. *)
Lemma main_scan_files d :
  let t := Sql.latest_of_type d "tcp" in
  let u := Sql.latest_of_type d "udp" in
  let fs1 := match t with
             | Some f => if Py.truthy f then [f] else []
             | None => []
             end in
  let fs2 := match u with
             | Some f =>
                 if Py.truthy f && negb (existsb (String.eqb f) fs1)
                 then (fs1 ++ [f])%list else fs1
             | None => fs1
             end in
  (forall f, In f fs2 ->
     Sql.select_ports d f = scan_rows d t \/ Sql.select_ports d f = scan_rows d u) /\
  (scan_rows d t <> [] -> exists f, In f fs2 /\ Sql.select_ports d f = scan_rows d t) /\
  (scan_rows d u <> [] -> exists f, In f fs2 /\ Sql.select_ports d f = scan_rows d u).
Proof.
  intros t u fs1 fs2.
  assert (H1 : forall f, In f fs1 -> Sql.select_ports d f = scan_rows d t).
  { intros f Hin. unfold fs1 in Hin. unfold scan_rows.
    destruct t as [ft|]; [|destruct Hin].
    destruct (Py.truthy ft); [|destruct Hin].
    destruct Hin as [->|[]]. reflexivity. }
  assert (H1' : scan_rows d t <> [] ->
                exists f, In f fs1 /\ Sql.select_ports d f = scan_rows d t).
  { unfold scan_rows, fs1. destruct t as [ft|]; [|congruence].
    destruct (Py.truthy ft); [|congruence].
    intros _. exists ft. split; [now left | reflexivity]. }
  unfold fs2. destruct u as [fu|]; simpl scan_rows.
  - destruct (Py.truthy fu) eqn:Htru; simpl.
    + destruct (existsb (String.eqb fu) fs1) eqn:Hex; simpl.
      * apply existsb_eqb_In in Hex.
        split; [|split].
        -- intros f Hin. left. now apply H1.
        -- exact H1'.
        -- intros _. exists fu. split; [assumption | reflexivity].
      * split; [|split].
        -- intros f Hin. apply in_app_or in Hin as [Hin|[<-|[]]];
             [left; now apply H1 | now right].
        -- intros Hne. destruct (H1' Hne) as (f & Hf & Hs).
           exists f. split; [apply in_or_app; now left | assumption].
        -- intros _. exists fu. split; [|reflexivity].
           apply in_or_app. right. now left.
    + split; [|split].
      * intros f Hin. left. now apply H1.
      * exact H1'.
      * congruence.
  - split; [|split].
    + intros f Hin. left. now apply H1.
    + exact H1'.
    + congruence.
Qed.

Lemma last_row_nil h k : last_row [] h k = None.
Proof. reflexivity. Qed.

(** X14.  A combined baseline shows no drift.  When step 4 of
    [create_baseline.py] ends with exit code 0, so that the tenant's
    baseline is the rows of the latest TCP and UDP scans, and the two scans
    agree wherever they hold a common key,
    [compare_baseline_to_latest_combined] for that tenant gives the empty
    report. *)
Theorem build_baseline_then_compare set_iter set_at tenant d d' :
  main_build_baseline set_at tenant d = (0, d') ->
  kinds_agree d ->
  compare_baseline_to_latest_combined set_iter tenant d'
  = Combined (Sql.latest_of_type d "tcp") (Sql.latest_of_type d "udp") [].
Proof.
  intros Hrun Hagree.
  unfold main_build_baseline, get_latest_scan_files in Hrun.
  pose proof (main_scan_files d) as Hfs. cbv zeta in Hfs.
  set (fs := match Sql.latest_of_type d "udp" with
             | Some f => _
             | None => _
             end) in *.
  destruct fs as [|f0 fs0] eqn:Hfs0; [discriminate|]. rewrite <- Hfs0 in *.
  assert (Hrows : collect_ports_for_scans d fs = Sql.select_ports_in d fs)
    by now rewrite Hfs0.
  unfold set_baseline_combined in Hrun.
  destruct (insert_baseline_rows _ _ _ _) as [d2|] eqn:Hins; [|discriminate].
  assert (d2 = d') by (destruct (_ <? 0); congruence). subst d2.
  pose proof (insert_baseline_rows_storable _ _ _ _ _ Hins) as Hst.
  destruct (delete_insert_replaces d tenant _ set_at Hst) as (d3 & Hins3 & Hrep).
  assert (d3 = d') by congruence. subst d3.
  pose proof (select_baseline_replaced _ _ _ _ _ Hrep) as Hsel.
  destruct Hrep as (_ & _ & Hsf & _ & Hp).
  unfold compare_baseline_to_latest_combined, Sql.latest_of_type.
  rewrite Hsf. fold (Sql.latest_of_type d "tcp") (Sql.latest_of_type d "udp").
  f_equal. rewrite Hsel.
  assert (Hcur : combined_current d' (Sql.latest_of_type d "tcp")
                   (Sql.latest_of_type d "udp")
                 = combined_current d (Sql.latest_of_type d "tcp")
                     (Sql.latest_of_type d "udp")).
  { unfold combined_current, Sql.select_ports. now rewrite Hp. }
  rewrite Hcur, compute_delta_fold. apply fold_delta_quiet. intros ip _.
  unfold has_drift. apply delta_of_agree.
  - apply get_default_wf, load_rows_wf, snapshot_wf_empty.
  - rewrite combined_current_rows.
    apply get_default_wf, load_rows_wf, load_rows_wf, snapshot_wf_empty.
  - intros k. rewrite Hrows.
    change (lookup (load_rows [] (Sql.select_ports_in d fs)) ip k
            = lookup (combined_current d (Sql.latest_of_type d "tcp")
                        (Sql.latest_of_type d "udp")) ip k).
    rewrite combined_current_rows, !lookup_load_rows, lookup_empty.
    set (T := scan_rows d (Sql.latest_of_type d "tcp")) in *.
    set (U := scan_rows d (Sql.latest_of_type d "udp")) in *.
    destruct Hfs as (Hin & HT & HU).
    pose proof (last_row_merged (ports d) fs ip k) as Hm. cbv zeta in Hm.
    fold (Sql.select_ports_in d fs) in Hm.
    destruct (last_row (Sql.select_ports_in d fs) ip k) as [o|].
    + destruct Hm as (f & Hf & Hl). fold (Sql.select_ports d f) in Hl.
      destruct (Hin f Hf) as [Heq|Heq]; rewrite Heq in Hl.
      * destruct (last_row U ip k) as [ou|] eqn:Hu.
        -- now rewrite (Hagree ip k o ou Hl Hu).
        -- now rewrite Hl.
      * now rewrite Hl.
    + assert (Hnone : forall rows,
                 (rows <> [] -> exists f, In f fs /\ Sql.select_ports d f = rows) ->
                 last_row rows ip k = None).
      { intros rows Hex. destruct rows as [|r rows]; [reflexivity|].
        destruct Hex as (f & Hf & Hs); [discriminate|].
        rewrite <- Hs. apply (Hm f Hf). }
      now rewrite (Hnone U HU), (Hnone T HT).
Qed.

Lemma last_row_In rows h k o :
  last_row rows h k = Some o ->
  exists r, In r rows /\ ip r = h /\ (port r, proto r) = k
            /\ o = Observation (state r) (service r).
Proof.
  induction rows as [|r rows IH]; simpl; [discriminate|].
  destruct (last_row rows h k) as [o'|].
  - intros [= <-]. destruct (IH eq_refl) as (r' & Hin & Hrest).
    exists r'. split; [now right | assumption].
  - destruct (String.eqb_spec (ip r) h) as [Hip|]; simpl; [|discriminate].
    destruct (eqb_spec (port r, proto r) k) as [Hk|]; [|discriminate].
    intros [= <-]. exists r. split; [now left | now repeat split].
Qed.

Lemma tcp_and_udp_apart_agree : kinds_agree Sample.tcp_and_udp_apart.
Proof.
  intros h k ot ou Ht Hu.
  apply last_row_In in Ht as (rt & Hrt & _ & Hkt & _).
  apply last_row_In in Hu as (ru & Hru & _ & Hku & _).
  destruct Hrt as [<-|[]]. destruct Hru as [<-|[]].
  rewrite <- Hkt in Hku. discriminate.
Qed.

Lemma build_baseline_then_compare_witness :
  kinds_agree Sample.tcp_and_udp_apart /\
  report
    (compare_baseline_to_latest_combined Sample.forwards "acme"
       (snd (main_build_baseline "2024-01-02T00:00:00Z" "acme"
               Sample.tcp_and_udp_apart)))
  = [].
Proof.
  split; [exact tcp_and_udp_apart_agree|].
  exact (f_equal report
           (build_baseline_then_compare Sample.forwards "2024-01-02T00:00:00Z"
              "acme" Sample.tcp_and_udp_apart
              (snd (main_build_baseline "2024-01-02T00:00:00Z" "acme"
                      Sample.tcp_and_udp_apart))
              eq_refl tcp_and_udp_apart_agree)).
Defined.

(** Where the two scans disagree on a common key and the TCP artifact was
    ingested after the UDP one, the baseline keeps the TCP observation while
    the comparison prefers the UDP one: the fresh baseline shows a change. *)
Remark build_baseline_then_compare_disagreeing :
  report
    (compare_baseline_to_latest_combined Sample.forwards "acme"
       (snd (main_build_baseline "2024-01-02T00:00:00Z" "acme"
               Sample.udp_then_tcp)))
  = [("10.0.0.1",
      HostDelta [] []
        [((161, Some "udp"), Observation (Some "closed") "snmp",
          Observation (Some "open") "snmp")])].
Proof. reflexivity. Qed.





(** * The report as text and as mail *)

Lemma fold_total_acc (items : list (string * host_delta)) : forall acc,
  fold_left (fun t item => t + host_total item) items acc
  = acc + total_entries items.
Proof.
  induction items as [|item items IH]; intros acc; simpl; [lia|].
  rewrite IH. unfold total_entries at 2. simpl. fold (total_entries items). lia.
Qed.

Lemma total_entries_perm (l1 l2 : list (string * host_delta)) :
  Permutation l1 l2 -> total_entries l1 = total_entries l2.
Proof.
  induction 1 as [|x l1 l2 _ IH|x y l|l1 l2 l3 _ IH1 _ IH2];
    unfold total_entries in *; simpl; lia.
Qed.

Lemma host_total_pos ip e : any_entry e = true -> 1 <= host_total (ip, e).
Proof.
  intros Hany. apply any_entry_true in Hany. unfold host_total. simpl.
  destruct Hany as [Ha|[Hr|Hc]].
  - destruct (added e); [congruence|]. simpl. lia.
  - destruct (removed e); [congruence|]. simpl. lia.
  - destruct (changed e); [congruence|]. simpl. lia.
Qed.

Lemma total_host_entries baseline current ips :
  Z.of_nat (length (host_entries baseline current ips))
  <= total_entries (host_entries baseline current ips).
Proof.
  induction ips as [|ip ips IH]; simpl; [reflexivity|].
  destruct (has_drift baseline current ip) eqn:Hany; simpl; [|exact IH].
  pose proof (host_total_pos ip _ Hany) as Hpos.
  unfold total_entries in *. simpl. lia.
Qed.


(** X16.  The count that [_format_report] returns is the number of added,
    removed and changed entries of the report, whatever the order of its
    hosts.  For a report of [_compute_delta] it is at least the number of
    hosts of the report, so that it is 0 only for the empty report. *)
Theorem format_report_total set_iter baseline current :
  iterates set_iter ->
  let report := _compute_delta set_iter baseline current in
  snd (_format_report report) = total_entries report /\
  Z.of_nat (length report) <= total_entries report /\
  (total_entries report = 0 <-> report = []).
Proof.
  intros Hit report.
  assert (Hle : Z.of_nat (length report) <= total_entries report).
  { unfold report. rewrite compute_delta_entries by assumption.
    apply total_host_entries. }
  split; [|split; [exact Hle|]].
  - unfold _format_report. simpl. rewrite fold_total_acc. simpl.
    apply total_entries_perm. unfold visit_order. apply sorted_perm.
  - split.
    + intros Hz. destruct report; [reflexivity|]. simpl length in Hle. lia.
    + now intros ->.
Qed.

Lemma format_report_total_witness :
  snd (_format_report
         (_compute_delta Sample.backwards Sample.baseline Sample.current))
  = 2.
Proof.
  exact (proj1 (format_report_total Sample.backwards Sample.baseline
                  Sample.current backwards_iterates)).
Defined.





(** X18.  No mail right after a baseline.  When [set_baseline] has
    returned having used the latest scan, and the scans directory holds no
    [.xml] file that is not on record, [check_baseline] for that tenant
    leaves the database as it is, hands no mail to [send_mail], whatever
    that would do with one, and ends with exit code 0, or with 2 when the
    parser module cannot be imported. *)
Theorem check_after_set_baseline parser_imports send_mail_returns set_iter
    utcnow scans_dir set_at tenant scan_file d used d' :
  Py.truthy tenant = true ->
  set_baseline set_at tenant scan_file d = Returned (Some used, d') ->
  Sql.latest_scan_file d = Some used ->
  (forall f, In f scans_dir -> Py.endswith (fst f) ".xml" = true ->
             Sql.scan_file_exists d (fst f) = true) ->
  check_baseline parser_imports send_mail_returns set_iter utcnow scans_dir
    tenant d'
  = ((if parser_imports then 0 else 2), d', None).
Proof.
  intros Htenant Hrun Hlatest Hknown.
  destruct (compare_after_set_baseline set_iter set_at tenant scan_file d used d'
              Hrun Hlatest) as [Hsf Hcmp].
  unfold check_baseline. rewrite Htenant. simpl negb. cbv iota.
  assert (Hnoop : ingest_all_scans utcnow scans_dir d' = Returned d').
  { unfold ingest_all_scans. fold (xml_files scans_dir).
    apply ingest_files_all_known. intros f Hin.
    apply xml_files_In in Hin as [Hin Hxml].
    unfold Sql.scan_file_exists. rewrite Hsf. now apply Hknown. }
  rewrite Hnoop. simpl final.
  destruct parser_imports; simpl negb; cbv iota; [|reflexivity].
  now rewrite Hcmp.
Qed.

Lemma check_after_set_baseline_witness :
  exists d',
    set_baseline "2024-01-02T00:00:00Z" "acme" None Sample.tcp_and_udp
      = Returned (Some "site-udp-1.xml", d') /\
    check_baseline true (fun subj body => false) Sample.forwards Sample.clock
      [("site-udp-1.xml", ET.ParseError); ("readme.txt", ET.ParseError)]
      "acme" d' = (0, d', None).
Proof.
  eexists. split; [reflexivity|].
  apply (check_after_set_baseline true (fun subj body => false)
           Sample.forwards Sample.clock _
           "2024-01-02T00:00:00Z" "acme" None Sample.tcp_and_udp
           "site-udp-1.xml"); try reflexivity.
  intros f [<-|[<-|[]]] Hxml; [reflexivity | discriminate].
Defined.

(** * The list of addresses and the scans *)

Section Drop.
Variable first : list ascii -> option (list ascii).
Hypothesis first_takes : forall l r,
  first l = Some r -> exists w, w <> [] /\ l = (w ++ r)%list.




End Drop.

















Lemma scan_loop_acc run_subprocess cmd_of ips : forall rc0 ran0,
  fold_left
    (fun '(rc_total, ran) ip =>
       let cmd := cmd_of ip in
       let '(rc, out) := run_subprocess (length ran) cmd in
       let rc_total :=
         if negb (rc =? 0)
         then (if negb (rc_total =? 0) then rc_total else rc)
         else rc_total in
       (rc_total, (ran ++ [cmd])%list))
    ips (rc0, ran0)
  = (if negb (rc0 =? 0) then rc0
     else first_failure
            (return_codes run_subprocess (length ran0) (map cmd_of ips)),
     (ran0 ++ map cmd_of ips)%list).
Proof.
  induction ips as [|ip ips IH]; intros rc0 ran0; simpl.
  - rewrite app_nil_r. unfold first_failure. simpl.
    destruct (Z.eqb_spec rc0 0); simpl; congruence.
  - destruct (run_subprocess (length ran0) (cmd_of ip)) as [rc out] eqn:Hrun.
    rewrite IH, length_app, <- app_assoc. simpl.
    replace (length ran0 + 1)%nat with (S (length ran0)) by lia.
    f_equal. unfold first_failure. simpl.
    destruct (Z.eqb_spec rc 0) as [->|Hrc]; simpl.
    + reflexivity.
    + destruct (Z.eqb_spec rc0 0) as [->|Hrc0]; simpl.
      * now destruct (Z.eqb_spec rc 0).
      * now destruct (Z.eqb_spec rc0 0).
Qed.

Lemma first_failure_zero codes :
  first_failure codes = 0 <-> Forall (fun c => c = 0) codes.
Proof.
  unfold first_failure. induction codes as [|c codes IH]; simpl.
  - split; [constructor | reflexivity].
  - destruct (Z.eqb_spec c 0) as [->|Hc]; simpl.
    + rewrite IH. split; [now constructor | now inversion 1].
    + split; [contradiction | now inversion 1].
Qed.

(** X20.  The exit code of a scan.  [scan_tcp] and [scan_udp] raise when
    [read_ips] raises, and end with 1 and run nothing when [read_ips] gives
    no address.  Otherwise they run one scanner per address, in order and
    whatever the earlier ones returned, and end with the first return code
    that is not 0, so with 0 exactly when every scanner returned 0. *)
Theorem scan_exit_codes run_subprocess executable scanner ips_file tenant
    udp_ports :
  let tcp_cmd ip := [executable; scanner; "--ip"; ip; "--tenant"; tenant] in
  let udp_cmd ip :=
    (tcp_cmd ip ++ match udp_ports with
                   | Some p => ["--udp-ports"; p]
                   | None => []
                   end)%list in
  (read_ips ips_file = None ->
   scan_tcp run_subprocess executable scanner ips_file tenant = None /\
   scan_udp run_subprocess executable scanner ips_file tenant udp_ports
     = None) /\
  (read_ips ips_file = Some [] ->
   scan_tcp run_subprocess executable scanner ips_file tenant
     = Some (1, []) /\
   scan_udp run_subprocess executable scanner ips_file tenant udp_ports
     = Some (1, [])) /\
  (forall ips,
   read_ips ips_file = Some ips -> ips <> [] ->
   scan_tcp run_subprocess executable scanner ips_file tenant
     = Some (first_failure (return_codes run_subprocess 0 (map tcp_cmd ips)),
             map tcp_cmd ips) /\
   scan_udp run_subprocess executable scanner ips_file tenant udp_ports
     = Some (first_failure (return_codes run_subprocess 0 (map udp_cmd ips)),
             map udp_cmd ips)) /\
  (forall codes, first_failure codes = 0 <-> Forall (fun c => c = 0) codes).
Proof.
  intros tcp_cmd udp_cmd. unfold scan_tcp, scan_udp.
  split; [|split; [|split]].
  - intros ->. now split.
  - intros ->. now split.
  - intros ips -> Hne. destruct ips as [|ip0 rest]; [congruence|].
    unfold scan_loop. rewrite !scan_loop_acc. simpl negb. cbv iota.
    now split.
  - exact first_failure_zero.
Qed.

Lemma scan_exit_codes_witness :
  scan_tcp (fun n cmd => (if (n =? 1)%nat then 2 else 0, ""))
    "python3" "scanner/tcp_scanner.py"
    (Some ["# hosts"; " 10.0.0.1 "; ""; "10.0.0.2"; "10.0.0.3"]) "acme"
  = Some
      (2,
       [["python3"; "scanner/tcp_scanner.py"; "--ip"; "10.0.0.1"; "--tenant"; "acme"];
        ["python3"; "scanner/tcp_scanner.py"; "--ip"; "10.0.0.2"; "--tenant"; "acme"];
        ["python3"; "scanner/tcp_scanner.py"; "--ip"; "10.0.0.3"; "--tenant"; "acme"]]).
Proof.
  refine (proj1 (proj1 (proj2 (proj2 (scan_exit_codes
                                 (fun n cmd => (if (n =? 1)%nat then 2 else 0, ""))
                                 "python3" "scanner/tcp_scanner.py"
                                 (Some ["# hosts"; " 10.0.0.1 "; ""; "10.0.0.2";
                                        "10.0.0.3"])
                                 "acme" None)))
                  ["10.0.0.1"; "10.0.0.2"; "10.0.0.3"] eq_refl _)).
  discriminate.
Defined.


(** * Scanner files and their types *)

Lemma string_length_app (a b : string) :
  String.length (a ++ b) = (String.length a + String.length b)%nat.
Proof. induction a as [|c a IH]; simpl; [reflexivity | now rewrite IH]. Qed.

Lemma substring_prefix_app (sub b : string) :
  substring 0 (String.length sub) (sub ++ b) = sub.
Proof.
  induction sub as [|c sub IH]; simpl.
  - now destruct b.
  - now rewrite IH.
Qed.

Lemma substring_app_mid (a sub b : string) :
  substring (String.length a) (String.length sub) (a ++ sub ++ b) = sub.
Proof.
  induction a as [|c a IH]; simpl; [apply substring_prefix_app | exact IH].
Qed.

Lemma substr_in_app (a sub b : string) :
  sub <> "" -> Py.substr_in sub (a ++ sub ++ b) = true.
Proof.
  intros Hne. unfold Py.substr_in.
  destruct (index 0 sub (a ++ sub ++ b)) eqn:Hidx; [reflexivity|].
  exfalso.
  apply (index_correct3 0 (String.length a) sub (a ++ sub ++ b) Hidx Hne);
    [apply Nat.le_0_l | apply substring_app_mid].
Qed.

Lemma string_app_nil (a : string) : a ++ "" = a.
Proof. induction a as [|c a IH]; simpl; [reflexivity | now rewrite IH]. Qed.

Lemma string_app_assoc (a b c : string) : (a ++ b) ++ c = a ++ b ++ c.
Proof. induction a as [|x a IH]; simpl; [reflexivity | now rewrite IH]. Qed.

Lemma endswith_app (a suffix : string) : Py.endswith (a ++ suffix) suffix = true.
Proof.
  unfold Py.endswith. rewrite string_length_app.
  apply andb_true_intro. split.
  - apply Nat.leb_le. lia.
  - replace (String.length a + String.length suffix - String.length suffix)%nat
      with (String.length a) by lia.
    pose proof (substring_app_mid a suffix "") as Hmid.
    rewrite string_app_nil in Hmid. rewrite Hmid. apply String.eqb_refl.
Qed.

Lemma has_sep_app (a b : string) :
  has_sep (a ++ b) = has_sep a || has_sep b.
Proof.
  induction a as [|c a IH]; simpl; [reflexivity|].
  now rewrite IH, orb_assoc.
Qed.

Lemma basename_no_sep (n : string) :
  has_sep n = false -> os_path_basename n = n.
Proof.
  destruct n as [|c n]; simpl; [reflexivity|].
  intros Hn. apply orb_false_iff in Hn as [Hc Hn]. now rewrite Hn, Hc.
Qed.

Lemma basename_after_sep (a n : string) :
  has_sep n = false -> os_path_basename (a ++ String "/" n) = n.
Proof.
  intros Hn. induction a as [|c a IH]; simpl.
  - now rewrite Hn.
  - rewrite has_sep_app. simpl. rewrite orb_true_r. exact IH.
Qed.

Lemma basename_app_sep (a b : string) :
  has_sep b = true -> os_path_basename (a ++ b) = os_path_basename b.
Proof.
  intros Hb. induction a as [|c a IH]; simpl; [reflexivity|].
  rewrite has_sep_app, Hb, orb_true_r. exact IH.
Qed.

Lemma endswith_sep_inv (a : string) :
  Py.endswith a "/" = true -> exists a', a = a' ++ "/".
Proof.
  induction a as [|c a IH]; [discriminate|].
  destruct a as [|c' a'].
  - unfold Py.endswith. simpl. intros H.
    destruct (Ascii.eqb_spec c "/") as [->|]; [|discriminate].
    now exists "".
  - intros H. destruct IH as [r Hr].
    + unfold Py.endswith in *. simpl in *.
      now rewrite Nat.sub_0_r in *.
    + exists (String c r). simpl. now rewrite <- Hr.
Qed.

Lemma startswith_sep (f : string) :
  has_sep f = false -> startswith f "/" = false.
Proof.
  destruct f as [|c f]; [reflexivity|].
  intros H. cbn [has_sep] in H. apply orb_false_iff in H as [Hc _].
  unfold startswith.
  change (String.prefix "/" (String c f))
    with (if ascii_dec "/" c then String.prefix "" f else false).
  destruct (ascii_dec "/" c) as [<-|]; [discriminate | reflexivity].
Qed.

(** The base name of the path of a directory entry is the entry's name,
    which is what [ingest_all_scans] relies on. *)
Lemma basename_join (dir f : string) :
  has_sep f = false -> os_path_basename (os_path_join dir f) = f.
Proof.
  intros Hf. unfold os_path_join. rewrite (startswith_sep f Hf).
  destruct (negb (Py.truthy dir) || Py.endswith dir "/") eqn:Hdir.
  - apply orb_true_iff in Hdir as [Hempty|Hends].
    + unfold Py.truthy in Hempty. apply negb_true_iff, negb_false_iff in Hempty.
      apply String.eqb_eq in Hempty. subst dir. simpl.
      now apply basename_no_sep.
    + apply endswith_sep_inv in Hends as [dir' ->].
      rewrite string_app_assoc. simpl. now apply basename_after_sep.
  - simpl. now apply basename_after_sep.
Qed.

(** A path below [dir] whose last part holds a separator has the base name
    of that part. *)
Lemma basename_join_sep (dir front back : string) :
  startswith (front ++ back) "/" = false -> has_sep back = true ->
  os_path_basename (os_path_join dir (front ++ back)) = os_path_basename back.
Proof.
  intros Hstart Hback. unfold os_path_join. rewrite Hstart.
  destruct (negb (Py.truthy dir) || Py.endswith dir "/").
  - rewrite <- string_app_assoc. now apply basename_app_sep.
  - change (dir ++ "/" ++ front ++ back) with (dir ++ String "/" (front ++ back)).
    replace (dir ++ String "/" (front ++ back))
      with ((dir ++ String "/" front) ++ back).
    + now apply basename_app_sep.
    + rewrite string_app_assoc. reflexivity.
Qed.

(** X21.  The files that the scanners write, as the ingestion sees them.
    The ingestion lists the scans directory and takes the base name of the
    path of each entry, which is the entry's name.  For a scan time and a
    target without [/], the base name of the path that [tcp_scanner.py]
    writes is [scan-TS-tcp-IP.xml], which ends in [.xml] and is typed [tcp];
    that of the path that [udp_scanner.py] writes is [scan-TS-udp-IP.xml],
    which ends in [.xml] and is typed [udp] unless it contains [-tcp-], in
    which case it is typed [tcp]; neither is typed [unknown].  For a target
    with a [/] in it, as an address range has, the base name of the path
    written is that of the target followed by [.xml]: the scan time and the
    kind are not in it. *)
Theorem scanner_files_are_typed scans_dir ts ip :
  has_sep ts = false ->
  let tcp_name := "scan-" ++ ts ++ "-tcp-" ++ ip ++ ".xml" in
  let udp_name := "scan-" ++ ts ++ "-udp-" ++ ip ++ ".xml" in
  (forall f, has_sep f = false ->
             os_path_basename (os_path_join scans_dir f) = f) /\
  (has_sep ip = false ->
   os_path_basename (tcp_out_file scans_dir ts ip) = tcp_name /\
   os_path_basename (udp_out_file scans_dir ts ip) = udp_name) /\
  Py.endswith tcp_name ".xml" = true /\
  scan_type_of tcp_name = "tcp" /\
  Py.endswith udp_name ".xml" = true /\
  scan_type_of udp_name
    = (if Py.substr_in "-tcp-" udp_name then "tcp" else "udp") /\
  (has_sep ip = true ->
   os_path_basename (tcp_out_file scans_dir ts ip)
     = os_path_basename (ip ++ ".xml") /\
   os_path_basename (udp_out_file scans_dir ts ip)
     = os_path_basename (ip ++ ".xml")).
Proof.
  intros Hts tcp_name udp_name.
  split; [intros f Hf; now apply basename_join|].
  split; [|split; [|split; [|split; [|split]]]].
  - intros Hip. unfold tcp_out_file, udp_out_file.
    split; apply basename_join; simpl; rewrite has_sep_app, Hts; simpl;
      rewrite has_sep_app, Hip; reflexivity.
  - unfold tcp_name. rewrite <- !string_app_assoc. apply endswith_app.
  - unfold scan_type_of, tcp_name.
    replace ("scan-" ++ ts ++ "-tcp-" ++ ip ++ ".xml")
      with (("scan-" ++ ts) ++ "-tcp-" ++ (ip ++ ".xml"))
      by now rewrite string_app_assoc.
    now rewrite substr_in_app.
  - unfold udp_name. rewrite <- !string_app_assoc. apply endswith_app.
  - unfold scan_type_of, udp_name.
    destruct (Py.substr_in "-tcp-" _); [reflexivity|].
    replace ("scan-" ++ ts ++ "-udp-" ++ ip ++ ".xml")
      with (("scan-" ++ ts) ++ "-udp-" ++ (ip ++ ".xml"))
      by now rewrite string_app_assoc.
    now rewrite substr_in_app.
  - intros Hip. unfold tcp_out_file, udp_out_file.
    assert (Hback : has_sep (ip ++ ".xml") = true)
      by (rewrite has_sep_app, Hip; reflexivity).
    split.
    + replace ("scan-" ++ ts ++ "-tcp-" ++ ip ++ ".xml")
        with (("scan-" ++ ts ++ "-tcp-") ++ (ip ++ ".xml"))
        by now rewrite !string_app_assoc.
      now apply basename_join_sep.
    + replace ("scan-" ++ ts ++ "-udp-" ++ ip ++ ".xml")
        with (("scan-" ++ ts ++ "-udp-") ++ (ip ++ ".xml"))
        by now rewrite !string_app_assoc.
      now apply basename_join_sep.
Qed.

Lemma scanner_files_are_typed_witness :
  has_sep "20240101-000000" = false /\
  os_path_basename (tcp_out_file "scans" "20240101-000000" "10.0.0.1")
    = "scan-20240101-000000-tcp-10.0.0.1.xml" /\
  os_path_basename (tcp_out_file "scans" "20240101-000000" "10.0.0.0/24")
    = os_path_basename "10.0.0.0/24.xml".
Proof.
  destruct (scanner_files_are_typed "scans" "20240101-000000" "10.0.0.1"
              eq_refl) as (_ & Hname & _).
  destruct (scanner_files_are_typed "scans" "20240101-000000" "10.0.0.0/24"
              eq_refl) as (_ & _ & _ & _ & _ & _ & Hrange).
  split; [reflexivity|].
  split; [exact (proj1 (Hname eq_refl)) | exact (proj1 (Hrange eq_refl))].
Defined.

(** A UDP scan of a target whose name contains [-tcp-] is taken for a TCP
    scan, and the file of a scan of an address range is not one of the
    scans directory: the name that its path ends in is typed [unknown]. *)
Remark udp_scan_typed_tcp :
  scan_type_of
    (os_path_basename
       (udp_out_file "scans" "20240101-000000" "gw-tcp-1.example.org"))
    = "tcp" /\
  os_path_basename (tcp_out_file "scans" "20240101-000000" "10.0.0.0/24")
    = "24.xml" /\
  scan_type_of "24.xml" = "unknown".
Proof. repeat split. Qed.

(** * The tenants *)

Lemma In_distinct values x : In x (distinct values) <-> In x values.
Proof.
  induction values as [|v values IH]; simpl; [tauto|].
  rewrite filter_In, IH. split.
  - intros [->|[Hin _]]; auto.
  - intros [->|Hin]; [now left|].
    destruct (String.eqb_spec x v) as [->|Hne]; [now left | right; now split].
Qed.

Lemma NoDup_distinct values : NoDup (distinct values).
Proof.
  induction values as [|v values IH]; simpl; constructor.
  - intros Hin. apply filter_In in Hin as [_ Hne].
    now rewrite String.eqb_refl in Hne.
  - now apply NoDup_filter.
Qed.

Lemma baseline_of_nonempty d tenant :
  baseline_of d tenant <> [] <-> In tenant (map b_tenant (baseline_ports d)).
Proof.
  unfold baseline_of. induction (baseline_ports d) as [|r rows IH]; simpl.
  - tauto.
  - destruct (String.eqb_spec (b_tenant r) tenant) as [Heq|Hne].
    + split; [intros _; now left | discriminate].
    + rewrite IH. split; [now right | intros [Heq|Hin]; [contradiction|assumption]].
Qed.

(** X22.  Who is a tenant.  [list_tenants] names each tenant once, and
    names exactly the tenants that hold at least one baseline row.  So a
    tenant whose baseline has been set to no observations is not listed, as
    if it had never had a baseline; and setting the baseline of one tenant,
    whether the write succeeds or is rolled back, does not change whether
    another tenant is listed. *)
Theorem list_tenants_spec d :
  NoDup (list_tenants d) /\
  (forall tenant, In tenant (list_tenants d) <-> baseline_of d tenant <> []) /\
  (forall set_at tenant,
      ~ In tenant (list_tenants (snd (set_baseline_combined set_at d tenant [])))) /\
  (forall set_at tenant port_rows other,
      other <> tenant ->
      (In other
         (list_tenants (snd (set_baseline_combined set_at d tenant port_rows)))
       <-> In other (list_tenants d))).
Proof.
  assert (Hlist : forall d0 tenant,
             In tenant (list_tenants d0) <-> baseline_of d0 tenant <> []).
  { intros d0 tenant. unfold list_tenants.
    now rewrite In_distinct, baseline_of_nonempty. }
  split; [apply NoDup_distinct|]. split; [apply Hlist|]. split.
  - intros set_at tenant.
    destruct (set_baseline_combined_replaces set_at d tenant [] (Forall_nil _))
      as (d' & -> & Hrep & _).
    simpl. rewrite Hlist. intros Hne. now apply Hne.
  - intros set_at tenant port_rows other Hother. rewrite !Hlist.
    unfold set_baseline_combined.
    destruct (insert_baseline_rows _ _ _ _) as [d2|] eqn:Hins; [|reflexivity].
    pose proof (insert_baseline_rows_storable _ _ _ _ _ Hins) as Hst.
    destruct (delete_insert_replaces d tenant port_rows set_at Hst)
      as (d3 & Hins3 & _ & Hrest & _).
    assert (d3 = d2) by congruence. subst d3. simpl.
    now rewrite (Hrest other Hother).
Qed.

Lemma list_tenants_spec_witness :
  list_tenants Sample.two_tenants = ["acme"; "globex"] /\
  list_tenants
    (snd (set_baseline_combined "2024-01-02T00:00:00Z" Sample.two_tenants
            "acme" []))
  = ["globex"] /\
  ~ In "acme"
      (list_tenants
         (snd (set_baseline_combined "2024-01-02T00:00:00Z" Sample.two_tenants
                 "acme" []))).
Proof.
  split; [reflexivity|]. split; [reflexivity|].
  exact (proj1 (proj2 (proj2 (list_tenants_spec Sample.two_tenants)))
           "2024-01-02T00:00:00Z" "acme").
Defined.

(** * Further properties of the parser *)

Lemma parse_port_ip addr p r : In r (parse_port addr p) -> ip r = addr.
Proof.
  unfold parse_port. destruct (Py.int _); [|intros []].
  now intros [<-|[]].
Qed.

Lemma parse_host_ip host r :
  In r (parse_host host) ->
  first_addr (ET.findall host "address") = Some (ip r) /\
  Py.truthy (ip r) = true.
Proof.
  unfold parse_host.
  destruct (first_addr (ET.findall host "address")) as [addr|] eqn:Haddr;
    [|intros []].
  pose proof (first_addr_truthy _ _ Haddr) as Htruthy. rewrite Htruthy. simpl.
  destruct (ET.find host "ports") as [ports|]; [|intros []].
  intros Hin. apply in_flat_map in Hin as (p & _ & Hr).
  apply parse_port_ip in Hr. now subst addr.
Qed.

(** The address that the parser settles on, told from the children of the
    host alone: it is the [addr] of the first child that is an [address]
    element with a non-empty [addr]. *)
Lemma first_addr_of_children before a after addr :
  Forall (fun x => usable_address x = false) before ->
  usable_address a = true ->
  ET.get a "addr" = Some addr ->
  first_addr
    (filter (fun c => String.eqb (ET.tag c) "address") (before ++ a :: after))
  = Some addr.
Proof.
  intros Hbefore Ha Haddr. unfold usable_address in Ha.
  apply andb_true_iff in Ha as [Htag Htruthy].
  induction Hbefore as [|x before Hx _ IH]; simpl.
  - now rewrite Htag; simpl; rewrite Htruthy.
  - unfold usable_address in Hx.
    destruct (String.eqb (ET.tag x) "address"); simpl in *; [|exact IH].
    now rewrite Hx.
Qed.

Lemma parse_port_source addr p r :
  In r (parse_port addr p) ->
  Py.int (ET.get p "portid") = Some (port r) /\
  proto r = ET.get p "protocol".
Proof.
  unfold parse_port. destruct (Py.int _) as [portid|]; [|intros []].
  now intros [<-|[]].
Qed.

(** X23.  Where the records of the parser come from.  Every record has a
    non-empty address.  The records of a host element all carry one
    address: the [addr] of the first child of the host that is an [address]
    element with a non-empty [addr], whatever comes before it and whatever
    addresses follow it.  And every record of a host comes from a [port]
    element of the first [ports] element of that host: its port number is
    what [int] makes of the [portid] of that element, and its protocol is
    the [protocol] of that element. *)
Theorem parsed_records_have_hosts :
  (forall file r,
      In r (parse_nmap_xml_path file) -> Py.truthy (ip r) = true) /\
  (forall tag attrib before a after addr r,
      Forall (fun x => usable_address x = false) before ->
      usable_address a = true ->
      ET.get a "addr" = Some addr ->
      In r (parse_host (ET.Elem tag attrib (before ++ a :: after))) ->
      ip r = addr) /\
  (forall host r,
      In r (parse_host host) ->
      exists ports p,
        ET.find host "ports" = Some ports /\
        In p (ET.children ports) /\
        ET.tag p = "port" /\
        Py.int (ET.get p "portid") = Some (port r) /\
        proto r = ET.get p "protocol").
Proof.
  split; [|split].
  - intros [|root] r; simpl; [intros []|].
    intros Hin. apply in_flat_map in Hin as (host & _ & Hr).
    now apply parse_host_ip in Hr.
  - intros tag attrib before a after addr r Hbefore Ha Haddr Hin.
    apply parse_host_ip in Hin as [Hfirst _].
    unfold ET.findall in Hfirst. cbn [ET.children] in Hfirst.
    rewrite (first_addr_of_children before a after addr Hbefore Ha Haddr)
      in Hfirst.
    now injection Hfirst.
  - intros host r. unfold parse_host.
    destruct (first_addr (ET.findall host "address")) as [addr|]; [|intros []].
    destruct (negb (Py.truthy addr)); [intros []|].
    destruct (ET.find host "ports") as [ports|]; [|intros []].
    intros Hin. apply in_flat_map in Hin as (p & Hp & Hr).
    unfold ET.findall in Hp. apply filter_In in Hp as [Hp Htag].
    apply String.eqb_eq in Htag.
    exists ports, p. split; [reflexivity|]. split; [exact Hp|].
    split; [exact Htag|]. now apply parse_port_source in Hr.
Qed.

Lemma parsed_records_have_hosts_witness :
  parse_host Sample.host_with_addresses
    = [PortRecord "10.0.0.7" 443 (Some "tcp") (Some "open") "https"] /\
  Forall (fun r => ip r = "10.0.0.7") (parse_host Sample.host_with_addresses).
Proof.
  split; [reflexivity|]. apply Forall_forall. intros r Hin.
  destruct parsed_records_have_hosts as (_ & Haddr & _).
  apply (Haddr "host" []
           [ET.Elem "status" [("state", "up")] [];
            ET.Elem "address" [("addrtype", "ipv4")] []]
           (ET.Elem "address" [("addr", "10.0.0.7"); ("addrtype", "ipv4")] [])
           [ET.Elem "address"
              [("addr", "00:11:22:33:44:55"); ("addrtype", "mac")] [];
            ET.Elem "ports" []
              [ET.Elem "port" [("protocol", "tcp"); ("portid", "443")]
                 [ET.Elem "state" [("state", "open")] [];
                  ET.Elem "service" [("name", "https")] []]]]
           "10.0.0.7" r); try reflexivity; [|exact Hin].
  repeat constructor.
Defined.

(** * An empty latest scan *)

(** X24.  A newest artifact without records makes the whole baseline look
    removed.  When a run of ingestion returns and the new file whose name
    sorts last gives no record, because its document cannot be parsed or
    holds no port, [compare_baseline_to_latest] names that file as latest
    scan and reports, for every host of the tenant's baseline, all its
    entries as removed. *)
Theorem empty_latest_scan_removes_all set_iter utcnow scans_dir tenant d d'
    front fname file :
  iterates set_iter ->
  db_ok d ->
  NoDup (map fst scans_dir) ->
  ingest_all_scans utcnow scans_dir d = Returned d' ->
  filter (unknown d) (xml_files scans_dir) = (front ++ [(fname, file)])%list ->
  parse_nmap_xml_path file = [] ->
  exists report,
    compare_baseline_to_latest set_iter tenant d' = Some (fname, report) /\
    forall h b_map,
      Py.get (load_rows [] (Sql.select_baseline d tenant)) h = Some b_map ->
      Py.get report h = Some (HostDelta [] (Py.items b_map) []).
Proof.
  intros Hit Hok Hnd Hrun Hfresh Hempty.
  assert (Hok' : db_ok d').
  { pose proof (db_ok_ingest_files utcnow (xml_files scans_dir) d Hok) as H.
    unfold ingest_all_scans in Hrun. fold (xml_files scans_dir) in Hrun.
    now rewrite Hrun in H. }
  assert (Hnd' : NoDup (map fst (filter (unknown d) (xml_files scans_dir))))
    by now apply NoDup_map_filter, xml_files_NoDup.
  assert (Hnew : Sql.scan_file_exists d fname = false).
  { assert (Hin : In (fname, file) (filter (unknown d) (xml_files scans_dir)))
      by (rewrite Hfresh; apply in_or_app; right; now left).
    apply filter_In in Hin as [_ Hu]. unfold unknown in Hu. simpl in Hu.
    now apply negb_true_iff in Hu. }
  rewrite ingest_all_scans_fresh in Hrun.
  apply ingest_files_result in Hrun as (Hcols & Hports & Hbase);
    [|assumption | intros x Hin; now apply filter_In in Hin].
  (* the latest scan is the file *)
  assert (Hlatest : Sql.latest_scan_file d' = Some fname).
  { rewrite Hfresh, map_app, app_assoc in Hcols. simpl in Hcols.
    apply map_eq_snoc in Hcols as (rows & r & Hsplit & Hr).
    destruct Hok' as (_ & [Hsorted _] & _).
    unfold Sql.latest_scan_file. rewrite Hsplit in *.
    rewrite newest_snoc by now apply StronglySorted_app_lt in Hsorted.
    simpl. unfold scan_columns in Hr. congruence. }
  (* and it has no rows *)
  assert (Hrows : Sql.select_ports d' fname = []).
  { unfold Sql.select_ports. rewrite Hports, filter_app, map_app.
    fold (Sql.select_ports d fname).
    destruct Hok as (_ & _ & Hrefs & _).
    rewrite (select_ports_unknown d fname Hrefs Hnew). simpl.
    rewrite (select_parsed_rows _ fname file Hnd'); [assumption|].
    rewrite Hfresh. apply in_or_app. right. now left. }
  unfold compare_baseline_to_latest. rewrite Hlatest, Hrows.
  eexists. split; [reflexivity|].
  intros h b_map Hg. unfold Sql.select_baseline. rewrite Hbase.
  fold (Sql.select_baseline d tenant).
  rewrite compute_delta_nothing; [now rewrite Hg | assumption |].
  apply load_rows_inhabited. intros ? ? [].
Qed.

Lemma empty_latest_scan_removes_all_witness :
  exists report,
    compare_baseline_to_latest Sample.forwards "globex"
      (final (ingest_all_scans Sample.clock
                [("site-tcp-9.xml", ET.ParseError)] Sample.two_tenants))
    = Some ("site-tcp-9.xml", report) /\
    forall h b_map,
      Py.get (load_rows [] (Sql.select_baseline Sample.two_tenants "globex")) h
        = Some b_map ->
      Py.get report h = Some (HostDelta [] (Py.items b_map) []).
Proof.
  assert (Hok : db_ok Sample.two_tenants) by (repeat split; constructor).
  assert (Hnd : NoDup (map fst [("site-tcp-9.xml", ET.ParseError)]))
    by (repeat constructor; simpl; tauto).
  exact (empty_latest_scan_removes_all Sample.forwards Sample.clock
           [("site-tcp-9.xml", ET.ParseError)] "globex" Sample.two_tenants _
           [] "site-tcp-9.xml" ET.ParseError forwards_iterates Hok Hnd
           eq_refl eq_refl eq_refl).
Defined.

(** ** The command line of [main.py] *)

Lemma set_option_known pairs tail o :
  (forall p, In p pairs -> Cli.known (fst p) = true) ->
  Cli.parse_options (Cli.spelled pairs ++ tail)%list o
  = Cli.parse_options tail (Cli.read_pairs pairs o).
Proof.
  revert o. induction pairs as [|[f v] pairs IH]; intros o Hk.
  - reflexivity.
  - pose proof (Hk (f, v) (or_introl eq_refl)) as Hf. cbn [fst] in Hf.
    change (Cli.parse_options (Cli.spelled ((f, v) :: pairs) ++ tail)%list o)
      with (if Cli.known f
            then Cli.parse_options (Cli.spelled pairs ++ tail)%list
                   (Cli.set_option o f v)
            else Cli.SystemExit1).
    rewrite Hf. apply IH. intros p Hp. apply Hk. now right.
Qed.

Lemma tenant_flag_only f :
  Cli.is_tenant_flag f = true -> Cli.is_ips_flag f = false.
Proof.
  unfold Cli.is_tenant_flag. intros H.
  apply orb_true_iff in H. destruct H as [H|H];
    apply String.eqb_eq in H; subst f; reflexivity.
Qed.

Lemma read_pairs_snoc pairs f v o :
  Cli.read_pairs (pairs ++ [(f, v)])%list o
  = Cli.set_option (Cli.read_pairs pairs o) f v.
Proof. unfold Cli.read_pairs. now rewrite fold_left_app. Qed.

(** X25.  Reading the arguments of [main.py].  When every option name on
    the command line is one of the six known ones and each is followed by a
    value, the options are read from left to right, a value being taken as
    it stands, so that the last [--tenant] wins.  A known option name left
    as the last argument raises [IndexError], whatever the action, also
    [parse-scans] and an unknown action; an unknown name in the place of an
    option ends with exit code 1 before anything is called.  An action that
    needs a tenant returns 1 without calling anything when the tenant is
    missing or empty. *)
Theorem main_arguments (action : string) (pairs : list (string * string)) :
  (forall p, In p pairs -> Cli.known (fst p) = true) ->
  Cli.parse_options (Cli.spelled pairs) Cli.defaults
    = Cli.Parsed (Cli.read_pairs pairs Cli.defaults) /\
  (forall f v, Cli.is_tenant_flag f = true ->
     Cli.opt_tenant (Cli.read_pairs (pairs ++ [(f, v)])%list Cli.defaults)
       = Some v) /\
  (forall a, Cli.known a = true ->
     Cli.main (action :: Cli.spelled pairs ++ [a])%list
       = Cli.RaiseIndexError) /\
  (forall a rest, Cli.known a = false ->
     Cli.main (action :: Cli.spelled pairs ++ a :: rest)%list = Cli.Exit1) /\
  (In action ["scan-tcp"; "scan-udp"; "set-baseline"; "check-baseline";
              "check-baseline-combined"] ->
   Py.truthy_opt (Cli.opt_tenant (Cli.read_pairs pairs Cli.defaults)) = false ->
   Cli.main (action :: Cli.spelled pairs) = Cli.Return1).
Proof.
  intros Hk.
  assert (Hparse : Cli.parse_options (Cli.spelled pairs) Cli.defaults
                   = Cli.Parsed (Cli.read_pairs pairs Cli.defaults)).
  { rewrite <- (app_nil_r (Cli.spelled pairs)).
    now rewrite (set_option_known pairs [] _ Hk). }
  split; [exact Hparse|]. split; [|split; [|split]].
  - intros f v Hf. rewrite read_pairs_snoc. unfold Cli.set_option.
    now rewrite (tenant_flag_only f Hf), Hf.
  - intros a Ha. unfold Cli.main.
    rewrite (set_option_known pairs [a] _ Hk).
    change (Cli.parse_options [a] (Cli.read_pairs pairs Cli.defaults))
      with (if Cli.known a then Cli.IndexError else Cli.SystemExit1).
    now rewrite Ha.
  - intros a rest Ha. unfold Cli.main.
    rewrite (set_option_known pairs (a :: rest) _ Hk).
    change (Cli.parse_options (a :: rest) (Cli.read_pairs pairs Cli.defaults))
      with (if Cli.known a
            then match rest with
                 | v :: rest' =>
                     Cli.parse_options rest'
                       (Cli.set_option (Cli.read_pairs pairs Cli.defaults) a v)
                 | [] => Cli.IndexError
                 end
            else Cli.SystemExit1).
    now rewrite Ha.
  - intros Hact Hnot. unfold Cli.main. rewrite Hparse.
    assert (Hwt : forall call,
               Cli.with_tenant (Cli.read_pairs pairs Cli.defaults) call
               = Cli.Return1).
    { intros call. unfold Cli.with_tenant.
      destruct (Cli.opt_tenant (Cli.read_pairs pairs Cli.defaults)) as [t|];
        [|reflexivity].
      simpl in Hnot. now rewrite Hnot. }
    simpl in Hact.
    destruct Hact as [<-|[<-|[<-|[<-|[<-|[]]]]]]; simpl; apply Hwt.
Qed.

Lemma main_arguments_witness :
  Cli.main ["parse-scans"; "--ips-file"; "--tenant"; "--tenant"]
  = Cli.RaiseIndexError.
Proof.
  refine (proj1 (proj2 (proj2
            (main_arguments "parse-scans" [("--ips-file", "--tenant")] _)))
            "--tenant" eq_refl).
  intros p [<-|[]]. reflexivity.
Defined.
